(** * DHL24 WebAPI client (package [dhl]): a shallow embedding and its properties

    The client of [dhl/client.go] builds SOAP request envelopes with
    [encoding/xml], posts them, and decodes the response envelopes into the
    records of [dhl/types.go].  This development embeds

    - the Go library functions the client calls ([strconv], [unicode/utf8],
      [encoding/xml], [time]), as executable models of the fragment the
      client exercises;
    - the records of [types.go], each with the wire contract its struct
      tags declare;
    - the methods of [client.go], in a state-passing style over a [World]
      that holds the wall clock, the HTTP peer and the debug output.

    Go's [string] and [[]byte] are both sequences of bytes: [bytes] below.
    Go's [int] is a 64-bit integer, kept as a [Z].  A nil slice and an empty
    slice are the same list. *)

From Stdlib Require Import Ascii String List ZArith Lia Bool Arith.
Import ListNotations.
#[local] Set Warnings "-register-all".
Local Open Scope Z_scope.

(** ** Bytes and results *)

Abbreviation byte := ascii.
Abbreviation bytes := (list ascii).

Abbreviation B s := (list_ascii_of_string s%string).

Definition byte_val (c : byte) : Z := Z.of_N (N_of_ascii c).
Definition byte_of (z : Z) : byte := ascii_of_N (Z.to_N z).

Definition zero_byte : byte := "000"%char.
Definition newline_byte : byte := "010"%char.
Definition quote_byte : byte := "034"%char.

Fixpoint bytes_eqb (a b : bytes) : bool :=
  match a, b with
  | [], [] => true
  | x :: a', y :: b' => Ascii.eqb x y && bytes_eqb a' b'
  | _, _ => false
  end.

Fixpoint has_prefix (p s : bytes) : bool :=
  match p, s with
  | [], _ => true
  | x :: p', y :: s' => Ascii.eqb x y && has_prefix p' s'
  | _ :: _, [] => false
  end.

Inductive result (E A : Type) : Type :=
| Ok (a : A)
| Err (e : E).
Arguments Ok {E A} a.
Arguments Err {E A} e.

Definition rbind {E A C} (m : result E A) (k : A -> result E C) : result E C :=
  match m with
  | Ok a => k a
  | Err e => Err e
  end.

Declare Scope result_scope.
Delimit Scope result_scope with result.
Notation "' p <- m ;; k" := (rbind m (fun p => k))
  (at level 61, p pattern, m at next level, right associativity) : result_scope.
Notation "x <- m ;; k" := (rbind m (fun x => k))
  (at level 61, m at next level, right associativity) : result_scope.

(** ** Package [strconv] *)

Module strconv.

Definition digit_char (d : Z) : byte := byte_of (48 + d).

Definition is_digit (c : byte) : bool :=
  (48 <=? byte_val c) && (byte_val c <=? 57).

(** Decimal digits of a non-negative integer, most significant first.  The
    fuel bounds the number of digits after the first. *)
Fixpoint utoa_fuel (fuel : nat) (n : Z) (acc : bytes) : bytes :=
  let acc' := digit_char (n mod 10) :: acc in
  match fuel with
  | O => acc'
  | S f => if n / 10 =? 0 then acc' else utoa_fuel f (n / 10) acc'
  end.

Definition utoa (n : Z) : bytes := utoa_fuel (Z.to_nat (Z.log2 n)) n [].

(** [strconv.FormatInt(i, 10)] and [strconv.Itoa]. *)
Definition FormatInt (i : Z) : bytes :=
  if i <? 0 then "-"%char :: utoa (- i) else utoa i.

Fixpoint parse_digits (acc : Z) (s : bytes) : option Z :=
  match s with
  | [] => Some acc
  | c :: s' =>
      if is_digit c then parse_digits (10 * acc + (byte_val c - 48)) s'
      else None
  end.

(** [strconv.ParseUint(s, 10, 64)] without the range check, which the
    callers apply to the value. *)
Definition parse_unsigned (s : bytes) : option Z :=
  match s with
  | [] => None
  | _ => parse_digits 0 s
  end.

(** [strconv.ParseInt(s, 10, 64)]: an optional sign, decimal digits, and
    the result within the range of [int64]; [None] is a [*NumError]. *)
Definition ParseInt (s : bytes) : option Z :=
  match s with
  | [] => None
  | c :: s' =>
      if Ascii.eqb c "-" then
        match parse_unsigned s' with
        | Some n => if n <=? 2 ^ 63 then Some (- n) else None
        | None => None
        end
      else
        match parse_unsigned (if Ascii.eqb c "+" then s' else s) with
        | Some n => if n <? 2 ^ 63 then Some n else None
        | None => None
        end
  end.

Definition FormatBool (b : bool) : bytes :=
  if b then B "true" else B "false".

Definition ParseBool (s : bytes) : option bool :=
  if existsb (bytes_eqb s)
       [B "1"; B "t"; B "T"; B "TRUE"; B "true"; B "True"] then Some true
  else if existsb (bytes_eqb s)
       [B "0"; B "f"; B "F"; B "FALSE"; B "false"; B "False"] then Some false
  else None.

End strconv.

(** ** Package [strings] *)

Module strings.

(** The ASCII white space of [unicode.IsSpace]; the multi-byte Unicode
    spaces are not modelled. *)
Definition is_space (c : byte) : bool :=
  let v := byte_val c in
  ((9 <=? v) && (v <=? 13)) || (v =? 32).

Fixpoint TrimLeft (s : bytes) : bytes :=
  match s with
  | c :: s' => if is_space c then TrimLeft s' else s
  | [] => []
  end.

Definition TrimSpace (s : bytes) : bytes :=
  rev (TrimLeft (rev (TrimLeft s))).

Definition to_lower (c : byte) : byte :=
  let v := byte_val c in
  if (65 <=? v) && (v <=? 90) then byte_of (v + 32) else c.

(** [strings.EqualFold] on ASCII letters. *)
Definition EqualFold (a b : bytes) : bool :=
  bytes_eqb (map to_lower a) (map to_lower b).

(** [strings.Index(s, sep)], [None] for -1. *)
Fixpoint Index (s sep : bytes) : option nat :=
  if has_prefix sep s then Some O
  else match s with
       | [] => None
       | _ :: s' => option_map S (Index s' sep)
       end.

Fixpoint IndexByte (s : bytes) (c : byte) : option nat :=
  match s with
  | [] => None
  | x :: s' => if Ascii.eqb x c then Some O else option_map S (IndexByte s' c)
  end.

Definition Count (s : bytes) (c : byte) : nat :=
  List.length (filter (Ascii.eqb c) s).

End strings.

(** ** Package [unicode/utf8] *)

Module utf8.

Definition RuneError : Z := 65533.
Definition MaxRune : Z := 1114111.

(** [utf8.DecodeRune]: the first rune of [p] and its width in bytes;
    [(RuneError, 1)] on an invalid or short encoding, [(RuneError, 0)] on
    empty input. *)
Definition DecodeRune (p : bytes) : Z * nat :=
  match p with
  | [] => (RuneError, 0%nat)
  | p0 :: t =>
      let b0 := byte_val p0 in
      if b0 <? 128 then (b0, 1%nat)
      else if (b0 <? 194) || (244 <? b0) then (RuneError, 1%nat)
      else
        let lo := if b0 =? 224 then 160 else if b0 =? 240 then 144 else 128 in
        let hi := if b0 =? 237 then 159 else if b0 =? 244 then 143 else 191 in
        match t with
        | [] => (RuneError, 1%nat)
        | p1 :: t1 =>
            let b1 := byte_val p1 in
            if b0 <? 224 then
              if (b1 <? lo) || (hi <? b1) then (RuneError, 1%nat)
              else (Z.lor (Z.shiftl (Z.land b0 31) 6) (Z.land b1 63), 2%nat)
            else
              match t1 with
              | [] => (RuneError, 1%nat)
              | p2 :: t2 =>
                  let b2 := byte_val p2 in
                  if b0 <? 240 then
                    if (b1 <? lo) || (hi <? b1) then (RuneError, 1%nat)
                    else if (b2 <? 128) || (191 <? b2) then (RuneError, 1%nat)
                    else (Z.lor (Z.lor (Z.shiftl (Z.land b0 15) 12)
                                       (Z.shiftl (Z.land b1 63) 6))
                                (Z.land b2 63), 3%nat)
                  else
                    match t2 with
                    | [] => (RuneError, 1%nat)
                    | p3 :: _ =>
                        let b3 := byte_val p3 in
                        if (b1 <? lo) || (hi <? b1) then (RuneError, 1%nat)
                        else if (b2 <? 128) || (191 <? b2) then (RuneError, 1%nat)
                        else if (b3 <? 128) || (191 <? b3) then (RuneError, 1%nat)
                        else (Z.lor (Z.lor (Z.lor (Z.shiftl (Z.land b0 7) 18)
                                                  (Z.shiftl (Z.land b1 63) 12))
                                           (Z.shiftl (Z.land b2 63) 6))
                                    (Z.land b3 63), 4%nat)
                    end
              end
        end
  end.

(** [string(rune(r))]: the UTF-8 encoding of [r], and of [RuneError] for a
    surrogate or a value out of range. *)
Definition EncodeRune (r : Z) : bytes :=
  if (0 <=? r) && (r <=? 127) then [byte_of r]
  else if (0 <=? r) && (r <=? 2047) then
    [byte_of (Z.lor 192 (Z.shiftr r 6)); byte_of (Z.lor 128 (Z.land r 63))]
  else if (r <? 0) || (MaxRune <? r) || ((55296 <=? r) && (r <=? 57343)) then
    [byte_of 239; byte_of 191; byte_of 189]
  else if r <=? 65535 then
    [byte_of (Z.lor 224 (Z.shiftr r 12));
     byte_of (Z.lor 128 (Z.land (Z.shiftr r 6) 63));
     byte_of (Z.lor 128 (Z.land r 63))]
  else
    [byte_of (Z.lor 240 (Z.shiftr r 18));
     byte_of (Z.lor 128 (Z.land (Z.shiftr r 12) 63));
     byte_of (Z.lor 128 (Z.land (Z.shiftr r 6) 63));
     byte_of (Z.lor 128 (Z.land r 63))].

End utf8.

(** ** Package [encoding/xml] *)

Module xml.

(** The errors of the package, by kind.  [EOF] is [io.EOF], returned when
    the input holds no element at all. *)
Inductive error : Type :=
| SyntaxError
| UnsupportedVersion
| UnsupportedEncoding
| UnmarshalError
| NumError
| EOF.

(** [xml.Header]. *)
Definition Header : bytes :=
  B "<?xml version=" ++ [quote_byte] ++ B "1.0" ++ [quote_byte]
  ++ B " encoding=" ++ [quote_byte] ++ B "UTF-8" ++ [quote_byte]
  ++ B "?>" ++ [newline_byte].

(** *** Encoder *)

(** The XML 1.0 character range ([isInCharacterRange]). *)
Definition isInCharacterRange (r : Z) : bool :=
  (r =? 9) || (r =? 10) || (r =? 13)
  || ((32 <=? r) && (r <=? 55295))
  || ((57344 <=? r) && (r <=? 65533))
  || ((65536 <=? r) && (r <=? 1114111)).

(** What [EscapeText] writes for the rune [r], decoded from the [width]
    bytes [orig]. *)
Definition escape_rune (r : Z) (width : nat) (orig : bytes) : bytes :=
  if r =? 34 then B "&#34;"
  else if r =? 39 then B "&#39;"
  else if r =? 38 then B "&amp;"
  else if r =? 60 then B "&lt;"
  else if r =? 62 then B "&gt;"
  else if r =? 9 then B "&#x9;"
  else if r =? 10 then B "&#xA;"
  else if r =? 13 then B "&#xD;"
  else if negb (isInCharacterRange r)
          || ((r =? utf8.RuneError) && (width =? 1)%nat)
       then utf8.EncodeRune utf8.RuneError
       else orig.

(** The loop of [escapeText]: decode a rune at the current position, write
    its escape, and step over its [width] bytes ([skip] counts the bytes
    of the current rune still to step over). *)
Fixpoint escape_from (skip : nat) (s : bytes) : bytes :=
  match s with
  | [] => []
  | _ :: s' =>
      match skip with
      | S k => escape_from k s'
      | O =>
          let '(r, width) := utf8.DecodeRune s in
          escape_rune r width (firstn width s) ++ escape_from (width - 1) s'
      end
  end.

Definition EscapeText (s : bytes) : bytes := escape_from 0 s.

(** What [marshalValue] emits: a value of a simple type is an element
    holding character data; a struct is an element holding the elements of
    its fields.  Names are the tag names as declared, prefix included. *)
Inductive Markup : Type :=
| Leaf (name : bytes) (text : bytes)
| Branch (name : bytes) (attrs : list (bytes * bytes)) (kids : list Markup).

Definition write_attr (a : bytes * bytes) : bytes :=
  " "%char :: fst a ++ B "=" ++ [quote_byte] ++ EscapeText (snd a) ++ [quote_byte].

Definition start_tag (name : bytes) (attrs : list (bytes * bytes)) : bytes :=
  "<"%char :: name ++ flat_map write_attr attrs ++ [">"%char].

Definition end_tag (name : bytes) : bytes :=
  B "</" ++ name ++ [">"%char].

(** [printer.writeIndent]: a new line, then [depth] copies of the indent. *)
Definition newline_indent (indent : bytes) (depth : nat) : bytes :=
  newline_byte :: concat (repeat indent depth).

(** The printer of [MarshalIndent] with an empty prefix: each start tag
    goes on a line of its own; an end tag does, too, unless nothing but
    character data was written since its start tag. *)
Fixpoint render (indent : bytes) (depth : nat) (m : Markup) : bytes :=
  match m with
  | Leaf name text => start_tag name [] ++ EscapeText text ++ end_tag name
  | Branch name attrs kids =>
      start_tag name attrs
      ++ match kids with
         | [] => []
         | _ :: _ =>
             flat_map (fun k => newline_indent indent (S depth)
                                ++ render indent (S depth) k) kids
             ++ newline_indent indent depth
         end
      ++ end_tag name
  end.

(** *** Decoder: tokens *)

Record Name : Type := { Space : bytes; Local : bytes }.

Record Attr : Type := { AttrName : Name; AttrValue : bytes }.

(** The tokens of [Decoder.Token].  A start tag [<a/>] is a
    [StartElement] flagged empty (the decoder then produces the matching
    [EndElement] on its own).  Name spaces are not translated: [Space] is
    the prefix as written.  No field of [types.go] declares a name space,
    so that [Unmarshal] matches on [Local] only. *)
Inductive Token : Type :=
| StartElement (name : Name) (attrs : list Attr) (empty : bool)
| EndElement (name : Name)
| CharData (data : bytes)
| Comment (data : bytes)
| ProcInst (target : bytes) (inst : bytes)
| Directive.

Definition is_byte (c : byte) (v : string) : bool :=
  match v with
  | String x EmptyString => Ascii.eqb c x
  | _ => false
  end.

(** [Decoder.space]. *)
Definition is_xml_space (c : byte) : bool :=
  is_byte c " " || Ascii.eqb c "013" || Ascii.eqb c "010" || Ascii.eqb c "009".

Fixpoint skip_space (s : bytes) : bytes :=
  match s with
  | c :: s' => if is_xml_space c then skip_space s' else s
  | [] => []
  end.

Definition isNameByte (c : byte) : bool :=
  let v := byte_val c in
  ((65 <=? v) && (v <=? 90)) || ((97 <=? v) && (v <=? 122))
  || ((48 <=? v) && (v <=? 57))
  || (v =? 95) || (v =? 58) || (v =? 46) || (v =? 45).

Fixpoint span_name (s : bytes) : bytes * bytes :=
  match s with
  | c :: s' =>
      if (128 <=? byte_val c) || isNameByte c
      then let '(n, r) := span_name s' in (c :: n, r)
      else ([], s)
  | [] => ([], [])
  end.

(** [Decoder.readName]: the longest run of name bytes, which must be
    non-empty and followed by some byte. *)
Definition readName (s : bytes) : option (bytes * bytes) :=
  match span_name s with
  | ([], _) => None
  | (_, []) => None
  | (n, r) => Some (n, r)
  end.

Definition is_name_start (c : byte) : bool :=
  let v := byte_val c in
  ((65 <=? v) && (v <=? 90)) || ((97 <=? v) && (v <=? 122))
  || (v =? 95) || (v =? 58).

(** [isName], on ASCII: a letter, [_] or [:], then letters, digits and
    [_ : . -].  The Unicode name tables beyond ASCII are not modelled: a
    name with a byte above 127 is reported invalid. *)
Definition isName (n : bytes) : bool :=
  match n with
  | [] => false
  | c :: n' => is_name_start c && forallb isNameByte n'
  end.

Fixpoint cut_colon (s : bytes) : option (bytes * bytes) :=
  match s with
  | [] => None
  | c :: s' =>
      if Ascii.eqb c ":" then Some ([], s')
      else match cut_colon s' with
           | Some (a, b) => Some (c :: a, b)
           | None => None
           end
  end.

(** The split of [Decoder.nsname] on a name already read. *)
Definition split_name (n : bytes) : option Name :=
  if (1 <? strings.Count n ":"%char)%nat then None
  else match cut_colon n with
       | Some (sp, lo) =>
           match sp, lo with
           | [], _ | _, [] => Some {| Space := []; Local := n |}
           | _, _ => Some {| Space := sp; Local := lo |}
           end
       | None => Some {| Space := []; Local := n |}
       end.

(** [Decoder.name], then the name-space split. *)
Definition nsname (s : bytes) : option (Name * bytes) :=
  match readName s with
  | Some (n, r) =>
      if isName n then
        match split_name n with
        | Some nm => Some (nm, r)
        | None => None
        end
      else None
  | None => None
  end.

(** *** Decoder: character data *)

Definition hex_val (c : byte) : option Z :=
  let v := byte_val c in
  if (48 <=? v) && (v <=? 57) then Some (v - 48)
  else if (97 <=? v) && (v <=? 102) then Some (v - 87)
  else if (65 <=? v) && (v <=? 70) then Some (v - 55)
  else None.

Fixpoint parse_hex (acc : Z) (s : bytes) : option Z :=
  match s with
  | [] => Some acc
  | c :: s' =>
      match hex_val c with
      | Some d => parse_hex (16 * acc + d) s'
      | None => None
      end
  end.

Definition rune_text (n : option Z) : option bytes :=
  match n with
  | Some r => if r <=? utf8.MaxRune then Some (utf8.EncodeRune r) else None
  | None => None
  end.

(** The text an entity reference [&name;] stands for: a character
    reference in decimal or hexadecimal, or one of the five predefined
    entities ([Decoder.Entity] is nil). *)
Definition entity_text (name : bytes) : option bytes :=
  match name with
  | c :: ds =>
      if Ascii.eqb c "#" then
        match ds with
        | [] => None
        | x :: hs =>
            if Ascii.eqb x "x" then
              match hs with
              | [] => None
              | _ :: _ => rune_text (parse_hex 0 hs)
              end
            else rune_text (strconv.parse_digits 0 ds)
        end
      else if bytes_eqb name (B "lt") then Some (B "<")
      else if bytes_eqb name (B "gt") then Some (B ">")
      else if bytes_eqb name (B "amp") then Some (B "&")
      else if bytes_eqb name (B "apos") then Some (B "'")
      else if bytes_eqb name (B "quot") then Some [quote_byte]
      else None
  | [] => None
  end.

(** The body of the loop of [Decoder.text] on the bytes up to the
    terminator: entity references are replaced (outside CDATA), an
    unescaped carriage return or carriage return and line feed becomes a
    line feed, and [\]\]>] is refused.  [b0] and [b1] are the two bytes
    before the current one; [ent] holds the bytes of the reference being
    read, latest first. *)
Fixpoint unescape (cdata : bool) (b0 b1 : byte) (ent : option bytes)
         (s : bytes) : option bytes :=
  match s with
  | [] =>
      match ent with
      | None => Some []
      | Some _ => None
      end
  | c :: s' =>
      match ent with
      | Some acc =>
          if Ascii.eqb c ";" then
            match entity_text (rev acc) with
            | Some t =>
                option_map (app t) (unescape cdata zero_byte zero_byte None s')
            | None => None
            end
          else unescape cdata b0 b1 (Some (c :: acc)) s'
      | None =>
          if Ascii.eqb b0 "]" && Ascii.eqb b1 "]" && Ascii.eqb c ">" then None
          else if Ascii.eqb c "&" && negb cdata then
            unescape cdata b0 b1 (Some []) s'
          else if Ascii.eqb c "013" then
            option_map (cons "010"%char) (unescape cdata b1 c None s')
          else if Ascii.eqb b1 "013" && Ascii.eqb c "010" then
            unescape cdata b1 c None s'
          else option_map (cons c) (unescape cdata b1 c None s')
      end
  end.

(** The last loop of [Decoder.text]: every rune is well encoded and in
    the character range. *)
Fixpoint valid_from (skip : nat) (s : bytes) : bool :=
  match s with
  | [] => true
  | _ :: s' =>
      match skip with
      | S k => valid_from k s'
      | O =>
          let '(r, width) := utf8.DecodeRune s in
          if (r =? utf8.RuneError) && (width =? 1)%nat then false
          else if isInCharacterRange r then valid_from (width - 1) s'
          else false
      end
  end.

Definition valid_text (s : bytes) : bool := valid_from 0 s.

Definition decode_text (cdata : bool) (raw : bytes) : option bytes :=
  match unescape cdata zero_byte zero_byte None raw with
  | Some d => if valid_text d then Some d else None
  | None => None
  end.

(** The extent of character data: up to, and without, the next [<]. *)
Fixpoint span_chardata (s : bytes) : bytes * bytes :=
  match s with
  | c :: s' =>
      if Ascii.eqb c "<" then ([], s)
      else let '(d, r) := span_chardata s' in (c :: d, r)
  | [] => ([], [])
  end.

(** The extent of a quoted attribute value: up to the closing quote,
    which is consumed; a [<] before it is an error. *)
Fixpoint span_quoted (q : byte) (s : bytes) : option (bytes * bytes) :=
  match s with
  | c :: s' =>
      if Ascii.eqb c "<" then None
      else if Ascii.eqb c q then Some ([], s')
      else match span_quoted q s' with
           | Some (d, r) => Some (c :: d, r)
           | None => None
           end
  | [] => Some ([], [])
  end.

(** The extent of a CDATA section: up to the first [\]\]>]. *)
Fixpoint span_cdata (s : bytes) : option (bytes * bytes) :=
  match s with
  | [] => None
  | c :: s' =>
      if has_prefix (B "]]>") s then Some ([], skipn 2 s')
      else match span_cdata s' with
           | Some (d, r) => Some (c :: d, r)
           | None => None
           end
  end.

(** *** Decoder: markup *)

(** A processing instruction, after its target: up to the closing [?>].
    The data returned still ends with the [?]. *)
Fixpoint span_procinst (b0 : byte) (s : bytes) : option (bytes * bytes) :=
  match s with
  | [] => None
  | c :: s' =>
      if Ascii.eqb b0 "?" && Ascii.eqb c ">" then Some ([], s')
      else match span_procinst c s' with
           | Some (d, r) => Some (c :: d, r)
           | None => None
           end
  end.

(** A comment, after [<!--]: up to the closing [-->]; [--] followed by
    anything else is an error.  The data returned still ends with [--]. *)
Fixpoint span_comment (b0 b1 : byte) (s : bytes) : option (bytes * bytes) :=
  match s with
  | [] => None
  | c :: s' =>
      if Ascii.eqb b0 "-" && Ascii.eqb b1 "-" then
        if Ascii.eqb c ">" then Some ([], s') else None
      else match span_comment b1 c s' with
           | Some (d, r) => Some (c :: d, r)
           | None => None
           end
  end.

(** A directive [<!DOCTYPE ...>]: quoted angle brackets do not nest, and a
    comment inside is skipped. *)
Inductive dstate : Type :=
| DText (inquote : byte) (depth : nat)
| DOpen (matched : nat) (depth : nat)
| DComment (b0 b1 : byte) (depth : nat).

(** The [switch] at the label [HandleB]. *)
Definition handle_b (inquote : byte) (depth : nat) (b : byte) : dstate :=
  if Ascii.eqb b inquote then DText zero_byte depth
  else if negb (Ascii.eqb inquote zero_byte) then DText inquote depth
  else if Ascii.eqb b "'" || Ascii.eqb b quote_byte then DText b depth
  else if Ascii.eqb b ">" then DText inquote (Nat.pred depth)
  else if Ascii.eqb b "<" then DOpen 0 depth
  else DText inquote depth.

Fixpoint span_directive (st : dstate) (s : bytes) : option bytes :=
  match s with
  | [] => None
  | b :: s' =>
      match st with
      | DText inquote depth =>
          if Ascii.eqb inquote zero_byte && Ascii.eqb b ">" && (depth =? 0)%nat
          then Some s'
          else span_directive (handle_b inquote depth b) s'
      | DOpen i depth =>
          if Ascii.eqb b (nth i (B "!--") zero_byte) then
            if (i =? 2)%nat then span_directive (DComment zero_byte zero_byte depth) s'
            else span_directive (DOpen (S i) depth) s'
          else span_directive (handle_b zero_byte (S depth) b) s'
      | DComment b0 b1 depth =>
          if Ascii.eqb b0 "-" && Ascii.eqb b1 "-" && Ascii.eqb b ">"
          then span_directive (DText zero_byte depth) s'
          else span_directive (DComment b1 b depth) s'
      end
  end.

Definition is_quote (c : byte) : bool := Ascii.eqb c quote_byte || Ascii.eqb c "'".

(** [procInst(param, s)]: the value of the pseudo-attribute [param] of an
    XML declaration, empty when there is none. *)
Fixpoint procInst_sep (fuel : nat) (param s : bytes) : option (byte * bytes) :=
  match fuel with
  | O => None
  | S f =>
      match strings.Index s param with
      | None => None
      | Some k =>
          match skipn (k + List.length param) s with
          | [] => None
          | c :: r => if is_quote c then Some (c, r) else procInst_sep f param r
          end
      end
  end.

Definition procInst (param s : bytes) : bytes :=
  match procInst_sep (S (List.length s)) (param ++ B "=") s with
  | Some (sep, r) =>
      match strings.IndexByte r sep with
      | Some j => firstn j r
      | None => []
      end
  | None => []
  end.

(** The check of the declaration [<?xml ...?>]; [Decoder.CharsetReader]
    is nil, so that only UTF-8 is accepted. *)
Definition check_declaration (content : bytes) : option error :=
  let ver := procInst (B "version") content in
  if negb (bytes_eqb ver []) && negb (bytes_eqb ver (B "1.0"))
  then Some UnsupportedVersion
  else
    let enc := procInst (B "encoding") content in
    if negb (bytes_eqb enc []) && negb (bytes_eqb enc (B "utf-8"))
       && negb (bytes_eqb enc (B "UTF-8"))
       && negb (strings.EqualFold enc (B "utf-8"))
    then Some UnsupportedEncoding
    else None.

(** The attributes of a start tag, up to its [>] or [/>] (strict mode:
    every attribute has a quoted value). *)
Fixpoint read_attrs (fuel : nat) (s : bytes) : option (list Attr * bool * bytes) :=
  match fuel with
  | O => None
  | S f =>
      match skip_space s with
      | [] => None
      | c :: r =>
          if Ascii.eqb c "/" then
            match r with
            | x :: r' => if Ascii.eqb x ">" then Some ([], true, r') else None
            | [] => None
            end
          else if Ascii.eqb c ">" then Some ([], false, r)
          else
            match nsname (c :: r) with
            | None => None
            | Some (an, r1) =>
                match skip_space r1 with
                | e :: r2 =>
                    if Ascii.eqb e "=" then
                      match skip_space r2 with
                      | q :: r3 =>
                          if is_quote q then
                            match span_quoted q r3 with
                            | Some (raw, r4) =>
                                match decode_text false raw with
                                | Some v =>
                                    match read_attrs f r4 with
                                    | Some (attrs, em, rest) =>
                                        Some ({| AttrName := an; AttrValue := v |}
                                                :: attrs, em, rest)
                                    | None => None
                                    end
                                | None => None
                                end
                            | None => None
                            end
                          else None
                      | [] => None
                      end
                    else None
                | [] => None
                end
            end
      end
  end.

Inductive tok_result : Type :=
| TokEOF
| TokErr (e : error)
| Tok (t : Token) (rest : bytes).

Definition tok_of {A} (o : option A) (k : A -> tok_result) : tok_result :=
  match o with
  | Some a => k a
  | None => TokErr SyntaxError
  end.

(** [Decoder.rawToken] in strict mode: the next token of [s] and the
    input after it. *)
Definition rawToken (s : bytes) : tok_result :=
  match s with
  | [] => TokEOF
  | c :: s1 =>
      if negb (Ascii.eqb c "<") then
        let '(raw, rest) := span_chardata s in
        tok_of (decode_text false raw) (fun d => Tok (CharData d) rest)
      else
        match s1 with
        | [] => TokErr SyntaxError
        | k :: s2 =>
            if Ascii.eqb k "/" then
              tok_of (nsname s2) (fun '(nm, r) =>
                match skip_space r with
                | g :: rest =>
                    if Ascii.eqb g ">" then Tok (EndElement nm) rest
                    else TokErr SyntaxError
                | [] => TokErr SyntaxError
                end)
            else if Ascii.eqb k "?" then
              tok_of (readName s2) (fun '(target, r) =>
                if isName target then
                  tok_of (span_procinst zero_byte (skip_space r)) (fun '(d, rest) =>
                    let inst := removelast d in
                    if bytes_eqb target (B "xml") then
                      match check_declaration inst with
                      | Some e => TokErr e
                      | None => Tok (ProcInst target inst) rest
                      end
                    else Tok (ProcInst target inst) rest)
                else TokErr SyntaxError)
            else if Ascii.eqb k "!" then
              match s2 with
              | [] => TokErr SyntaxError
              | x :: s3 =>
                  if Ascii.eqb x "-" then
                    match s3 with
                    | y :: s4 =>
                        if Ascii.eqb y "-" then
                          tok_of (span_comment zero_byte zero_byte s4)
                            (fun '(d, rest) =>
                               Tok (Comment (firstn (List.length d - 2) d)) rest)
                        else TokErr SyntaxError
                    | [] => TokErr SyntaxError
                    end
                  else if Ascii.eqb x "[" then
                    if has_prefix (B "CDATA[") s3 then
                      tok_of (span_cdata (skipn 6 s3)) (fun '(raw, rest) =>
                        tok_of (decode_text true raw)
                               (fun d => Tok (CharData d) rest))
                    else TokErr SyntaxError
                  else
                    tok_of (span_directive (DText zero_byte 0) s3)
                           (fun rest => Tok Directive rest)
              end
            else
              tok_of (nsname s1) (fun '(nm, r) =>
                tok_of (read_attrs (S (List.length r)) r) (fun '(attrs, em, rest) =>
                  Tok (StartElement nm attrs em) rest))
        end
  end.

(** *** Decoder: the element tree *)

(** What [Unmarshal] sees of an element: its name, its attributes, and its
    content, character data and elements in document order.  Comments,
    processing instructions and directives are read and dropped: no type
    of [types.go] has a field for them. *)
Inductive Node : Type :=
| Element (name : Name) (attrs : list Attr) (children : list Node)
| Text (data : bytes).

Definition name_eqb (a b : Name) : bool :=
  bytes_eqb (Local a) (Local b) && bytes_eqb (Space a) (Space b).

Local Open Scope result_scope.

(** The content of the element [open], up to its end tag, which must
    carry the same name.  Reaching the end of the input first is a syntax
    error ([unexpected EOF]). *)
Fixpoint parse_nodes (fuel : nat) (open : Name) (s : bytes)
  : result error (list Node * bytes) :=
  match fuel with
  | O => Err SyntaxError
  | S f =>
      match rawToken s with
      | TokEOF => Err SyntaxError
      | TokErr e => Err e
      | Tok t rest =>
          match t with
          | StartElement name attrs em =>
              if em then
                '(sibs, r) <- parse_nodes f open rest ;;
                Ok (Element name attrs [] :: sibs, r)
              else
                '(kids, r1) <- parse_nodes f name rest ;;
                '(sibs, r2) <- parse_nodes f open r1 ;;
                Ok (Element name attrs kids :: sibs, r2)
          | EndElement name =>
              if name_eqb name open then Ok ([], rest) else Err SyntaxError
          | CharData d =>
              '(sibs, r) <- parse_nodes f open rest ;;
              Ok (Text d :: sibs, r)
          | Comment _ | ProcInst _ _ | Directive => parse_nodes f open rest
          end
      end
  end.

(** The first loop of [Decoder.unmarshal]: tokens are read and dropped up
    to the first start tag.  An end tag there is a syntax error, the end of
    the input is [io.EOF]. *)
Fixpoint find_root (fuel : nat) (s : bytes)
  : result error (Name * list Attr * bool * bytes) :=
  match fuel with
  | O => Err SyntaxError
  | S f =>
      match rawToken s with
      | TokEOF => Err EOF
      | TokErr e => Err e
      | Tok t rest =>
          match t with
          | StartElement name attrs em => Ok (name, attrs, em, rest)
          | EndElement _ => Err SyntaxError
          | _ => find_root f rest
          end
      end
  end.

(** The element [Unmarshal] decodes: the first one of the input, read up
    to its end tag.  The bytes after that end tag are returned unread. *)
Definition parse_root (s : bytes) : result error (Node * bytes) :=
  '(name, attrs, em, rest) <- find_root (S (List.length s)) s ;;
  if em : bool then Ok (Element name attrs [], rest)
  else
    '(kids, rest') <- parse_nodes (S (List.length rest)) name rest ;;
    Ok (Element name attrs kids, rest').

Definition parse_document (s : bytes) : result error Node :=
  '(root, _) <- parse_root s ;; Ok root.

(** *** Decoder: values *)

(** The character data directly inside an element, concatenated. *)
Definition chardata (kids : list Node) : bytes :=
  flat_map (fun n => match n with Text d => d | Element _ _ _ => [] end) kids.

(** A struct type as [Unmarshal] sees it: for each field with an element
    tag, the tag name and how an element of that name is stored into a
    value of the struct. *)
Definition fields (T : Type) : Type :=
  list (bytes * (T -> list Node -> result error T)).

Fixpoint lookup_field {T} (tbl : fields T) (name : bytes)
  : option (T -> list Node -> result error T) :=
  match tbl with
  | [] => None
  | (tag, store) :: tbl' =>
      if bytes_eqb tag name then Some store else lookup_field tbl' name
  end.

(** [Decoder.unmarshal] on a struct: each child element is stored through
    the first field whose tag is its local name, and skipped when there is
    none; character data is dropped. *)
Fixpoint unmarshal_struct {T} (tbl : fields T) (v : T) (kids : list Node)
  : result error T :=
  match kids with
  | [] => Ok v
  | Element name _ sub :: rest =>
      match lookup_field tbl (Local name) with
      | Some store => v' <- store v sub ;; unmarshal_struct tbl v' rest
      | None => unmarshal_struct tbl v rest
      end
  | Text _ :: rest => unmarshal_struct tbl v rest
  end.

(** [copyValue] at the simple types of [types.go]. *)
Definition copy_string (kids : list Node) : result error bytes :=
  Ok (chardata kids).

Definition copy_int (kids : list Node) : result error Z :=
  match chardata kids with
  | [] => Ok 0%Z
  | src =>
      match strconv.ParseInt (strings.TrimSpace src) with
      | Some i => Ok i
      | None => Err NumError
      end
  end.

Definition copy_bool (kids : list Node) : result error bool :=
  match chardata kids with
  | [] => Ok false
  | src =>
      match strconv.ParseBool (strings.TrimSpace src) with
      | Some b => Ok b
      | None => Err NumError
      end
  end.

(** How [Decoder.unmarshal] stores an element into a field, by the kind of
    the field: a simple value is replaced; a struct is decoded in place; a
    nil pointer is allocated first; a slice grows by one zero element,
    into which the element is decoded. *)
Definition string_field {T} (set : bytes -> T -> T)
  : T -> list Node -> result error T :=
  fun v kids => s <- copy_string kids ;; Ok (set s v).

Definition int_field {T} (set : Z -> T -> T)
  : T -> list Node -> result error T :=
  fun v kids => i <- copy_int kids ;; Ok (set i v).

Definition bool_field {T} (set : bool -> T -> T)
  : T -> list Node -> result error T :=
  fun v kids => b <- copy_bool kids ;; Ok (set b v).

Definition struct_field {T U} (get : T -> U) (set : U -> T -> T)
           (tbl : fields U) : T -> list Node -> result error T :=
  fun v kids => u <- unmarshal_struct tbl (get v) kids ;; Ok (set u v).

Definition pointer_field {T U} (get : T -> option U) (set : option U -> T -> T)
           (zero : U) (tbl : fields U) : T -> list Node -> result error T :=
  fun v kids =>
    u <- unmarshal_struct tbl (match get v with Some u => u | None => zero end)
                          kids ;;
    Ok (set (Some u) v).

Definition slice_field {T U} (get : T -> list U) (set : list U -> T -> T)
           (zero : U) (tbl : fields U) : T -> list Node -> result error T :=
  fun v kids => u <- unmarshal_struct tbl zero kids ;; Ok (set (get v ++ [u]) v).

(** The check of a struct's [XMLName] tag against the start tag. *)
Definition expect_name (tag : bytes) (root : Node) : result error (list Node) :=
  match root with
  | Element name _ kids =>
      if bytes_eqb tag (Local name) then Ok kids else Err UnmarshalError
  | Text _ => Err UnmarshalError
  end.

(** *** Encoder: values *)

(** What [marshalValue] emits for a field, by its kind and tag.  A field
    tagged [omitempty] is left out when it is empty. *)
Definition string_elem (tag s : bytes) : list Markup := [Leaf tag s].

Definition omitempty_elem (tag s : bytes) : list Markup :=
  match s with
  | [] => []
  | _ :: _ => [Leaf tag s]
  end.

Definition int_elem (tag : bytes) (i : Z) : list Markup :=
  [Leaf tag (strconv.FormatInt i)].

Definition bool_elem (tag : bytes) (b : bool) : list Markup :=
  [Leaf tag (strconv.FormatBool b)].

Definition struct_elem (tag : bytes) (kids : list Markup) : list Markup :=
  [Branch tag [] kids].

Definition slice_elem {U} (tag : bytes) (f : U -> list Markup) (l : list U)
  : list Markup :=
  flat_map (fun u => struct_elem tag (f u)) l.

(** A type that [Marshal] accepts at the top level or behind an interface
    and that names its own element (a struct with an [XMLName] tag). *)
Class Marshaler (A : Type) : Type := marshalValue : A -> result error Markup.

(** [xml.MarshalIndent] with an empty prefix. *)
Definition MarshalIndent {A} `{Marshaler A} (v : A) (indent : bytes)
  : result error bytes :=
  m <- marshalValue v ;; Ok (render indent 0 m).

Local Close Scope result_scope.

End xml.

(** ** Package [time] *)

Module time.

(** An instant as the local zone shows it: the local calendar day, counted
    from 1970-01-01, and the nanoseconds since local midnight.  The day
    line is unbounded, and every wall-clock time exists on every day (zone
    transitions are not modelled). *)
Record Time : Type := { day_number : Z; nanos : Z }.

(** The proleptic Gregorian calendar. *)
Definition days_from_civil (y m d : Z) : Z :=
  let y' := if m <=? 2 then y - 1 else y in
  let era := y' / 400 in
  let yoe := y' - era * 400 in
  let mp := if 2 <? m then m - 3 else m + 9 in
  let doy := (153 * mp + 2) / 5 + d - 1 in
  let doe := yoe * 365 + yoe / 4 - yoe / 100 + doy in
  era * 146097 + doe - 719468.

Definition civil_from_days (z : Z) : Z * Z * Z :=
  let z' := z + 719468 in
  let era := z' / 146097 in
  let doe := z' - era * 146097 in
  let yoe := (doe - doe / 1460 + doe / 36524 - doe / 146096) / 365 in
  let doy := doe - (365 * yoe + yoe / 4 - yoe / 100) in
  let mp := (5 * doy + 2) / 153 in
  let d := doy - (153 * mp + 2) / 5 + 1 in
  let m := if mp <? 10 then mp + 3 else mp - 9 in
  (yoe + era * 400 + (if m <=? 2 then 1 else 0), m, d).

(** [Time.Date]: year, month and day of the local date. *)
Definition Date (t : Time) : Z * Z * Z := civil_from_days (day_number t).

(** [time.Date(year, month, day, ...)] normalises a month outside 1..12
    into the year and a day outside the month into the day line. *)
Definition normalized_day (year month day : Z) : Z :=
  let m := month - 1 in
  days_from_civil (year + m / 12) (m mod 12 + 1) 1 + (day - 1).

(** [Time.AddDate]: the same wall-clock time on the date moved by the
    given years, months and days. *)
Definition AddDate (t : Time) (years months days : Z) : Time :=
  let '(y, m, d) := Date t in
  {| day_number := normalized_day (y + years) (m + months) (d + days);
     nanos := nanos t |}.

(** [appendInt]: a sign for a negative number, then the digits padded
    with zeros to [width]. *)
Definition appendInt (x : Z) (width : nat) : bytes :=
  let ds := strconv.utoa (Z.abs x) in
  (if x <? 0 then ["-"%char] else [])
  ++ repeat "0"%char (width - List.length ds) ++ ds.

(** The chunks of a layout that [client.go] uses. *)
Inductive chunk : Type :=
| stdLongYear
| stdZeroMonth
| stdZeroDay
| stdHour
| stdZeroMinute
| stdZeroSecond
| stdFracSecond0 (digits : nat)
| literal (text : bytes).

Definition format_chunk (t : Time) (c : chunk) : bytes :=
  let '(y, m, d) := Date t in
  let secs := nanos t / 1000000000 in
  match c with
  | stdLongYear => appendInt y 4
  | stdZeroMonth => appendInt m 2
  | stdZeroDay => appendInt d 2
  | stdHour => appendInt (secs / 3600) 2
  | stdZeroMinute => appendInt (secs / 60 mod 60) 2
  | stdZeroSecond => appendInt (secs mod 60) 2
  | stdFracSecond0 n => "."%char :: firstn n (appendInt (nanos t mod 1000000000) 9)
  | literal text => text
  end.

(** [Time.Format], on a layout already cut into its chunks. *)
Definition Format (t : Time) (layout : list chunk) : bytes :=
  flat_map (format_chunk t) layout.

(** The layout ["2006-01-02"]. *)
Definition layout_date : list chunk :=
  [stdLongYear; literal (B "-"); stdZeroMonth; literal (B "-"); stdZeroDay].

(** The layout ["20060102_150405.000"]. *)
Definition layout_stamp : list chunk :=
  [stdLongYear; stdZeroMonth; stdZeroDay; literal (B "_");
   stdHour; stdZeroMinute; stdZeroSecond; stdFracSecond0 3].

End time.

(** ** Package [dhl]: the records of [types.go] *)

Module dhl.

Import xml.
Local Open Scope result_scope.

Definition zero_Name : Name := {| Space := []; Local := [] |}.

(** *** Common types *)

Record AuthData : Type := mkAuthData {
  AuthData_Username : bytes;
  AuthData_Password : bytes }.

Record Address : Type := mkAddress {
  Address_Country : bytes;
  Address_Name : bytes;
  Address_PostalCode : bytes;
  Address_City : bytes;
  Address_Street : bytes;
  Address_HouseNumber : bytes;
  Address_ApartmentNumber : bytes;
  Address_ContactPerson : bytes;
  Address_ContactPhone : bytes;
  Address_ContactEmail : bytes }.

Record Payment : Type := mkPayment {
  Payment_PaymentType : bytes;
  Payment_PayerType : bytes;
  Payment_AccountNumber : bytes;
  Payment_PaymentMethod : bytes }.

Record Service : Type := mkService { Service_Product : bytes }.

(** *** Responses *)

Record GetVersionResponse : Type := mkGetVersionResponse {
  GetVersionResponse_Version : bytes }.

Record CreatedShipment : Type := mkCreatedShipment {
  CreatedShipment_ShipmentID : bytes;
  CreatedShipment_ShipmentNo : bytes;
  CreatedShipment_OrderStatus : bytes }.

Record CreateShipmentsResult : Type := mkCreateShipmentsResult {
  CreateShipmentsResult_Items : list CreatedShipment }.

Record CreateShipmentsResponse : Type := mkCreateShipmentsResponse {
  CreateShipmentsResponse_Result : CreateShipmentsResult }.

Record AddressInfo : Type := mkAddressInfo {
  AddressInfo_Name : bytes;
  AddressInfo_PostalCode : bytes;
  AddressInfo_City : bytes;
  AddressInfo_Street : bytes;
  AddressInfo_HouseNumber : bytes;
  AddressInfo_ApartmentNumber : bytes;
  AddressInfo_ContactPerson : bytes;
  AddressInfo_ContactPhone : bytes;
  AddressInfo_ContactEmail : bytes }.

Record ShipmentBasicData : Type := mkShipmentBasicData {
  ShipmentBasicData_ShipmentID : bytes;
  ShipmentBasicData_Created : bytes;
  ShipmentBasicData_Shipper : AddressInfo;
  ShipmentBasicData_Receiver : AddressInfo;
  ShipmentBasicData_OrderStatus : bytes }.

Record GetMyShipmentsResult : Type := mkGetMyShipmentsResult {
  GetMyShipmentsResult_Items : list ShipmentBasicData }.

Record GetMyShipmentsResponse : Type := mkGetMyShipmentsResponse {
  GetMyShipmentsResponse_Result : GetMyShipmentsResult }.

Record GetMyShipmentsBody : Type := mkGetMyShipmentsBody {
  GetMyShipmentsBody_Response : GetMyShipmentsResponse }.

Record GetMyShipmentsEnvelope : Type := mkGetMyShipmentsEnvelope {
  GetMyShipmentsEnvelope_XMLName : Name;
  GetMyShipmentsEnvelope_Body : GetMyShipmentsBody }.

(** The three slots are pointers: [None] is nil. *)
Record SOAPResponseBody : Type := mkSOAPResponseBody {
  SOAPResponseBody_GetVersionResponse : option GetVersionResponse;
  SOAPResponseBody_CreateShipmentsResponse : option CreateShipmentsResponse;
  SOAPResponseBody_GetMyShipmentsResponse : option GetMyShipmentsResponse }.

Record SOAPResponseEnvelope : Type := mkSOAPResponseEnvelope {
  SOAPResponseEnvelope_XMLName : Name;
  SOAPResponseEnvelope_Body : SOAPResponseBody }.

(** *** Requests *)

(** [SOAPBody.Content] is an [interface{}]: the envelope is generic in the
    type of the payload. *)
Record SOAPBody (A : Type) : Type := mkSOAPBody { SOAPBody_Content : A }.
Arguments mkSOAPBody {A} _.
Arguments SOAPBody_Content {A} _.

Record SOAPEnvelope (A : Type) : Type := mkSOAPEnvelope {
  SOAPEnvelope_XMLName : Name;
  SOAPEnvelope_Soapenv : bytes;
  SOAPEnvelope_NS : bytes;
  SOAPEnvelope_Header : unit;
  SOAPEnvelope_Body : SOAPBody A }.
Arguments mkSOAPEnvelope {A} _ _ _ _ _.
Arguments SOAPEnvelope_XMLName {A} _.
Arguments SOAPEnvelope_Soapenv {A} _.
Arguments SOAPEnvelope_NS {A} _.
Arguments SOAPEnvelope_Header {A} _.
Arguments SOAPEnvelope_Body {A} _.

Record GetVersionRequest : Type := mkGetVersionRequest {
  GetVersionRequest_XMLName : Name }.

Record GetMyShipmentsRequest : Type := mkGetMyShipmentsRequest {
  GetMyShipmentsRequest_XMLName : Name;
  GetMyShipmentsRequest_AuthData : AuthData;
  GetMyShipmentsRequest_CreatedFrom : bytes;
  GetMyShipmentsRequest_CreatedTo : bytes;
  GetMyShipmentsRequest_Offset : Z }.

(** *** Zero values *)

Definition zero_Address : Address := mkAddress [] [] [] [] [] [] [] [] [] [].
Definition zero_Payment : Payment := mkPayment [] [] [] [].
Definition zero_Service : Service := mkService [].
Definition zero_GetVersionResponse : GetVersionResponse := mkGetVersionResponse [].
Definition zero_CreatedShipment : CreatedShipment := mkCreatedShipment [] [] [].
Definition zero_CreateShipmentsResult : CreateShipmentsResult :=
  mkCreateShipmentsResult [].
Definition zero_CreateShipmentsResponse : CreateShipmentsResponse :=
  mkCreateShipmentsResponse zero_CreateShipmentsResult.
Definition zero_AddressInfo : AddressInfo := mkAddressInfo [] [] [] [] [] [] [] [] [].
Definition zero_ShipmentBasicData : ShipmentBasicData :=
  mkShipmentBasicData [] [] zero_AddressInfo zero_AddressInfo [].
Definition zero_GetMyShipmentsResult : GetMyShipmentsResult :=
  mkGetMyShipmentsResult [].
Definition zero_GetMyShipmentsResponse : GetMyShipmentsResponse :=
  mkGetMyShipmentsResponse zero_GetMyShipmentsResult.
Definition zero_GetMyShipmentsBody : GetMyShipmentsBody :=
  mkGetMyShipmentsBody zero_GetMyShipmentsResponse.
Definition zero_GetMyShipmentsEnvelope : GetMyShipmentsEnvelope :=
  mkGetMyShipmentsEnvelope zero_Name zero_GetMyShipmentsBody.
Definition zero_SOAPResponseBody : SOAPResponseBody :=
  mkSOAPResponseBody None None None.
Definition zero_SOAPResponseEnvelope : SOAPResponseEnvelope :=
  mkSOAPResponseEnvelope zero_Name zero_SOAPResponseBody.
Definition zero_GetVersionRequest : GetVersionRequest :=
  mkGetVersionRequest zero_Name.

(** *** Field updates *)

Definition Address_set_Country v a := let 'mkAddress _ b c d e f g h i j := a in mkAddress v b c d e f g h i j.
Definition Address_set_Name v a := let 'mkAddress x _ c d e f g h i j := a in mkAddress x v c d e f g h i j.
Definition Address_set_PostalCode v a := let 'mkAddress x b _ d e f g h i j := a in mkAddress x b v d e f g h i j.
Definition Address_set_City v a := let 'mkAddress x b c _ e f g h i j := a in mkAddress x b c v e f g h i j.
Definition Address_set_Street v a := let 'mkAddress x b c d _ f g h i j := a in mkAddress x b c d v f g h i j.
Definition Address_set_HouseNumber v a := let 'mkAddress x b c d e _ g h i j := a in mkAddress x b c d e v g h i j.
Definition Address_set_ApartmentNumber v a := let 'mkAddress x b c d e f _ h i j := a in mkAddress x b c d e f v h i j.
Definition Address_set_ContactPerson v a := let 'mkAddress x b c d e f g _ i j := a in mkAddress x b c d e f g v i j.
Definition Address_set_ContactPhone v a := let 'mkAddress x b c d e f g h _ j := a in mkAddress x b c d e f g h v j.
Definition Address_set_ContactEmail v a := let 'mkAddress x b c d e f g h i _ := a in mkAddress x b c d e f g h i v.

Definition Payment_set_PaymentType v a := let 'mkPayment _ b c d := a in mkPayment v b c d.
Definition Payment_set_PayerType v a := let 'mkPayment x _ c d := a in mkPayment x v c d.
Definition Payment_set_AccountNumber v a := let 'mkPayment x b _ d := a in mkPayment x b v d.
Definition Payment_set_PaymentMethod v a := let 'mkPayment x b c _ := a in mkPayment x b c v.

Definition Service_set_Product v (a : Service) := let 'mkService _ := a in mkService v.

Definition GetVersionResponse_set_Version v (a : GetVersionResponse) :=
  let 'mkGetVersionResponse _ := a in mkGetVersionResponse v.

Definition CreatedShipment_set_ShipmentID v a := let 'mkCreatedShipment _ b c := a in mkCreatedShipment v b c.
Definition CreatedShipment_set_ShipmentNo v a := let 'mkCreatedShipment x _ c := a in mkCreatedShipment x v c.
Definition CreatedShipment_set_OrderStatus v a := let 'mkCreatedShipment x b _ := a in mkCreatedShipment x b v.

Definition CreateShipmentsResult_set_Items v (a : CreateShipmentsResult) :=
  let 'mkCreateShipmentsResult _ := a in mkCreateShipmentsResult v.
Definition CreateShipmentsResponse_set_Result v (a : CreateShipmentsResponse) :=
  let 'mkCreateShipmentsResponse _ := a in mkCreateShipmentsResponse v.

Definition AddressInfo_set_Name v a := let 'mkAddressInfo _ c d e f g h i j := a in mkAddressInfo v c d e f g h i j.
Definition AddressInfo_set_PostalCode v a := let 'mkAddressInfo b _ d e f g h i j := a in mkAddressInfo b v d e f g h i j.
Definition AddressInfo_set_City v a := let 'mkAddressInfo b c _ e f g h i j := a in mkAddressInfo b c v e f g h i j.
Definition AddressInfo_set_Street v a := let 'mkAddressInfo b c d _ f g h i j := a in mkAddressInfo b c d v f g h i j.
Definition AddressInfo_set_HouseNumber v a := let 'mkAddressInfo b c d e _ g h i j := a in mkAddressInfo b c d e v g h i j.
Definition AddressInfo_set_ApartmentNumber v a := let 'mkAddressInfo b c d e f _ h i j := a in mkAddressInfo b c d e f v h i j.
Definition AddressInfo_set_ContactPerson v a := let 'mkAddressInfo b c d e f g _ i j := a in mkAddressInfo b c d e f g v i j.
Definition AddressInfo_set_ContactPhone v a := let 'mkAddressInfo b c d e f g h _ j := a in mkAddressInfo b c d e f g h v j.
Definition AddressInfo_set_ContactEmail v a := let 'mkAddressInfo b c d e f g h i _ := a in mkAddressInfo b c d e f g h i v.

Definition ShipmentBasicData_set_ShipmentID v a := let 'mkShipmentBasicData _ b c d e := a in mkShipmentBasicData v b c d e.
Definition ShipmentBasicData_set_Created v a := let 'mkShipmentBasicData x _ c d e := a in mkShipmentBasicData x v c d e.
Definition ShipmentBasicData_set_Shipper v a := let 'mkShipmentBasicData x b _ d e := a in mkShipmentBasicData x b v d e.
Definition ShipmentBasicData_set_Receiver v a := let 'mkShipmentBasicData x b c _ e := a in mkShipmentBasicData x b c v e.
Definition ShipmentBasicData_set_OrderStatus v a := let 'mkShipmentBasicData x b c d _ := a in mkShipmentBasicData x b c d v.

Definition GetMyShipmentsResult_set_Items v (a : GetMyShipmentsResult) :=
  let 'mkGetMyShipmentsResult _ := a in mkGetMyShipmentsResult v.
Definition GetMyShipmentsResponse_set_Result v (a : GetMyShipmentsResponse) :=
  let 'mkGetMyShipmentsResponse _ := a in mkGetMyShipmentsResponse v.
Definition GetMyShipmentsBody_set_Response v (a : GetMyShipmentsBody) :=
  let 'mkGetMyShipmentsBody _ := a in mkGetMyShipmentsBody v.

Definition SOAPResponseBody_set_GetVersionResponse v a := let 'mkSOAPResponseBody _ b c := a in mkSOAPResponseBody v b c.
Definition SOAPResponseBody_set_CreateShipmentsResponse v a := let 'mkSOAPResponseBody x _ c := a in mkSOAPResponseBody x v c.
Definition SOAPResponseBody_set_GetMyShipmentsResponse v a := let 'mkSOAPResponseBody x b _ := a in mkSOAPResponseBody x b v.

(** *** The wire contract of the response types (their struct tags) *)

Definition fields_GetVersionResponse : fields GetVersionResponse :=
  [(B "getVersionResult", string_field GetVersionResponse_set_Version)].

Definition fields_CreatedShipment : fields CreatedShipment :=
  [(B "shipmentId", string_field CreatedShipment_set_ShipmentID);
   (B "shipmentNo", string_field CreatedShipment_set_ShipmentNo);
   (B "orderStatus", string_field CreatedShipment_set_OrderStatus)].

Definition fields_CreateShipmentsResult : fields CreateShipmentsResult :=
  [(B "item", slice_field CreateShipmentsResult_Items CreateShipmentsResult_set_Items
                          zero_CreatedShipment fields_CreatedShipment)].

Definition fields_CreateShipmentsResponse : fields CreateShipmentsResponse :=
  [(B "createShipmentsResult",
    struct_field CreateShipmentsResponse_Result CreateShipmentsResponse_set_Result
                 fields_CreateShipmentsResult)].

Definition fields_AddressInfo : fields AddressInfo :=
  [(B "name", string_field AddressInfo_set_Name);
   (B "postalCode", string_field AddressInfo_set_PostalCode);
   (B "city", string_field AddressInfo_set_City);
   (B "street", string_field AddressInfo_set_Street);
   (B "houseNumber", string_field AddressInfo_set_HouseNumber);
   (B "apartmentNumber", string_field AddressInfo_set_ApartmentNumber);
   (B "contactPerson", string_field AddressInfo_set_ContactPerson);
   (B "contactPhone", string_field AddressInfo_set_ContactPhone);
   (B "contactEmail", string_field AddressInfo_set_ContactEmail)].

Definition fields_ShipmentBasicData : fields ShipmentBasicData :=
  [(B "shipmentId", string_field ShipmentBasicData_set_ShipmentID);
   (B "created", string_field ShipmentBasicData_set_Created);
   (B "shipper", struct_field ShipmentBasicData_Shipper
                              ShipmentBasicData_set_Shipper fields_AddressInfo);
   (B "receiver", struct_field ShipmentBasicData_Receiver
                               ShipmentBasicData_set_Receiver fields_AddressInfo);
   (B "orderStatus", string_field ShipmentBasicData_set_OrderStatus)].

Definition fields_GetMyShipmentsResult : fields GetMyShipmentsResult :=
  [(B "item", slice_field GetMyShipmentsResult_Items GetMyShipmentsResult_set_Items
                          zero_ShipmentBasicData fields_ShipmentBasicData)].

Definition fields_GetMyShipmentsResponse : fields GetMyShipmentsResponse :=
  [(B "getMyShipmentsResult",
    struct_field GetMyShipmentsResponse_Result GetMyShipmentsResponse_set_Result
                 fields_GetMyShipmentsResult)].

Definition fields_GetMyShipmentsBody : fields GetMyShipmentsBody :=
  [(B "getMyShipmentsResponse",
    struct_field GetMyShipmentsBody_Response GetMyShipmentsBody_set_Response
                 fields_GetMyShipmentsResponse)].

Definition fields_GetMyShipmentsEnvelope : fields GetMyShipmentsEnvelope :=
  [(B "Body",
    struct_field GetMyShipmentsEnvelope_Body
                 (fun v a => mkGetMyShipmentsEnvelope (GetMyShipmentsEnvelope_XMLName a) v)
                 fields_GetMyShipmentsBody)].

Definition fields_SOAPResponseBody : fields SOAPResponseBody :=
  [(B "getVersionResponse",
    pointer_field SOAPResponseBody_GetVersionResponse
                  SOAPResponseBody_set_GetVersionResponse
                  zero_GetVersionResponse fields_GetVersionResponse);
   (B "createShipmentsResponse",
    pointer_field SOAPResponseBody_CreateShipmentsResponse
                  SOAPResponseBody_set_CreateShipmentsResponse
                  zero_CreateShipmentsResponse fields_CreateShipmentsResponse);
   (B "getMyShipmentsResponse",
    pointer_field SOAPResponseBody_GetMyShipmentsResponse
                  SOAPResponseBody_set_GetMyShipmentsResponse
                  zero_GetMyShipmentsResponse fields_GetMyShipmentsResponse)].

Definition fields_SOAPResponseEnvelope : fields SOAPResponseEnvelope :=
  [(B "Body",
    struct_field SOAPResponseEnvelope_Body
                 (fun v a => mkSOAPResponseEnvelope (SOAPResponseEnvelope_XMLName a) v)
                 fields_SOAPResponseBody)].

Definition root_name (n : Node) : Name :=
  match n with
  | Element name _ _ => name
  | Text _ => zero_Name
  end.

(** [xml.Unmarshal(data, &envelope)] with [envelope] a zero
    [SOAPResponseEnvelope]: the root must be called [Envelope], in any
    name space. *)
Definition Unmarshal_SOAPResponseEnvelope (data : bytes)
  : result error SOAPResponseEnvelope :=
  root <- parse_document data ;;
  kids <- expect_name (B "Envelope") root ;;
  unmarshal_struct fields_SOAPResponseEnvelope
    (mkSOAPResponseEnvelope (root_name root) zero_SOAPResponseBody) kids.

(** [xml.Unmarshal(data, &envelope)] with [envelope] a zero
    [GetMyShipmentsEnvelope]. *)
Definition Unmarshal_GetMyShipmentsEnvelope (data : bytes)
  : result error GetMyShipmentsEnvelope :=
  root <- parse_document data ;;
  kids <- expect_name (B "Envelope") root ;;
  unmarshal_struct fields_GetMyShipmentsEnvelope
    (mkGetMyShipmentsEnvelope (root_name root) zero_GetMyShipmentsBody) kids.

(** *** The wire contract of the request types *)

Definition marshal_AuthData (a : AuthData) : list Markup :=
  string_elem (B "username") (AuthData_Username a)
  ++ string_elem (B "password") (AuthData_Password a).

Definition marshal_Address (a : Address) : list Markup :=
  omitempty_elem (B "country") (Address_Country a)
  ++ string_elem (B "name") (Address_Name a)
  ++ string_elem (B "postalCode") (Address_PostalCode a)
  ++ string_elem (B "city") (Address_City a)
  ++ string_elem (B "street") (Address_Street a)
  ++ string_elem (B "houseNumber") (Address_HouseNumber a)
  ++ omitempty_elem (B "apartmentNumber") (Address_ApartmentNumber a)
  ++ omitempty_elem (B "contactPerson") (Address_ContactPerson a)
  ++ string_elem (B "contactPhone") (Address_ContactPhone a)
  ++ string_elem (B "contactEmail") (Address_ContactEmail a).

Definition marshal_Payment (p : Payment) : list Markup :=
  string_elem (B "paymentType") (Payment_PaymentType p)
  ++ string_elem (B "payerType") (Payment_PayerType p)
  ++ string_elem (B "accountNumber") (Payment_AccountNumber p)
  ++ string_elem (B "paymentMethod") (Payment_PaymentMethod p).

Definition marshal_Service (s : Service) : list Markup :=
  string_elem (B "product") (Service_Product s).

#[global] Instance Marshaler_GetVersionRequest : Marshaler GetVersionRequest :=
  fun _ => Ok (Branch (B "ns:getVersion") [] []).

#[global] Instance Marshaler_GetMyShipmentsRequest : Marshaler GetMyShipmentsRequest :=
  fun r =>
    Ok (Branch (B "ns:getMyShipments") []
          (struct_elem (B "authData")
                       (marshal_AuthData (GetMyShipmentsRequest_AuthData r))
           ++ string_elem (B "createdFrom") (GetMyShipmentsRequest_CreatedFrom r)
           ++ string_elem (B "createdTo") (GetMyShipmentsRequest_CreatedTo r)
           ++ int_elem (B "offset") (GetMyShipmentsRequest_Offset r))).

(** The envelope: two attributes, an empty header, and a body holding
    the element of the payload. *)
#[global] Instance Marshaler_SOAPEnvelope {A} `{Marshaler A}
  : Marshaler (SOAPEnvelope A) :=
  fun e =>
    payload <- marshalValue (SOAPBody_Content (SOAPEnvelope_Body e)) ;;
    Ok (Branch (B "soapenv:Envelope")
          [(B "xmlns:soapenv", SOAPEnvelope_Soapenv e);
           (B "xmlns:ns", SOAPEnvelope_NS e)]
          (struct_elem (B "soapenv:Header") []
           ++ struct_elem (B "soapenv:Body") [payload])).

(** *** The world around the client *)

Inductive Context : Type :=
| NilContext
| Background
| WithTimeout (parent : Context) (nanoseconds : Z).

Inductive transport_error : Type :=
| ContextCanceled
| DeadlineExceeded
| NetworkError (text : bytes).

Record Request : Type := mkRequest {
  Request_ctx : Context;
  Request_Method : bytes;
  Request_URL : bytes;
  Request_Header : list (bytes * bytes);
  Request_Body : bytes }.

(** [Response_Body] is what [io.ReadAll(resp.Body)] returns. *)
Record Response : Type := mkResponse {
  Response_Status : bytes;
  Response_StatusCode : Z;
  Response_Body : result transport_error bytes }.

Inductive output : Type :=
| WarningMkdir (dir : bytes)
| WarningWrite (path : bytes)
| DebugWrote (path : bytes).

(** The state the client acts on: the wall clock (its successive readings
    and how many were taken), the HTTP peer and the requests it was sent,
    the file system (which directories can be made, which files written,
    where the executable is, the files written so far) and the standard
    output. *)
Record World : Type := mkWorld {
  clock : nat -> time.Time;
  ticks : nat;
  peer : Request -> result transport_error Response;
  sent : list Request;
  can_mkdir : bytes -> bool;
  can_write : bytes -> bool;
  executable_dir : bytes;
  files : list (bytes * bytes);
  stdout : list output }.

Definition IO (A : Type) : Type := World -> A * World.

Definition ret {A} (a : A) : IO A := fun w => (a, w).

Definition bind {A C} (m : IO A) (k : A -> IO C) : IO C :=
  fun w => let '(a, w') := m w in k a w'.

Declare Scope io_scope.
Delimit Scope io_scope with io.
Notation "' p <- m ;; k" := (bind m (fun p => k))
  (at level 61, p pattern, m at next level, right associativity) : io_scope.
Notation "x <- m ;; k" := (bind m (fun x => k))
  (at level 61, m at next level, right associativity) : io_scope.
Notation "m ;;; k" := (bind m (fun _ => k))
  (at level 61, right associativity) : io_scope.

(** [time.Now()]. *)
Definition time_Now : IO time.Time :=
  fun w =>
    (clock w (ticks w),
     mkWorld (clock w) (S (ticks w)) (peer w) (sent w) (can_mkdir w)
             (can_write w) (executable_dir w) (files w) (stdout w)).

(** [http.Client.Do]. *)
Definition http_Do (req : Request) : IO (result transport_error Response) :=
  fun w =>
    (peer w req,
     mkWorld (clock w) (ticks w) (peer w) (sent w ++ [req]) (can_mkdir w)
             (can_write w) (executable_dir w) (files w) (stdout w)).

Definition fmt_Printf (o : output) : IO unit :=
  fun w =>
    (tt,
     mkWorld (clock w) (ticks w) (peer w) (sent w) (can_mkdir w)
             (can_write w) (executable_dir w) (files w) (stdout w ++ [o])).

(** [os.MkdirAll(dir, 0755)]: whether it succeeded. *)
Definition os_MkdirAll (dir : bytes) : IO bool := fun w => (can_mkdir w dir, w).

(** [os.WriteFile(path, payload, 0644)]: whether it succeeded. *)
Definition os_WriteFile (path payload : bytes) : IO bool :=
  fun w =>
    if can_write w path then
      (true,
       mkWorld (clock w) (ticks w) (peer w) (sent w) (can_mkdir w)
               (can_write w) (executable_dir w) (files w ++ [(path, payload)])
               (stdout w))
    else (false, w).

(** [getExecutableDir()]. *)
Definition getExecutableDir : IO bytes := fun w => (executable_dir w, w).

(** [filepath.Join(dir, name)], without the cleaning of the path. *)
Definition filepath_Join (dir name : bytes) : bytes := dir ++ B "/" ++ name.

(** *** client.go *)

Local Open Scope io_scope.

Definition Endpoint : bytes :=
  B "https://dhl24.com.pl/webapi2/provider/service.html?ws=1".
Definition soapenvNS : bytes := B "http://schemas.xmlsoap.org/soap/envelope/".
Definition dhlNS : bytes :=
  B "https://dhl24.com.pl/webapi2/provider/service.html?ws=1".

Record DHL24Config : Type := mkDHL24Config {
  DHL24Config_Username : bytes;
  DHL24Config_Password : bytes;
  DHL24Config_AccountNumber : bytes;
  DHL24Config_DebugFiles : bool;
  DHL24Config_DebugFilesDir : bytes }.

Record http_Client : Type := mkhttp_Client { http_Client_Timeout : Z }.

Record Client : Type := mkClient {
  httpClient : http_Client;
  config : DHL24Config;
  debugFiles : bool;
  debugFilesDir : bytes }.

Definition NewClient (cfg : DHL24Config) : Client :=
  {| httpClient := {| http_Client_Timeout := 15 * 1000000000 |};
     config := cfg;
     debugFiles := DHL24Config_DebugFiles cfg;
     debugFilesDir := DHL24Config_DebugFilesDir cfg |}.

(** The errors the client makes with [fmt.Errorf], one constructor for
    each call site, with the error it wraps. *)
Inductive failure : Type :=
| ErrMarshaling (cause : xml.error)
| ErrCreatingRequest
| ErrMakingRequest (cause : transport_error)
| ErrReadingResponse (cause : transport_error)
| ErrParsingResponse (cause : xml.error)
| ErrEmptyGetVersion
| ErrEmptyCreateShipments
| ErrNoShipmentCreated.

(** The text of the error, up to the text of the wrapped one. *)
Definition failure_text (e : failure) : bytes :=
  match e with
  | ErrMarshaling _ => B "error marshaling SOAP request: "
  | ErrCreatingRequest => B "error creating request: "
  | ErrMakingRequest _ => B "error making request: "
  | ErrReadingResponse _ => B "error reading response: "
  | ErrParsingResponse _ => B "error parsing response: "
  | ErrEmptyGetVersion => B "empty getVersion response"
  | ErrEmptyCreateShipments => B "empty createShipments response"
  | ErrNoShipmentCreated => B "no shipment created"
  end.

Definition writeDebugFile (c : Client) (prefix payload : bytes) : IO unit :=
  dir <- (match debugFilesDir c with
          | [] => getExecutableDir
          | d => ret d
          end) ;;
  made <- os_MkdirAll dir ;;
  if made : bool then
    now <- time_Now ;;
    let timestamp := time.Format now time.layout_stamp in
    let filename := prefix ++ B "_" ++ timestamp ++ B ".xml" in
    let fullPath := filepath_Join dir filename in
    written <- os_WriteFile fullPath payload ;;
    if written : bool then fmt_Printf (DebugWrote fullPath)
    else fmt_Printf (WarningWrite fullPath)
  else fmt_Printf (WarningMkdir dir).

Definition marshalSOAPRequest {A} `{Marshaler A} (c : Client) (body : A)
  : result failure bytes :=
  let envelope :=
    {| SOAPEnvelope_XMLName := zero_Name;
       SOAPEnvelope_Soapenv := soapenvNS;
       SOAPEnvelope_NS := dhlNS;
       SOAPEnvelope_Header := tt;
       SOAPEnvelope_Body := {| SOAPBody_Content := body |} |} in
  match MarshalIndent envelope (B "  ") with
  | Err err => Err (ErrMarshaling err)
  | Ok xmlData => Ok (xml.Header ++ xmlData)
  end.

(** [http.NewRequestWithContext] with the constant method and URL fails
    on a nil context only. *)
Definition doRequest (c : Client) (ctx : Context) (body soapAction operationName : bytes)
  : IO (bytes * option Response * option failure) :=
  (if debugFiles c then writeDebugFile c (operationName ++ B "_request") body
   else ret tt) ;;;
  match ctx with
  | NilContext => ret ([], None, Some ErrCreatingRequest)
  | _ =>
      let req :=
        {| Request_ctx := ctx;
           Request_Method := B "POST";
           Request_URL := Endpoint;
           Request_Header := [(B "Content-Type", B "text/xml; charset=utf-8");
                              (B "SOAPAction", soapAction)];
           Request_Body := body |} in
      r <- http_Do req ;;
      match r with
      | Err err => ret ([], None, Some (ErrMakingRequest err))
      | Ok resp =>
          match Response_Body resp with
          | Err err => ret ([], Some resp, Some (ErrReadingResponse err))
          | Ok respBody =>
              (if debugFiles c
               then writeDebugFile c (operationName ++ B "_response") respBody
               else ret tt) ;;;
              ret (respBody, Some resp, None)
          end
      end
  end.

Definition authData (c : Client) : AuthData :=
  {| AuthData_Username := DHL24Config_Username (config c);
     AuthData_Password := DHL24Config_Password (config c) |}.

Definition GetVersion (c : Client) (ctx : Context)
  : IO (bytes * option Response * option failure) :=
  match marshalSOAPRequest c zero_GetVersionRequest with
  | Err err => ret ([], None, Some err)
  | Ok reqBody =>
      '(body, resp, err) <- doRequest c ctx reqBody (Endpoint ++ B "#getVersion")
                                      (B "getVersion") ;;
      match err with
      | Some err => ret ([], resp, Some err)
      | None =>
          match Unmarshal_SOAPResponseEnvelope body with
          | Err err => ret ([], resp, Some (ErrParsingResponse err))
          | Ok envelope =>
              match SOAPResponseBody_GetVersionResponse
                      (SOAPResponseEnvelope_Body envelope) with
              | None => ret ([], resp, Some ErrEmptyGetVersion)
              | Some r => ret (GetVersionResponse_Version r, resp, None)
              end
          end
      end
  end.

Definition GetMyShipments (c : Client) (ctx : Context)
           (createdFrom createdTo : bytes) (offset : Z)
  : IO (list ShipmentBasicData * option Response * option failure) :=
  let request :=
    {| GetMyShipmentsRequest_XMLName := zero_Name;
       GetMyShipmentsRequest_AuthData := authData c;
       GetMyShipmentsRequest_CreatedFrom := createdFrom;
       GetMyShipmentsRequest_CreatedTo := createdTo;
       GetMyShipmentsRequest_Offset := offset |} in
  match marshalSOAPRequest c request with
  | Err err => ret ([], None, Some err)
  | Ok reqBody =>
      '(body, resp, err) <- doRequest c ctx reqBody (Endpoint ++ B "#getMyShipments")
                                      (B "getMyShipments") ;;
      match err with
      | Some err => ret ([], resp, Some err)
      | None =>
          match Unmarshal_GetMyShipmentsEnvelope body with
          | Err err => ret ([], resp, Some (ErrParsingResponse err))
          | Ok envelope =>
              ret (GetMyShipmentsResult_Items
                     (GetMyShipmentsResponse_Result
                        (GetMyShipmentsBody_Response
                           (GetMyShipmentsEnvelope_Body envelope))),
                   resp, None)
          end
      end
  end.

(** Negation on Go's 64-bit [int]. *)
Definition int_neg (i : Z) : Z := (- i + 2 ^ 63) mod 2 ^ 64 - 2 ^ 63.

Definition GetMyShipmentsLastDays (c : Client) (ctx : Context) (days : Z)
  : IO (list ShipmentBasicData * option Response * option failure) :=
  now1 <- time_Now ;;
  let createdTo := time.Format now1 time.layout_date in
  now2 <- time_Now ;;
  let createdFrom :=
    time.Format (time.AddDate now2 0 0 (int_neg days)) time.layout_date in
  GetMyShipments c ctx createdFrom createdTo 0.

(** *** Shipments

    [Piece.Weight] is a [float64].  The type and its conversions to and
    from text are parameters: [FormatFloat f] is
    [strconv.FormatFloat(f, 'g', -1, 64)], [ParseFloat s] is
    [strconv.ParseFloat(s, 64)] with [None] for an error, and [float_zero]
    is the zero value. *)

Section Shipments.

Variable float64 : Type.
Variable FormatFloat : float64 -> bytes.
Variable ParseFloat : bytes -> option float64.
Variable float_zero : float64.

Record Piece : Type := mkPiece {
  Piece_Type : bytes;
  Piece_Quantity : Z;
  Piece_Weight : float64 }.

Record PieceList : Type := mkPieceList { PieceList_Items : list Piece }.

Record ShipmentItem : Type := mkShipmentItem {
  ShipmentItem_Shipper : Address;
  ShipmentItem_Receiver : Address;
  ShipmentItem_PieceList : PieceList;
  ShipmentItem_Payment : Payment;
  ShipmentItem_Service : Service;
  ShipmentItem_ShipmentDate : bytes;
  ShipmentItem_SkipRestrictionCheck : bool;
  ShipmentItem_Comment : bytes;
  ShipmentItem_Content : bytes }.

Record Shipments : Type := mkShipments { Shipments_Items : list ShipmentItem }.

Record CreateShipmentsRequest : Type := mkCreateShipmentsRequest {
  CreateShipmentsRequest_XMLName : Name;
  CreateShipmentsRequest_AuthData : AuthData;
  CreateShipmentsRequest_Shipments : Shipments }.

Definition zero_Piece : Piece := mkPiece [] 0 float_zero.
Definition zero_PieceList : PieceList := mkPieceList [].
Definition zero_ShipmentItem : ShipmentItem :=
  mkShipmentItem zero_Address zero_Address zero_PieceList zero_Payment
                 zero_Service [] false [] [].
Definition zero_Shipments : Shipments := mkShipments [].

Definition Piece_set_Type v a := let 'mkPiece _ b c := a in mkPiece v b c.
Definition Piece_set_Quantity v a := let 'mkPiece x _ c := a in mkPiece x v c.
Definition Piece_set_Weight v a := let 'mkPiece x b _ := a in mkPiece x b v.
Definition PieceList_set_Items v (a : PieceList) := let 'mkPieceList _ := a in mkPieceList v.
Definition Shipments_set_Items v (a : Shipments) := let 'mkShipments _ := a in mkShipments v.

Definition ShipmentItem_set_Shipper v a := let 'mkShipmentItem _ b c d e f g h i := a in mkShipmentItem v b c d e f g h i.
Definition ShipmentItem_set_Receiver v a := let 'mkShipmentItem x _ c d e f g h i := a in mkShipmentItem x v c d e f g h i.
Definition ShipmentItem_set_PieceList v a := let 'mkShipmentItem x b _ d e f g h i := a in mkShipmentItem x b v d e f g h i.
Definition ShipmentItem_set_Payment v a := let 'mkShipmentItem x b c _ e f g h i := a in mkShipmentItem x b c v e f g h i.
Definition ShipmentItem_set_Service v a := let 'mkShipmentItem x b c d _ f g h i := a in mkShipmentItem x b c d v f g h i.
Definition ShipmentItem_set_ShipmentDate v a := let 'mkShipmentItem x b c d e _ g h i := a in mkShipmentItem x b c d e v g h i.
Definition ShipmentItem_set_SkipRestrictionCheck v a := let 'mkShipmentItem x b c d e f _ h i := a in mkShipmentItem x b c d e f v h i.
Definition ShipmentItem_set_Comment v a := let 'mkShipmentItem x b c d e f g _ i := a in mkShipmentItem x b c d e f g v i.
Definition ShipmentItem_set_Content v a := let 'mkShipmentItem x b c d e f g h _ := a in mkShipmentItem x b c d e f g h v.

(** Marshaling, by the struct tags. *)
Definition marshal_Piece (p : Piece) : list Markup :=
  string_elem (B "type") (Piece_Type p)
  ++ int_elem (B "quantity") (Piece_Quantity p)
  ++ [Leaf (B "weight") (FormatFloat (Piece_Weight p))].

Definition marshal_PieceList (l : PieceList) : list Markup :=
  slice_elem (B "item") marshal_Piece (PieceList_Items l).

Definition marshal_ShipmentItem (s : ShipmentItem) : list Markup :=
  struct_elem (B "shipper") (marshal_Address (ShipmentItem_Shipper s))
  ++ struct_elem (B "receiver") (marshal_Address (ShipmentItem_Receiver s))
  ++ struct_elem (B "pieceList") (marshal_PieceList (ShipmentItem_PieceList s))
  ++ struct_elem (B "payment") (marshal_Payment (ShipmentItem_Payment s))
  ++ struct_elem (B "service") (marshal_Service (ShipmentItem_Service s))
  ++ string_elem (B "shipmentDate") (ShipmentItem_ShipmentDate s)
  ++ bool_elem (B "skipRestrictionCheck") (ShipmentItem_SkipRestrictionCheck s)
  ++ string_elem (B "comment") (ShipmentItem_Comment s)
  ++ string_elem (B "content") (ShipmentItem_Content s).

Definition marshal_Shipments (s : Shipments) : list Markup :=
  slice_elem (B "item") marshal_ShipmentItem (Shipments_Items s).

#[global] Instance Marshaler_CreateShipmentsRequest : Marshaler CreateShipmentsRequest :=
  fun r =>
    Ok (Branch (B "ns:createShipments") []
          (struct_elem (B "authData")
                       (marshal_AuthData (CreateShipmentsRequest_AuthData r))
           ++ struct_elem (B "shipments")
                          (marshal_Shipments (CreateShipmentsRequest_Shipments r)))).

(** Unmarshaling, by the same tags. *)
Definition copy_float (kids : list Node) : result xml.error float64 :=
  match chardata kids with
  | [] => Ok float_zero
  | src =>
      match ParseFloat (strings.TrimSpace src) with
      | Some f => Ok f
      | None => Err NumError
      end
  end.

Definition float_field {T} (set : float64 -> T -> T)
  : T -> list Node -> result xml.error T :=
  fun v kids => (f <- copy_float kids ;; Ok (set f v))%result.

Definition fields_Address : fields Address :=
  [(B "country", string_field Address_set_Country);
   (B "name", string_field Address_set_Name);
   (B "postalCode", string_field Address_set_PostalCode);
   (B "city", string_field Address_set_City);
   (B "street", string_field Address_set_Street);
   (B "houseNumber", string_field Address_set_HouseNumber);
   (B "apartmentNumber", string_field Address_set_ApartmentNumber);
   (B "contactPerson", string_field Address_set_ContactPerson);
   (B "contactPhone", string_field Address_set_ContactPhone);
   (B "contactEmail", string_field Address_set_ContactEmail)].

Definition fields_Payment : fields Payment :=
  [(B "paymentType", string_field Payment_set_PaymentType);
   (B "payerType", string_field Payment_set_PayerType);
   (B "accountNumber", string_field Payment_set_AccountNumber);
   (B "paymentMethod", string_field Payment_set_PaymentMethod)].

Definition fields_Service : fields Service :=
  [(B "product", string_field Service_set_Product)].

Definition fields_Piece : fields Piece :=
  [(B "type", string_field Piece_set_Type);
   (B "quantity", int_field Piece_set_Quantity);
   (B "weight", float_field Piece_set_Weight)].

Definition fields_PieceList : fields PieceList :=
  [(B "item", slice_field PieceList_Items PieceList_set_Items zero_Piece fields_Piece)].

Definition fields_ShipmentItem : fields ShipmentItem :=
  [(B "shipper", struct_field ShipmentItem_Shipper ShipmentItem_set_Shipper fields_Address);
   (B "receiver", struct_field ShipmentItem_Receiver ShipmentItem_set_Receiver fields_Address);
   (B "pieceList", struct_field ShipmentItem_PieceList ShipmentItem_set_PieceList fields_PieceList);
   (B "payment", struct_field ShipmentItem_Payment ShipmentItem_set_Payment fields_Payment);
   (B "service", struct_field ShipmentItem_Service ShipmentItem_set_Service fields_Service);
   (B "shipmentDate", string_field ShipmentItem_set_ShipmentDate);
   (B "skipRestrictionCheck", bool_field ShipmentItem_set_SkipRestrictionCheck);
   (B "comment", string_field ShipmentItem_set_Comment);
   (B "content", string_field ShipmentItem_set_Content)].

Definition fields_Shipments : fields Shipments :=
  [(B "item", slice_field Shipments_Items Shipments_set_Items zero_ShipmentItem
                          fields_ShipmentItem)].

(** Reading a request back.  The package declares no type into which a
    request can be unmarshaled: the tags of [SOAPEnvelope] and of the
    request types name their elements with a prefix, which no local name
    of a decoded element equals, and [SOAPBody.Content] is an interface,
    which [Unmarshal] skips.  The reader below is the one the tags of
    [Shipments] and [ShipmentItem] define, behind the elements [Envelope],
    [Body], [createShipments] and [shipments] taken by local name. *)
Definition fields_read_request : fields Shipments :=
  [(B "shipments", struct_field (fun s => s) (fun v _ => v) fields_Shipments)].

Definition fields_read_body : fields Shipments :=
  [(B "createShipments", struct_field (fun s => s) (fun v _ => v) fields_read_request)].

Definition fields_read_envelope : fields Shipments :=
  [(B "Body", struct_field (fun s => s) (fun v _ => v) fields_read_body)].

Definition Unmarshal_shipments (data : bytes) : result xml.error (list ShipmentItem) :=
  (root <- parse_document data ;;
   kids <- expect_name (B "Envelope") root ;;
   s <- unmarshal_struct fields_read_envelope zero_Shipments kids ;;
   Ok (Shipments_Items s))%result.

(** [xml.Unmarshal] into a [SOAPEnvelope]: the check of [XMLName]. *)
Definition Unmarshal_SOAPEnvelope_check (data : bytes) : result xml.error unit :=
  (root <- parse_document data ;;
   _ <- expect_name (B "soapenv:Envelope") root ;;
   Ok tt)%result.

Definition CreateShipments (c : Client) (ctx : Context) (shipments : list ShipmentItem)
  : IO (list CreatedShipment * option Response * option failure) :=
  let request :=
    {| CreateShipmentsRequest_XMLName := zero_Name;
       CreateShipmentsRequest_AuthData := authData c;
       CreateShipmentsRequest_Shipments := {| Shipments_Items := shipments |} |} in
  match marshalSOAPRequest c request with
  | Err err => ret ([], None, Some err)
  | Ok reqBody =>
      '(body, resp, err) <- doRequest c ctx reqBody (Endpoint ++ B "#createShipments")
                                      (B "createShipments") ;;
      match err with
      | Some err => ret ([], resp, Some err)
      | None =>
          match Unmarshal_SOAPResponseEnvelope body with
          | Err err => ret ([], resp, Some (ErrParsingResponse err))
          | Ok envelope =>
              match SOAPResponseBody_CreateShipmentsResponse
                      (SOAPResponseEnvelope_Body envelope) with
              | None => ret ([], resp, Some ErrEmptyCreateShipments)
              | Some r =>
                  ret (CreateShipmentsResult_Items (CreateShipmentsResponse_Result r),
                       resp, None)
              end
          end
      end
  end.

(** The result is a pointer to the first element: [None] is nil. *)
Definition CreateShipment (c : Client) (ctx : Context) (shipment : ShipmentItem)
  : IO (option CreatedShipment * option Response * option failure) :=
  '(results, resp, err) <- CreateShipments c ctx [shipment] ;;
  match err with
  | Some err => ret (None, resp, Some err)
  | None =>
      match results with
      | [] => ret (None, resp, Some ErrNoShipmentCreated)
      | first :: _ => ret (Some first, resp, None)
      end
  end.

End Shipments.

Arguments mkPiece {float64} _ _ _.
Arguments mkPieceList {float64} _.
Arguments mkShipmentItem {float64} _ _ _ _ _ _ _ _ _.

End dhl.

(** * Properties *)

Import dhl.

(** ** The transport *)

(** The request [doRequest] builds. *)
Definition post (ctx : Context) (body soapAction : bytes) : Request :=
  {| Request_ctx := ctx;
     Request_Method := B "POST";
     Request_URL := Endpoint;
     Request_Header := [(B "Content-Type", B "text/xml; charset=utf-8");
                        (B "SOAPAction", soapAction)];
     Request_Body := body |}.

Lemma writeDebugFile_frame (c : Client) (prefix payload : bytes) (w : World) :
  peer (snd (writeDebugFile c prefix payload w)) = peer w
  /\ sent (snd (writeDebugFile c prefix payload w)) = sent w.
Proof.
  unfold writeDebugFile, bind, ret, getExecutableDir, os_MkdirAll, time_Now,
    os_WriteFile, fmt_Printf.
  destruct (debugFilesDir c); simpl.
  - destruct (can_mkdir w (executable_dir w)); simpl; auto.
    match goal with |- context [if ?b then _ else _] => destruct b end; simpl; auto.
  - match goal with |- context [can_mkdir w ?d] => destruct (can_mkdir w d) end;
      simpl; auto.
    match goal with |- context [if ?b then _ else _] => destruct b end; simpl; auto.
Qed.

Lemma debug_step_frame (c : Client) (prefix payload : bytes) (w : World) :
  let m := if debugFiles c then writeDebugFile c prefix payload else ret tt in
  peer (snd (m w)) = peer w /\ sent (snd (m w)) = sent w.
Proof.
  simpl. destruct (debugFiles c).
  - apply writeDebugFile_frame.
  - simpl; auto.
Qed.

(** What [doRequest] returns is decided by the peer's answer to [post]. *)
Definition transport_result (w : World) (ctx : Context) (body soapAction : bytes)
  : bytes * option Response * option failure :=
  match ctx with
  | NilContext => ([], None, Some ErrCreatingRequest)
  | _ =>
      match peer w (post ctx body soapAction) with
      | Err err => ([], None, Some (ErrMakingRequest err))
      | Ok resp =>
          match Response_Body resp with
          | Err err => ([], Some resp, Some (ErrReadingResponse err))
          | Ok respBody => (respBody, Some resp, None)
          end
      end
  end.

Lemma doRequest_result (c : Client) (ctx : Context) (body soapAction op : bytes)
      (w : World) :
  fst (doRequest c ctx body soapAction op w) = transport_result w ctx body soapAction.
Proof.
  unfold doRequest, transport_result.
  unfold bind at 1.
  pose proof (debug_step_frame c (op ++ B "_request") body w) as [Hp _].
  cbv zeta in Hp.
  destruct ((if debugFiles c then writeDebugFile c (op ++ B "_request") body
             else ret tt) w) as [u w1] eqn:E1.
  cbn [snd] in Hp.
  assert (Hgo : forall ctx', ctx' = ctx -> ctx <> NilContext ->
    fst ((r <- http_Do (post ctx' body soapAction) ;;
          match r with
          | Err err => ret ([], None, Some (ErrMakingRequest err))
          | Ok resp =>
              match Response_Body resp with
              | Err err => ret ([], Some resp, Some (ErrReadingResponse err))
              | Ok respBody =>
                  (if debugFiles c
                   then writeDebugFile c (op ++ B "_response") respBody
                   else ret tt) ;;;
                  ret (respBody, Some resp, None)
              end
          end)%io w1)
    = match peer w (post ctx body soapAction) with
      | Err err => ([], None, Some (ErrMakingRequest err))
      | Ok resp =>
          match Response_Body resp with
          | Err err => ([], Some resp, Some (ErrReadingResponse err))
          | Ok respBody => (respBody, Some resp, None)
          end
      end).
  { intros ctx' -> _. unfold bind, http_Do. rewrite Hp.
    destruct (peer w (post ctx body soapAction)) as [resp|err]; simpl; auto.
    destruct (Response_Body resp) as [respBody|err]; simpl; auto.
    match goal with
    | |- context [(if debugFiles c then ?a else ?b) ?w'] =>
        destruct ((if debugFiles c then a else b) w')
    end.
    reflexivity. }
  destruct ctx; [reflexivity | |]; apply Hgo; congruence.
Qed.

Lemma doRequest_sent (c : Client) (ctx : Context) (body soapAction op : bytes)
      (w : World) :
  sent (snd (doRequest c ctx body soapAction op w))
  = match ctx with
    | NilContext => sent w
    | _ => sent w ++ [post ctx body soapAction]
    end.
Proof.
  unfold doRequest.
  unfold bind at 1.
  pose proof (debug_step_frame c (op ++ B "_request") body w) as [_ Hs].
  cbv zeta in Hs.
  destruct ((if debugFiles c then writeDebugFile c (op ++ B "_request") body
             else ret tt) w) as [u w1] eqn:E1.
  cbn [snd] in Hs.
  assert (Hgo : forall ctx', ctx' = ctx -> ctx <> NilContext ->
    sent (snd ((r <- http_Do (post ctx' body soapAction) ;;
          match r with
          | Err err => ret ([], None, Some (ErrMakingRequest err))
          | Ok resp =>
              match Response_Body resp with
              | Err err => ret ([], Some resp, Some (ErrReadingResponse err))
              | Ok respBody =>
                  (if debugFiles c
                   then writeDebugFile c (op ++ B "_response") respBody
                   else ret tt) ;;;
                  ret (respBody, Some resp, None)
              end
          end)%io w1))
    = sent w ++ [post ctx body soapAction]).
  { intros ctx' -> _. unfold bind, http_Do.
    destruct (peer w1 (post ctx body soapAction)) as [resp|err];
      [|cbn [ret snd sent]; congruence].
    destruct (Response_Body resp) as [respBody|err];
      [|cbn [ret snd sent]; congruence].
    match goal with
    | |- context [(if debugFiles c then ?a else ?b) ?w'] =>
        pose proof (debug_step_frame c (op ++ B "_response") respBody w') as [_ Hs2];
        cbv zeta in Hs2;
        destruct ((if debugFiles c then a else b) w') as [u2 w2]
    end.
    cbn [ret snd sent] in *. congruence. }
  destruct ctx; [simpl; congruence | |]; apply Hgo; congruence.
Qed.

(** The peer answers [req] with the response [resp], whose body reads as
    [data]. *)
Definition answers (w : World) (req : Request) (resp : Response) (data : bytes)
  : Prop :=
  peer w req = Ok resp /\ Response_Body resp = Ok data.

Lemma transport_result_answers w ctx body soapAction resp data :
  ctx <> NilContext ->
  answers w (post ctx body soapAction) resp data ->
  transport_result w ctx body soapAction = (data, Some resp, None).
Proof.
  intros Hctx [Hp Hb]. unfold transport_result.
  destruct ctx; [congruence | |]; rewrite Hp, Hb; reflexivity.
Qed.

(** ** The requests the methods build *)

(** The envelope around the element [m] of a payload. *)
Definition envelope_markup (m : xml.Markup) : xml.Markup :=
  xml.Branch (B "soapenv:Envelope")
    [(B "xmlns:soapenv", soapenvNS); (B "xmlns:ns", dhlNS)]
    [xml.Branch (B "soapenv:Header") [] [];
     xml.Branch (B "soapenv:Body") [] [m]].

Lemma marshalSOAPRequest_spec {A} `{xml.Marshaler A} (c : Client) (body : A) :
  marshalSOAPRequest c body
  = match xml.marshalValue body with
    | Ok m => Ok (xml.Header ++ xml.render (B "  ") 0 (envelope_markup m))
    | Err e => Err (ErrMarshaling e)
    end.
Proof.
  unfold marshalSOAPRequest, xml.MarshalIndent.
  unfold xml.marshalValue at 1. unfold Marshaler_SOAPEnvelope.
  cbn [SOAPBody_Content SOAPEnvelope_Body SOAPEnvelope_Soapenv SOAPEnvelope_NS].
  destruct (xml.marshalValue body); reflexivity.
Qed.

Definition getVersion_request : bytes :=
  xml.Header
  ++ xml.render (B "  ") 0 (envelope_markup (xml.Branch (B "ns:getVersion") [] [])).

Definition getMyShipments_markup (c : Client) (createdFrom createdTo : bytes)
           (offset : Z) : xml.Markup :=
  xml.Branch (B "ns:getMyShipments") []
    (xml.struct_elem (B "authData") (marshal_AuthData (authData c))
     ++ xml.string_elem (B "createdFrom") createdFrom
     ++ xml.string_elem (B "createdTo") createdTo
     ++ xml.int_elem (B "offset") offset).

Definition getMyShipments_request (c : Client) (createdFrom createdTo : bytes)
           (offset : Z) : bytes :=
  xml.Header
  ++ xml.render (B "  ") 0
       (envelope_markup (getMyShipments_markup c createdFrom createdTo offset)).

(** What each method makes of the outcome of the transport. *)
Definition GetVersion_decode (t : bytes * option Response * option failure)
  : bytes * option Response * option failure :=
  let '(body, resp, err) := t in
  match err with
  | Some err => ([], resp, Some err)
  | None =>
      match Unmarshal_SOAPResponseEnvelope body with
      | Err err => ([], resp, Some (ErrParsingResponse err))
      | Ok envelope =>
          match SOAPResponseBody_GetVersionResponse
                  (SOAPResponseEnvelope_Body envelope) with
          | None => ([], resp, Some ErrEmptyGetVersion)
          | Some r => (GetVersionResponse_Version r, resp, None)
          end
      end
  end.

Definition CreateShipments_decode (t : bytes * option Response * option failure)
  : list CreatedShipment * option Response * option failure :=
  let '(body, resp, err) := t in
  match err with
  | Some err => ([], resp, Some err)
  | None =>
      match Unmarshal_SOAPResponseEnvelope body with
      | Err err => ([], resp, Some (ErrParsingResponse err))
      | Ok envelope =>
          match SOAPResponseBody_CreateShipmentsResponse
                  (SOAPResponseEnvelope_Body envelope) with
          | None => ([], resp, Some ErrEmptyCreateShipments)
          | Some r =>
              (CreateShipmentsResult_Items (CreateShipmentsResponse_Result r),
               resp, None)
          end
      end
  end.

Definition GetMyShipments_decode (t : bytes * option Response * option failure)
  : list ShipmentBasicData * option Response * option failure :=
  let '(body, resp, err) := t in
  match err with
  | Some err => ([], resp, Some err)
  | None =>
      match Unmarshal_GetMyShipmentsEnvelope body with
      | Err err => ([], resp, Some (ErrParsingResponse err))
      | Ok envelope =>
          (GetMyShipmentsResult_Items
             (GetMyShipmentsResponse_Result
                (GetMyShipmentsBody_Response
                   (GetMyShipmentsEnvelope_Body envelope))),
           resp, None)
      end
  end.

Lemma GetVersion_result c ctx w :
  fst (GetVersion c ctx w)
  = GetVersion_decode
      (transport_result w ctx getVersion_request (Endpoint ++ B "#getVersion")).
Proof.
  unfold GetVersion. rewrite marshalSOAPRequest_spec.
  change (xml.marshalValue zero_GetVersionRequest)
    with (@Ok xml.error _ (xml.Branch (B "ns:getVersion") [] [])).
  cbv iota beta. fold getVersion_request.
  unfold bind. rewrite <- doRequest_result with (c := c) (op := B "getVersion").
  destruct (doRequest c ctx getVersion_request (Endpoint ++ B "#getVersion")
                      (B "getVersion") w) as [[[body resp] err] w'].
  cbn [fst]. unfold GetVersion_decode.
  destruct err; [reflexivity|].
  destruct (Unmarshal_SOAPResponseEnvelope body) as [env|e]; [|reflexivity].
  destruct (SOAPResponseBody_GetVersionResponse (SOAPResponseEnvelope_Body env));
    reflexivity.
Qed.

Lemma GetVersion_sent c ctx w :
  sent (snd (GetVersion c ctx w))
  = match ctx with
    | NilContext => sent w
    | _ => sent w ++ [post ctx getVersion_request (Endpoint ++ B "#getVersion")]
    end.
Proof.
  unfold GetVersion. rewrite marshalSOAPRequest_spec.
  change (xml.marshalValue zero_GetVersionRequest)
    with (@Ok xml.error _ (xml.Branch (B "ns:getVersion") [] [])).
  cbv iota beta. fold getVersion_request.
  unfold bind. rewrite <- doRequest_sent with (c := c) (op := B "getVersion").
  destruct (doRequest c ctx getVersion_request (Endpoint ++ B "#getVersion")
                      (B "getVersion") w) as [[[body resp] err] w'].
  cbn [snd].
  destruct err; [reflexivity|].
  destruct (Unmarshal_SOAPResponseEnvelope body) as [env|e]; [|reflexivity].
  destruct (SOAPResponseBody_GetVersionResponse (SOAPResponseEnvelope_Body env));
    reflexivity.
Qed.

Lemma GetMyShipments_run c ctx createdFrom createdTo offset w :
  GetMyShipments c ctx createdFrom createdTo offset w
  = (GetMyShipments_decode
       (fst (doRequest c ctx (getMyShipments_request c createdFrom createdTo offset)
                       (Endpoint ++ B "#getMyShipments") (B "getMyShipments") w)),
     snd (doRequest c ctx (getMyShipments_request c createdFrom createdTo offset)
                    (Endpoint ++ B "#getMyShipments") (B "getMyShipments") w)).
Proof.
  unfold GetMyShipments. rewrite marshalSOAPRequest_spec.
  unfold xml.marshalValue at 1. unfold Marshaler_GetMyShipmentsRequest.
  cbn [GetMyShipmentsRequest_AuthData GetMyShipmentsRequest_CreatedFrom
       GetMyShipmentsRequest_CreatedTo GetMyShipmentsRequest_Offset].
  fold (getMyShipments_markup c createdFrom createdTo offset).
  fold (getMyShipments_request c createdFrom createdTo offset).
  unfold bind.
  destruct (doRequest c ctx (getMyShipments_request c createdFrom createdTo offset)
                      (Endpoint ++ B "#getMyShipments") (B "getMyShipments") w)
    as [[[body resp] err] w'].
  cbn [fst snd]. unfold GetMyShipments_decode.
  destruct err; [reflexivity|].
  destruct (Unmarshal_GetMyShipmentsEnvelope body) as [env|e]; reflexivity.
Qed.

Lemma GetMyShipments_result c ctx createdFrom createdTo offset w :
  fst (GetMyShipments c ctx createdFrom createdTo offset w)
  = GetMyShipments_decode
      (transport_result w ctx (getMyShipments_request c createdFrom createdTo offset)
                        (Endpoint ++ B "#getMyShipments")).
Proof.
  rewrite GetMyShipments_run. cbn [fst]. rewrite doRequest_result. reflexivity.
Qed.

Lemma GetMyShipments_sent c ctx createdFrom createdTo offset w :
  sent (snd (GetMyShipments c ctx createdFrom createdTo offset w))
  = match ctx with
    | NilContext => sent w
    | _ => sent w ++ [post ctx (getMyShipments_request c createdFrom createdTo offset)
                           (Endpoint ++ B "#getMyShipments")]
    end.
Proof.
  rewrite GetMyShipments_run. cbn [snd]. apply doRequest_sent.
Qed.

(** ** Decoding a struct from an element tree *)

(** A node that [unmarshal_struct] steps over: character data, or an
    element that no field of the struct is tagged for. *)
Definition skipped {T} (tbl : xml.fields T) (n : xml.Node) : Prop :=
  match n with
  | xml.Text _ => True
  | xml.Element name _ _ => xml.lookup_field tbl (xml.Local name) = None
  end.

(** Among [kids], one element is called [tag], with content [sub]; the
    nodes around it are stepped over. *)
Definition sole {T} (tbl : xml.fields T) (tag : bytes) (kids sub : list xml.Node)
  : Prop :=
  exists pre name attrs post,
    kids = pre ++ xml.Element name attrs sub :: post
    /\ xml.Local name = tag
    /\ Forall (skipped tbl) pre
    /\ Forall (skipped tbl) post.

Lemma unmarshal_struct_app {T} (tbl : xml.fields T) (l1 l2 : list xml.Node) :
  forall v,
    xml.unmarshal_struct tbl v (l1 ++ l2)
    = rbind (xml.unmarshal_struct tbl v l1)
            (fun v' => xml.unmarshal_struct tbl v' l2).
Proof.
  induction l1 as [|n l1 IH]; intros v; [reflexivity|].
  destruct n as [name attrs sub | d]; cbn [app xml.unmarshal_struct].
  - destruct (xml.lookup_field tbl (xml.Local name)) as [store|]; [|apply IH].
    destruct (store v sub) as [v'|e]; cbn [rbind]; [apply IH | reflexivity].
  - apply IH.
Qed.

Lemma unmarshal_struct_skipped {T} (tbl : xml.fields T) (l : list xml.Node) :
  Forall (skipped tbl) l -> forall v, xml.unmarshal_struct tbl v l = Ok v.
Proof.
  induction 1 as [|n l Hn _ IH]; intros v; [reflexivity|].
  destruct n as [name attrs sub | d]; cbn [xml.unmarshal_struct].
  - cbn [skipped] in Hn. rewrite Hn. apply IH.
  - apply IH.
Qed.

Lemma unmarshal_struct_sole {T} (tbl : xml.fields T) (tag : bytes)
      (kids sub : list xml.Node) (store : T -> list xml.Node -> result xml.error T) :
  sole tbl tag kids sub ->
  xml.lookup_field tbl tag = Some store ->
  forall v, xml.unmarshal_struct tbl v kids = store v sub.
Proof.
  intros (pre & name & attrs & post & -> & Hname & Hpre & Hpost) Hl v.
  rewrite unmarshal_struct_app, (unmarshal_struct_skipped _ _ Hpre).
  cbn [rbind xml.unmarshal_struct]. rewrite Hname, Hl.
  destruct (store v sub) as [v'|e]; cbn [rbind]; [|reflexivity].
  apply unmarshal_struct_skipped; assumption.
Qed.

Lemma bytes_eqb_refl (a : bytes) : bytes_eqb a a = true.
Proof.
  induction a as [|x a IH]; [reflexivity|].
  cbn [bytes_eqb]. rewrite Ascii.eqb_refl, IH. reflexivity.
Qed.

Lemma bytes_eqb_eq (a b : bytes) : bytes_eqb a b = true <-> a = b.
Proof.
  split; [|intros ->; apply bytes_eqb_refl].
  revert b; induction a as [|x a IH]; intros [|y b] H; try discriminate; auto.
  cbn [bytes_eqb] in H. apply andb_true_iff in H as [Hx Hab].
  apply Ascii.eqb_eq in Hx. f_equal; auto.
Qed.

(** An envelope whose [Body] holds [kb] decodes to what [kb] decodes to. *)
Lemma Unmarshal_SOAPResponseEnvelope_Body data name attrs kids kb :
  xml.parse_document data = Ok (xml.Element name attrs kids) ->
  xml.Local name = B "Envelope" ->
  sole fields_SOAPResponseEnvelope (B "Body") kids kb ->
  Unmarshal_SOAPResponseEnvelope data
  = rbind (xml.unmarshal_struct fields_SOAPResponseBody zero_SOAPResponseBody kb)
          (fun b => Ok (mkSOAPResponseEnvelope name b)).
Proof.
  intros Hp Hn Hs. unfold Unmarshal_SOAPResponseEnvelope.
  rewrite Hp. cbn [rbind xml.expect_name]. rewrite Hn, bytes_eqb_refl.
  cbn [rbind].
  rewrite (unmarshal_struct_sole _ _ _ _ _ Hs eq_refl).
  unfold xml.struct_field.
  cbn [SOAPResponseEnvelope_Body SOAPResponseEnvelope_XMLName root_name].
  reflexivity.
Qed.

Lemma Unmarshal_GetMyShipmentsEnvelope_Body data name attrs kids kb :
  xml.parse_document data = Ok (xml.Element name attrs kids) ->
  xml.Local name = B "Envelope" ->
  sole fields_GetMyShipmentsEnvelope (B "Body") kids kb ->
  Unmarshal_GetMyShipmentsEnvelope data
  = rbind (xml.unmarshal_struct fields_GetMyShipmentsBody zero_GetMyShipmentsBody kb)
          (fun b => Ok (mkGetMyShipmentsEnvelope name b)).
Proof.
  intros Hp Hn Hs. unfold Unmarshal_GetMyShipmentsEnvelope.
  rewrite Hp. cbn [rbind xml.expect_name]. rewrite Hn, bytes_eqb_refl.
  cbn [rbind].
  rewrite (unmarshal_struct_sole _ _ _ _ _ Hs eq_refl).
  unfold xml.struct_field.
  cbn [GetMyShipmentsEnvelope_Body GetMyShipmentsEnvelope_XMLName root_name].
  reflexivity.
Qed.

(** The two envelope types have the same single field, [Body]. *)
Lemma sole_Body_both kids kb :
  sole fields_SOAPResponseEnvelope (B "Body") kids kb ->
  sole fields_GetMyShipmentsEnvelope (B "Body") kids kb.
Proof.
  intros (pre & name & attrs & post & E & Hn & Hpre & Hpost).
  exists pre, name, attrs, post. repeat split; auto.
  - eapply Forall_impl; [|exact Hpre].
    intros [n a s|d]; auto.
    cbn [skipped xml.lookup_field fields_SOAPResponseEnvelope
         fields_GetMyShipmentsEnvelope].
    destruct (bytes_eqb (B "Body") (xml.Local n)); auto; discriminate.
  - eapply Forall_impl; [|exact Hpost].
    intros [n a s|d]; auto.
    cbn [skipped xml.lookup_field fields_SOAPResponseEnvelope
         fields_GetMyShipmentsEnvelope].
    destruct (bytes_eqb (B "Body") (xml.Local n)); auto; discriminate.
Qed.

(** No element of a response slot: skipped by [GetMyShipmentsBody] too. *)
Lemma skipped_slots_GetMyShipmentsBody (n : xml.Node) :
  skipped fields_SOAPResponseBody n -> skipped fields_GetMyShipmentsBody n.
Proof.
  destruct n as [name a s|d]; auto.
  cbn [skipped xml.lookup_field fields_SOAPResponseBody fields_GetMyShipmentsBody].
  destruct (bytes_eqb (B "getVersionResponse") (xml.Local name)); [discriminate|].
  destruct (bytes_eqb (B "createShipmentsResponse") (xml.Local name)); [discriminate|].
  destruct (bytes_eqb (B "getMyShipmentsResponse") (xml.Local name));
    [discriminate | auto].
Qed.

(** ** The error kinds of the specification

    The specification names five kinds of error.  [kind_of] gives the
    kind of each error the client makes. *)

Inductive error_kind : Type :=
| TransportError
| MalformedResponseError
| EmptyResponseError
| RemoteFaultError
| ResultCountMismatchError
| RequestEncodingError.

Definition kind_of (e : failure) : error_kind :=
  match e with
  | ErrMarshaling _ => RequestEncodingError
  | ErrCreatingRequest | ErrMakingRequest _ | ErrReadingResponse _ => TransportError
  | ErrParsingResponse _ => MalformedResponseError
  | ErrEmptyGetVersion | ErrEmptyCreateShipments | ErrNoShipmentCreated =>
      EmptyResponseError
  end.

Lemma no_fault_kind (e : failure) :
  kind_of e <> RemoteFaultError /\ kind_of e <> ResultCountMismatchError.
Proof. destruct e; split; discriminate. Qed.

(** ** Sample clients, worlds and documents *)

Definition sample_client : Client :=
  NewClient (mkDHL24Config (B "user") (B "secret") (B "1234567") false []).

Definition other_client : Client :=
  NewClient (mkDHL24Config (B "someone") (B "else") (B "7654321") true (B "/tmp")).

Definition ok_response (data : bytes) : Response :=
  mkResponse (B "200 OK") 200 (Ok data).

(** A world whose peer answers every request with [data], and whose clock
    stands at the local day [day]. *)
Definition replying_world (day : Z) (data : bytes) : World :=
  mkWorld (fun _ => {| time.day_number := day; time.nanos := 0 |}) 0
          (fun _ => Ok (ok_response data)) [] (fun _ => true) (fun _ => true)
          (B "/opt/dhl") [] [].

Definition version_element : bytes :=
  B "<getVersionResponse><getVersionResult>2.13.3</getVersionResult></getVersionResponse>".

Definition version_document : bytes :=
  B "<Envelope><Body>" ++ version_element ++ B "</Body></Envelope>".

Definition empty_body_document : bytes := B "<Envelope><Body></Body></Envelope>".

Definition fault_document : bytes :=
  B "<Envelope><Body><Fault><faultcode>100</faultcode><faultstring>Invalid credentials</faultstring></Fault></Body></Envelope>".



Definition one_confirmation_document : bytes :=
  B "<Envelope><Body><createShipmentsResponse><createShipmentsResult><item><shipmentId>11122223333</shipmentId></item></createShipmentsResult></createShipmentsResponse></Body></Envelope>".

Definition two_confirmations_document : bytes :=
  B "<Envelope><Body><createShipmentsResponse><createShipmentsResult><item><shipmentId>11122223333</shipmentId></item><item><shipmentId>11122224444</shipmentId><orderStatus>OK</orderStatus></item></createShipmentsResult></createShipmentsResponse></Body></Envelope>".

Definition no_confirmation_document : bytes :=
  B "<Envelope><Body><createShipmentsResponse><createShipmentsResult></createShipmentsResult></createShipmentsResponse></Body></Envelope>".

(** ** Well-formed documents

    A document is a prolog, one element, and nothing but comments,
    processing instructions and white space after it. *)

Definition is_misc (t : xml.Token) : bool :=
  match t with
  | xml.Comment _ | xml.ProcInst _ _ => true
  | xml.CharData d => forallb xml.is_xml_space d
  | _ => false
  end.

Fixpoint only_misc (fuel : nat) (s : bytes) : bool :=
  match fuel with
  | O => false
  | S f =>
      match xml.rawToken s with
      | xml.TokEOF => true
      | xml.Tok t rest => is_misc t && only_misc f rest
      | xml.TokErr _ => false
      end
  end.

Fixpoint prolog (fuel : nat) (s : bytes) : bool :=
  match fuel with
  | O => false
  | S f =>
      match xml.rawToken s with
      | xml.Tok (xml.StartElement _ _ _) _ => true
      | xml.Tok xml.Directive rest => prolog f rest
      | xml.Tok t rest => is_misc t && prolog f rest
      | _ => false
      end
  end.

Definition well_formed (s : bytes) : bool :=
  prolog (S (List.length s)) s
  && match xml.parse_root s with
     | Ok (_, rest) => only_misc (S (List.length rest)) rest
     | Err _ => false
     end.

(** ** The operations *)

Section Operations.

Variable float64 : Type.
Variable FormatFloat : float64 -> bytes.

Definition createShipments_markup (c : Client) (items : list (ShipmentItem float64))
  : xml.Markup :=
  xml.Branch (B "ns:createShipments") []
    (xml.struct_elem (B "authData") (marshal_AuthData (authData c))
     ++ xml.struct_elem (B "shipments")
          (marshal_Shipments float64 FormatFloat (mkShipments float64 items))).

Definition createShipments_request (c : Client) (items : list (ShipmentItem float64))
  : bytes :=
  xml.Header
  ++ xml.render (B "  ") 0 (envelope_markup (createShipments_markup c items)).

Lemma CreateShipments_run c ctx items w :
  CreateShipments float64 FormatFloat c ctx items w
  = (CreateShipments_decode
       (fst (doRequest c ctx (createShipments_request c items)
                       (Endpoint ++ B "#createShipments") (B "createShipments") w)),
     snd (doRequest c ctx (createShipments_request c items)
                    (Endpoint ++ B "#createShipments") (B "createShipments") w)).
Proof.
  unfold CreateShipments. rewrite marshalSOAPRequest_spec.
  unfold xml.marshalValue at 1. unfold Marshaler_CreateShipmentsRequest.
  cbn [CreateShipmentsRequest_AuthData CreateShipmentsRequest_Shipments].
  fold (createShipments_markup c items).
  fold (createShipments_request c items).
  unfold bind.
  destruct (doRequest c ctx (createShipments_request c items)
                      (Endpoint ++ B "#createShipments") (B "createShipments") w)
    as [[[body resp] err] w'].
  cbn [fst snd]. unfold CreateShipments_decode.
  destruct err; [reflexivity|].
  destruct (Unmarshal_SOAPResponseEnvelope body) as [env|e]; [|reflexivity].
  destruct (SOAPResponseBody_CreateShipmentsResponse (SOAPResponseEnvelope_Body env));
    reflexivity.
Qed.

Lemma CreateShipments_result c ctx items w :
  fst (CreateShipments float64 FormatFloat c ctx items w)
  = CreateShipments_decode
      (transport_result w ctx (createShipments_request c items)
                        (Endpoint ++ B "#createShipments")).
Proof.
  rewrite CreateShipments_run. cbn [fst]. rewrite doRequest_result. reflexivity.
Qed.

Lemma CreateShipment_result c ctx x w :
  fst (CreateShipment float64 FormatFloat c ctx x w)
  = let '(results, resp, err) :=
      fst (CreateShipments float64 FormatFloat c ctx [x] w) in
    match err with
    | Some err => (None, resp, Some err)
    | None =>
        match results with
        | [] => (None, resp, Some ErrNoShipmentCreated)
        | first :: _ => (Some first, resp, None)
        end
    end.
Proof.
  unfold CreateShipment, bind.
  destruct (CreateShipments float64 FormatFloat c ctx [x] w)
    as [[[results resp] err] w'].
  cbn [fst]. destruct err; [reflexivity|]. destruct results; reflexivity.
Qed.

(** *** Responses without the expected slot *)

(** A response whose [Body] holds no element of a response slot decodes
    with the three slots nil; [GetVersion] and [CreateShipments] report
    their empty-response error, and [GetMyShipments] returns no record and
    no error. *)
Lemma no_slot_response c ctx w resp data name attrs kids kb :
  ctx <> NilContext ->
  (forall req, answers w req resp data) ->
  xml.parse_document data = Ok (xml.Element name attrs kids) ->
  xml.Local name = B "Envelope" ->
  sole fields_SOAPResponseEnvelope (B "Body") kids kb ->
  Forall (skipped fields_SOAPResponseBody) kb ->
  Unmarshal_SOAPResponseEnvelope data
  = Ok (mkSOAPResponseEnvelope name (mkSOAPResponseBody None None None))
  /\ fst (GetVersion c ctx w) = ([], Some resp, Some ErrEmptyGetVersion)
  /\ (forall items,
        fst (CreateShipments float64 FormatFloat c ctx items w)
        = ([], Some resp, Some ErrEmptyCreateShipments))
  /\ (forall createdFrom createdTo offset,
        fst (GetMyShipments c ctx createdFrom createdTo offset w)
        = ([], Some resp, None)).
Proof.
  intros Hctx Hans Hp Hn Hs Hk.
  assert (Hu : Unmarshal_SOAPResponseEnvelope data
               = Ok (mkSOAPResponseEnvelope name (mkSOAPResponseBody None None None))).
  { rewrite (Unmarshal_SOAPResponseEnvelope_Body _ _ _ _ _ Hp Hn Hs).
    rewrite (unmarshal_struct_skipped _ _ Hk). reflexivity. }
  assert (Hg : Unmarshal_GetMyShipmentsEnvelope data
               = Ok (mkGetMyShipmentsEnvelope name zero_GetMyShipmentsBody)).
  { rewrite (Unmarshal_GetMyShipmentsEnvelope_Body _ _ _ _ _ Hp Hn
               (sole_Body_both _ _ Hs)).
    rewrite unmarshal_struct_skipped; [reflexivity|].
    eapply Forall_impl; [|exact Hk]. exact skipped_slots_GetMyShipmentsBody. }
  split; [exact Hu|]. split; [|split].
  - rewrite GetVersion_result.
    rewrite (transport_result_answers _ _ _ _ _ _ Hctx (Hans _)).
    unfold GetVersion_decode. rewrite Hu. reflexivity.
  - intros items. rewrite CreateShipments_result.
    rewrite (transport_result_answers _ _ _ _ _ _ Hctx (Hans _)).
    unfold CreateShipments_decode. rewrite Hu. reflexivity.
  - intros createdFrom createdTo offset. rewrite GetMyShipments_result.
    rewrite (transport_result_answers _ _ _ _ _ _ Hctx (Hans _)).
    unfold GetMyShipments_decode. rewrite Hg. reflexivity.
Qed.

(** C4, as the code has it: a response that carries a [Fault] element in
    its [Body], and no element of a response slot, is decoded with no slot
    set; [GetVersion] and [CreateShipments] return their empty-response
    error, the one they return for an empty [Body].  The fault code and
    message are not read, and the error is of the empty-response kind,
    which differs from the transport and malformed-response kinds. *)
Theorem fault_is_reported_as_empty_response c ctx w resp data name attrs kids kb fault :
  ctx <> NilContext ->
  (forall req, answers w req resp data) ->
  xml.parse_document data = Ok (xml.Element name attrs kids) ->
  xml.Local name = B "Envelope" ->
  sole fields_SOAPResponseEnvelope (B "Body") kids kb ->
  sole fields_SOAPResponseBody (B "Fault") kb fault ->
  fst (GetVersion c ctx w) = ([], Some resp, Some ErrEmptyGetVersion)
  /\ (forall items,
        fst (CreateShipments float64 FormatFloat c ctx items w)
        = ([], Some resp, Some ErrEmptyCreateShipments))
  /\ kind_of ErrEmptyGetVersion = EmptyResponseError
  /\ kind_of ErrEmptyCreateShipments = EmptyResponseError.
Proof.
  intros Hctx Hans Hp Hn Hs (pre & fname & fattrs & post & -> & Hf & Hpre & Hpost).
  assert (Hk : Forall (skipped fields_SOAPResponseBody)
                      (pre ++ xml.Element fname fattrs fault :: post)).
  { apply Forall_app; split; [assumption|]. constructor; [|assumption].
    cbn [skipped]. rewrite Hf. reflexivity. }
  destruct (no_slot_response c ctx w resp data name attrs kids _ Hctx Hans Hp Hn Hs Hk)
    as (_ & Hv & Hc & _).
  repeat split; auto.
Qed.

(** *** GetVersion *)

(** C7, as the code has it: for every response that parses to an
    [Envelope] whose [Body] holds a [getVersionResponse] element holding a
    [getVersionResult] element, [GetVersion] returns the character data of
    that element, and no error. *)
Theorem GetVersion_returns_version_text c ctx w resp data name attrs kids kb kr text :
  ctx <> NilContext ->
  answers w (post ctx getVersion_request (Endpoint ++ B "#getVersion")) resp data ->
  xml.parse_document data = Ok (xml.Element name attrs kids) ->
  xml.Local name = B "Envelope" ->
  sole fields_SOAPResponseEnvelope (B "Body") kids kb ->
  sole fields_SOAPResponseBody (B "getVersionResponse") kb kr ->
  sole fields_GetVersionResponse (B "getVersionResult") kr text ->
  fst (GetVersion c ctx w) = (xml.chardata text, Some resp, None).
Proof.
  intros Hctx Hans Hp Hn Hs Hr Hv.
  rewrite GetVersion_result, (transport_result_answers _ _ _ _ _ _ Hctx Hans).
  unfold GetVersion_decode.
  rewrite (Unmarshal_SOAPResponseEnvelope_Body _ _ _ _ _ Hp Hn Hs).
  rewrite (unmarshal_struct_sole _ _ _ _ _ Hr eq_refl).
  unfold xml.pointer_field.
  cbn [SOAPResponseBody_GetVersionResponse zero_SOAPResponseBody].
  rewrite (unmarshal_struct_sole _ _ _ _ _ Hv eq_refl).
  reflexivity.
Qed.

(** C10: the request [GetVersion] sends is the same for every client and
    every world: it does not depend on the configured user name, password
    or account number.  Its body is [getVersion_request], which holds no
    credential field. *)
Theorem GetVersion_request_independent_of_credentials c1 c2 ctx w1 w2 :
  marshalSOAPRequest c1 zero_GetVersionRequest = Ok getVersion_request
  /\ marshalSOAPRequest c2 zero_GetVersionRequest = Ok getVersion_request
  /\ skipn (List.length (sent w1)) (sent (snd (GetVersion c1 ctx w1)))
     = skipn (List.length (sent w2)) (sent (snd (GetVersion c2 ctx w2)))
  /\ map Request_Body (skipn (List.length (sent w1)) (sent (snd (GetVersion c1 ctx w1))))
     = match ctx with
       | NilContext => []
       | _ => [getVersion_request]
       end.
Proof.
  split; [reflexivity|]. split; [reflexivity|].
  rewrite !GetVersion_sent.
  destruct ctx; rewrite ?skipn_app, ?skipn_all, ?Nat.sub_diag; split; reflexivity.
Qed.

(** *** CreateShipments and CreateShipment *)

Lemma CreateShipments_returns_decoded_confirmations_aux c ctx items w resp data envelope r :
  ctx <> NilContext ->
  answers w (post ctx (createShipments_request c items)
                  (Endpoint ++ B "#createShipments")) resp data ->
  Unmarshal_SOAPResponseEnvelope data = Ok envelope ->
  SOAPResponseBody_CreateShipmentsResponse (SOAPResponseEnvelope_Body envelope)
  = Some r ->
  fst (CreateShipments float64 FormatFloat c ctx items w)
  = (CreateShipmentsResult_Items (CreateShipmentsResponse_Result r), Some resp, None).
Proof.
  intros Hctx Hans Hu Hr.
  rewrite CreateShipments_result, (transport_result_answers _ _ _ _ _ _ Hctx Hans).
  unfold CreateShipments_decode. rewrite Hu, Hr. reflexivity.
Qed.

(** C3, as the code has it: when the response decodes with the
    [createShipmentsResponse] slot set, [CreateShipments] returns the
    confirmations of that slot as they are, with no error, whatever the
    number of shipments sent: the two numbers are not compared. *)
Theorem CreateShipments_returns_decoded_confirmations c ctx items w resp data envelope r :
  ctx <> NilContext ->
  answers w (post ctx (createShipments_request c items)
                  (Endpoint ++ B "#createShipments")) resp data ->
  Unmarshal_SOAPResponseEnvelope data = Ok envelope ->
  SOAPResponseBody_CreateShipmentsResponse (SOAPResponseEnvelope_Body envelope)
  = Some r ->
  fst (CreateShipments float64 FormatFloat c ctx items w)
  = (CreateShipmentsResult_Items (CreateShipmentsResponse_Result r), Some resp, None).
Proof.
  exact (CreateShipments_returns_decoded_confirmations_aux c ctx items w resp data
           envelope r).
Qed.

(** C8: when the response to the single shipment decodes with the
    [createShipmentsResponse] slot set, [CreateShipment] returns the error
    [no shipment created] if the slot holds no confirmation, and the first
    confirmation, with no error, if it holds one or more. *)
Theorem CreateShipment_returns_first_confirmation c ctx x w resp data envelope r :
  ctx <> NilContext ->
  answers w (post ctx (createShipments_request c [x])
                  (Endpoint ++ B "#createShipments")) resp data ->
  Unmarshal_SOAPResponseEnvelope data = Ok envelope ->
  SOAPResponseBody_CreateShipmentsResponse (SOAPResponseEnvelope_Body envelope)
  = Some r ->
  fst (CreateShipment float64 FormatFloat c ctx x w)
  = match CreateShipmentsResult_Items (CreateShipmentsResponse_Result r) with
    | [] => (None, Some resp, Some ErrNoShipmentCreated)
    | first :: _ => (Some first, Some resp, None)
    end.
Proof.
  intros Hctx Hans Hu Hr.
  rewrite CreateShipment_result.
  rewrite (CreateShipments_returns_decoded_confirmations_aux c ctx [x] w resp data
             envelope r Hctx Hans Hu Hr).
  reflexivity.
Qed.

(** *** Responses the decoder rejects *)


End Operations.

(** ** Examples

    In the examples a weight is a whole number of kilograms below a
    million, which the ['g'] format writes as a plain decimal integer. *)

Definition kilograms : Type := Z.
Definition FormatKilograms : kilograms -> bytes := strconv.FormatInt.
Definition ParseKilograms : bytes -> option kilograms := strconv.ParseInt.

Definition sample_item : ShipmentItem kilograms :=
  mkShipmentItem
    (mkAddress [] (B "ESMALTE INC") (B "01249") (B "Warsaw") (B "GOLESZOWSKA")
               (B "3") [] [] (B "123456789") (B "sender@example.com"))
    (mkAddress (B "PL") (B "Test Receiver") (B "01249") (B "Warsaw")
               (B "GOLESZOWSKA") (B "3") [] [] (B "987654321")
               (B "receiver@example.com"))
    (mkPieceList [mkPiece (B "ENVELOPE") 1 (2 : kilograms)])
    (mkPayment (B "BANK_TRANSFER") (B "SHIPPER") (B "1234567") (B "BANK_TRANSFER"))
    (mkService (B "AH"))
    (B "2024-06-11") true [] (B "test content").

Definition first_confirmation : CreatedShipment :=
  mkCreatedShipment (B "11122223333") [] [].

Definition second_confirmation : CreatedShipment :=
  mkCreatedShipment (B "11122224444") [] (B "OK").

Definition plain_name (local : bytes) : xml.Name :=
  {| xml.Space := []; xml.Local := local |}.

Definition confirmations_envelope (l : list CreatedShipment) : SOAPResponseEnvelope :=
  mkSOAPResponseEnvelope (plain_name (B "Envelope"))
    (mkSOAPResponseBody None
       (Some (mkCreateShipmentsResponse (mkCreateShipmentsResult l))) None).

(** C3, refuted as stated: two shipments are sent, the response holds one
    confirmation, and [CreateShipments] returns that one confirmation with
    no error. *)
Lemma two_shipments_one_confirmation_no_error :
  fst (CreateShipments kilograms FormatKilograms sample_client Background
         [sample_item; sample_item]
         (replying_world 19884 one_confirmation_document))
  = ([first_confirmation], Some (ok_response one_confirmation_document), None).
Proof. vm_compute. reflexivity. Qed.

Lemma CreateShipments_returns_decoded_confirmations_witness :
  fst (CreateShipments kilograms FormatKilograms sample_client Background
         [sample_item] (replying_world 19884 two_confirmations_document))
  = ([first_confirmation; second_confirmation],
     Some (ok_response two_confirmations_document), None).
Proof.
  refine (CreateShipments_returns_decoded_confirmations kilograms FormatKilograms
            sample_client Background [sample_item]
            (replying_world 19884 two_confirmations_document)
            (ok_response two_confirmations_document) two_confirmations_document
            (confirmations_envelope [first_confirmation; second_confirmation])
            (mkCreateShipmentsResponse
               (mkCreateShipmentsResult [first_confirmation; second_confirmation]))
            _ _ _ _).
  - discriminate.
  - split; reflexivity.
  - vm_compute. reflexivity.
  - reflexivity.
Defined.

Lemma CreateShipment_returns_first_confirmation_witness :
  fst (CreateShipment kilograms FormatKilograms sample_client Background
         sample_item (replying_world 19884 two_confirmations_document))
  = (Some first_confirmation, Some (ok_response two_confirmations_document), None)
  /\ fst (CreateShipment kilograms FormatKilograms sample_client Background
            sample_item (replying_world 19884 no_confirmation_document))
     = (None, Some (ok_response no_confirmation_document), Some ErrNoShipmentCreated).
Proof.
  split.
  - refine (CreateShipment_returns_first_confirmation kilograms FormatKilograms
              sample_client Background sample_item
              (replying_world 19884 two_confirmations_document)
              (ok_response two_confirmations_document) two_confirmations_document
              (confirmations_envelope [first_confirmation; second_confirmation])
              (mkCreateShipmentsResponse
                 (mkCreateShipmentsResult [first_confirmation; second_confirmation]))
              _ _ _ _).
    + discriminate.
    + split; reflexivity.
    + vm_compute. reflexivity.
    + reflexivity.
  - refine (CreateShipment_returns_first_confirmation kilograms FormatKilograms
              sample_client Background sample_item
              (replying_world 19884 no_confirmation_document)
              (ok_response no_confirmation_document) no_confirmation_document
              (confirmations_envelope [])
              (mkCreateShipmentsResponse (mkCreateShipmentsResult []))
              _ _ _ _).
    + discriminate.
    + split; reflexivity.
    + vm_compute. reflexivity.
    + reflexivity.
Defined.



(** C4, refuted as stated: a response that carries a fault gets the error
    of a response with an empty [Body], and [GetMyShipments] reports no
    error at all. *)
Lemma fault_is_not_distinguished :
  snd (fst (GetVersion sample_client Background
              (replying_world 19884 fault_document)))
  = Some ErrEmptyGetVersion
  /\ snd (fst (GetVersion sample_client Background
                 (replying_world 19884 empty_body_document)))
     = Some ErrEmptyGetVersion
  /\ snd (fst (CreateShipments kilograms FormatKilograms sample_client Background
                 [sample_item] (replying_world 19884 fault_document)))
     = Some ErrEmptyCreateShipments
  /\ snd (fst (GetMyShipments sample_client Background (B "2024-06-03")
                 (B "2024-06-10") 0 (replying_world 19884 fault_document)))
     = None.
Proof. repeat split; vm_compute; reflexivity. Qed.

Lemma fault_is_reported_as_empty_response_witness :
  fst (GetVersion sample_client Background (replying_world 19884 fault_document))
  = ([], Some (ok_response fault_document), Some ErrEmptyGetVersion)
  /\ fst (CreateShipments kilograms FormatKilograms sample_client Background
            [sample_item] (replying_world 19884 fault_document))
     = ([], Some (ok_response fault_document), Some ErrEmptyCreateShipments).
Proof.
  edestruct (fault_is_reported_as_empty_response kilograms FormatKilograms
               sample_client Background (replying_world 19884 fault_document)
               (ok_response fault_document) fault_document)
    as (Hv & Hc & _).
  - discriminate.
  - intros req; split; reflexivity.
  - lazy. reflexivity.
  - reflexivity.
  - eexists [], _, _, []. repeat split; constructor.
  - eexists [], _, _, []. repeat split; constructor.
  - split; [exact Hv | apply Hc].
Defined.

(** C7, refuted as stated: the element alone, without the envelope, is
    rejected: the root must be called [Envelope]. *)
Lemma bare_version_element_is_rejected :
  fst (GetVersion sample_client Background (replying_world 19884 version_element))
  = ([], Some (ok_response version_element),
     Some (ErrParsingResponse xml.UnmarshalError)).
Proof. vm_compute. reflexivity. Qed.

Lemma GetVersion_returns_version_text_witness :
  fst (GetVersion sample_client Background (replying_world 19884 version_document))
  = (B "2.13.3", Some (ok_response version_document), None).
Proof.
  change (B "2.13.3") with (xml.chardata [xml.Text (B "2.13.3")]).
  eapply (GetVersion_returns_version_text sample_client Background
            (replying_world 19884 version_document)
            (ok_response version_document) version_document).
  - discriminate.
  - split; reflexivity.
  - lazy. reflexivity.
  - reflexivity.
  - eexists [], _, _, []. repeat split; constructor.
  - eexists [], _, _, []. repeat split; constructor.
  - eexists [], _, _, []. repeat split; constructor.
Defined.

(** C2, at a response with an empty [Body]: the envelope decodes, with no
    slot set; [GetVersion] and [CreateShipments] report their
    empty-response error; [GetMyShipments] reports no error and returns no
    record. *)
Theorem empty_body_response :
  Unmarshal_SOAPResponseEnvelope empty_body_document
  = Ok (mkSOAPResponseEnvelope (plain_name (B "Envelope"))
          (mkSOAPResponseBody None None None))
  /\ fst (GetVersion sample_client Background
            (replying_world 19884 empty_body_document))
     = ([], Some (ok_response empty_body_document), Some ErrEmptyGetVersion)
  /\ fst (CreateShipments kilograms FormatKilograms sample_client Background
            [sample_item] (replying_world 19884 empty_body_document))
     = ([], Some (ok_response empty_body_document), Some ErrEmptyCreateShipments)
  /\ fst (GetMyShipments sample_client Background (B "2024-06-03") (B "2024-06-10") 0
            (replying_world 19884 empty_body_document))
     = ([], Some (ok_response empty_body_document), None).
Proof.
  edestruct (no_slot_response kilograms FormatKilograms sample_client Background
               (replying_world 19884 empty_body_document)
               (ok_response empty_body_document) empty_body_document)
    as (Hu & Hv & Hc & Hg).
  - discriminate.
  - intros req; split; reflexivity.
  - lazy. reflexivity.
  - reflexivity.
  - eexists [], _, _, []. repeat split; constructor.
  - constructor.
  - split; [exact Hu|]. split; [exact Hv|]. split; [apply Hc | apply Hg].
Qed.

(** ** The request envelope *)

Definition envelope_start_tag : bytes :=
  B "<soapenv:Envelope xmlns:soapenv=" ++ [quote_byte]
  ++ B "http://schemas.xmlsoap.org/soap/envelope/" ++ [quote_byte]
  ++ B " xmlns:ns=" ++ [quote_byte]
  ++ B "https://dhl24.com.pl/webapi2/provider/service.html?ws=1" ++ [quote_byte]
  ++ B ">".

(** C5: for every payload [marshalSOAPRequest] returns the XML
    declaration line, then one [soapenv:Envelope] element that carries the
    two name-space attributes and holds, each on a line of its own, an
    empty [soapenv:Header] and a [soapenv:Body] whose only content is the
    element of the payload, indented by two levels.  (A payload that
    [Marshal] refuses gives the error of [Marshal], wrapped.) *)
Theorem marshalSOAPRequest_layout {A} `{xml.Marshaler A} (c : Client) (payload : A) :
  marshalSOAPRequest c payload
  = match xml.marshalValue payload with
    | Ok m =>
        Ok (xml.Header
            ++ envelope_start_tag ++ [newline_byte]
            ++ B "  <soapenv:Header></soapenv:Header>" ++ [newline_byte]
            ++ B "  <soapenv:Body>" ++ [newline_byte]
            ++ B "    " ++ xml.render (B "  ") 2 m ++ [newline_byte]
            ++ B "  </soapenv:Body>" ++ [newline_byte]
            ++ B "</soapenv:Envelope>")
    | Err e => Err (ErrMarshaling e)
    end.
Proof.
  rewrite marshalSOAPRequest_spec.
  destruct (xml.marshalValue payload) as [m|e]; [|reflexivity].
  f_equal. f_equal.
  unfold envelope_markup.
  cbn [xml.render flat_map app].
  generalize (xml.render (B "  ") 2 m). intros r.
  rewrite app_nil_r.
  unfold xml.start_tag, xml.end_tag.
  repeat rewrite <- app_assoc.
  cbv. reflexivity.
Qed.

(** The request of [GetVersion], in full. *)
Lemma getVersion_request_text :
  getVersion_request
  = xml.Header
    ++ envelope_start_tag ++ [newline_byte]
    ++ B "  <soapenv:Header></soapenv:Header>" ++ [newline_byte]
    ++ B "  <soapenv:Body>" ++ [newline_byte]
    ++ B "    <ns:getVersion></ns:getVersion>" ++ [newline_byte]
    ++ B "  </soapenv:Body>" ++ [newline_byte]
    ++ B "</soapenv:Envelope>".
Proof. vm_compute. reflexivity. Qed.

(** ** The calendar

    [previous_day] steps back one day on the Gregorian calendar, by the
    lengths of the months.  The day line of [time.Time] agrees with it. *)

Definition is_leap (y : Z) : bool :=
  (y mod 4 =? 0) && (negb (y mod 100 =? 0) || (y mod 400 =? 0)).

Definition days_in_month (y m : Z) : Z :=
  if m =? 2 then (if is_leap y then 29 else 28)
  else if (m =? 4) || (m =? 6) || (m =? 9) || (m =? 11) then 30
  else 31.

Definition previous_day (date : Z * Z * Z) : Z * Z * Z :=
  let '(y, m, d) := date in
  if 1 <? d then (y, m, d - 1)
  else if 1 <? m then (y, m - 1, days_in_month y (m - 1))
  else (y - 1, 12, 31).


Definition shift_years (k : Z) (date : Z * Z * Z) : Z * Z * Z :=
  let '(y, m, d) := date in (y + k, m, d).

Definition days_of (date : Z * Z * Z) : Z :=
  let '(y, m, d) := date in time.days_from_civil y m d.

(** A check of [p] on the [n] integers from [z] on. *)
Fixpoint all_from (n : nat) (z : Z) (p : Z -> bool) : bool :=
  match n with
  | O => true
  | S k => if p z then all_from k (z + 1) p else false
  end.

Lemma all_from_spec (p : Z -> bool) (n : nat) :
  forall z, all_from n z p = true ->
            forall i, z <= i < z + Z.of_nat n -> p i = true.
Proof.
  induction n as [|n IH]; intros z H i Hi; [lia|].
  cbn [all_from] in H. destruct (p z) eqn:Hz; [|discriminate].
  destruct (Z.eq_dec i z) as [->|Hne]; [assumption|].
  apply (IH (z + 1) H). lia.
Qed.

Lemma civil_from_days_shift (z k : Z) :
  time.civil_from_days (z + 146097 * k)
  = shift_years (400 * k) (time.civil_from_days z).
Proof.
  unfold time.civil_from_days, shift_years.
  replace (z + 146097 * k + 719468) with (z + 719468 + k * 146097) by ring.
  rewrite Z.div_add by lia.
  replace (z + 719468 + k * 146097 - ((z + 719468) / 146097 + k) * 146097)
    with (z + 719468 - (z + 719468) / 146097 * 146097) by ring.
  cbv zeta. f_equal. f_equal. ring.
Qed.

Lemma days_from_civil_shift (y m d k : Z) :
  time.days_from_civil (y + 400 * k) m d = time.days_from_civil y m d + 146097 * k.
Proof.
  unfold time.days_from_civil.
  assert (E : (if m <=? 2 then y + 400 * k - 1 else y + 400 * k)
              = (if m <=? 2 then y - 1 else y) + k * 400)
    by (destruct (m <=? 2); ring).
  rewrite E. cbv zeta. rewrite Z.div_add by lia.
  set (y' := if m <=? 2 then y - 1 else y).
  replace (y' + k * 400 - (y' / 400 + k) * 400) with (y' - y' / 400 * 400) by ring.
  ring.
Qed.

Lemma is_leap_shift (y k : Z) : is_leap (y + 400 * k) = is_leap y.
Proof.
  unfold is_leap.
  replace (y + 400 * k) with (y + (100 * k) * 4) at 1 by ring.
  replace (y + 400 * k) with (y + (4 * k) * 100) at 1 by ring.
  replace (y + 400 * k) with (y + k * 400) by ring.
  rewrite !Z.mod_add by lia. reflexivity.
Qed.

Lemma previous_day_shift (k : Z) (date : Z * Z * Z) :
  previous_day (shift_years (400 * k) date)
  = shift_years (400 * k) (previous_day date).
Proof.
  destruct date as [[y m] d]. unfold previous_day, shift_years.
  destruct (1 <? d); [reflexivity|].
  destruct (1 <? m).
  - unfold days_in_month. rewrite is_leap_shift. reflexivity.
  - f_equal. f_equal. ring.
Qed.

Definition era_start : Z := -719468.

Definition calendar_check (z : Z) : bool :=
  let '(y, m, d) := time.civil_from_days z in
  let '(y', m', d') := time.civil_from_days (z - 1) in
  let '(py, pm, pd) := previous_day (y, m, d) in
  (time.days_from_civil y m d =? z)
  && (1 <=? m) && (m <=? 12)
  && (y' =? py) && (m' =? pm) && (d' =? pd).

Lemma calendar_check_era :
  all_from (Z.to_nat 146097) era_start calendar_check = true.
Proof. vm_compute. reflexivity. Qed.

Lemma calendar_check_all (z : Z) :
  time.days_from_civil (fst (fst (time.civil_from_days z)))
                       (snd (fst (time.civil_from_days z)))
                       (snd (time.civil_from_days z)) = z
  /\ 1 <= snd (fst (time.civil_from_days z)) <= 12
  /\ time.civil_from_days (z - 1) = previous_day (time.civil_from_days z).
Proof.
  set (k := (z - era_start) / 146097).
  set (z0 := z - 146097 * k).
  assert (Hz0 : era_start <= z0 < era_start + Z.of_nat (Z.to_nat 146097)).
  { rewrite Z2Nat.id by lia. unfold z0, k.
    pose proof (Z.mod_pos_bound (z - era_start) 146097 ltac:(lia)) as Hm.
    rewrite Z.mod_eq in Hm by lia. lia. }
  pose proof (all_from_spec _ _ _ calendar_check_era z0 Hz0) as Hc.
  unfold calendar_check in Hc.
  replace z with (z0 + 146097 * k) by (unfold z0; ring).
  replace (z0 + 146097 * k - 1) with (z0 - 1 + 146097 * k) by ring.
  rewrite !civil_from_days_shift.
  destruct (time.civil_from_days z0) as [[y m] d].
  destruct (time.civil_from_days (z0 - 1)) as [[y' m'] d'].
  rewrite previous_day_shift.
  destruct (previous_day (y, m, d)) as [[py pm] pd].
  cbn [shift_years fst snd].
  repeat (apply andb_true_iff in Hc; destruct Hc as [Hc ?]).
  rewrite days_from_civil_shift.
  repeat split; try lia.
  f_equal; [f_equal|]; lia.
Qed.

Lemma days_from_civil_from_days (z : Z) : days_of (time.civil_from_days z) = z.
Proof.
  pose proof (calendar_check_all z) as [H _].
  unfold days_of. destruct (time.civil_from_days z) as [[y m] d]. exact H.
Qed.



Definition format_date (date : Z * Z * Z) : bytes :=
  let '(y, m, d) := date in
  time.appendInt y 4 ++ B "-" ++ time.appendInt m 2 ++ B "-" ++ time.appendInt d 2.

Lemma Format_layout_date (t : time.Time) :
  time.Format t time.layout_date = format_date (time.Date t).
Proof.
  unfold time.Format, time.layout_date, format_date.
  cbn [flat_map]. unfold time.format_chunk.
  destruct (time.Date t) as [[y m] d].
  rewrite app_nil_r. reflexivity.
Qed.


(** ** GetMyShipmentsLastDays *)

(** The world after the two readings of the clock the method takes. *)
Definition after_two_readings (w : World) : World :=
  snd (time_Now (snd (time_Now w))).



(** The two readings of the clock are separate calls of [time.Now]: when
    midnight falls between them, [createdTo] is the earlier date and
    [createdFrom] is counted back from the later one. *)
Definition midnight_world (data : bytes) : World :=
  mkWorld (fun n => {| time.day_number := 19884 + Z.of_nat n; time.nanos := 0 |}) 0
          (fun _ => Ok (ok_response data)) [] (fun _ => true) (fun _ => true)
          (B "/opt/dhl") [] [].

Remark readings_across_midnight :
  GetMyShipmentsLastDays sample_client Background 7
    (midnight_world empty_body_document)
  = GetMyShipments sample_client Background (B "2024-06-04") (B "2024-06-10") 0
      (after_two_readings (midnight_world empty_body_document)).
Proof. reflexivity. Qed.

(** ** Character data on the wire *)

Lemma byte_val_range (b : byte) : 0 <= byte_val b < 256.
Proof.
  unfold byte_val. pose proof (N_ascii_bounded b). lia.
Qed.

Lemma byte_of_val (b : byte) : byte_of (byte_val b) = b.
Proof.
  unfold byte_of, byte_val. rewrite N2Z.id. apply ascii_N_embedding.
Qed.

Lemma byte_val_of (z : Z) : 0 <= z < 256 -> byte_val (byte_of z) = z.
Proof.
  intros H. unfold byte_of, byte_val.
  rewrite N_ascii_embedding by lia. lia.
Qed.

Lemma byte_eqb_val (a b : byte) : Ascii.eqb a b = (byte_val a =? byte_val b).
Proof.
  destruct (Ascii.eqb_spec a b) as [->|Hne].
  - symmetry. apply Z.eqb_refl.
  - symmetry. apply Z.eqb_neq. intros E. apply Hne.
    rewrite <- (byte_of_val a), <- (byte_of_val b), E. reflexivity.
Qed.

Lemma land_upper_r (a b : Z) : 0 <= a -> 0 <= b -> Z.land a b <= b.
Proof.
  intros Ha Hb.
  rewrite <- (Z2N.id a), <- (Z2N.id b) by assumption.
  rewrite <- N2Z.inj_land. apply N2Z.inj_le. apply N.land_le_r.
Qed.

Lemma lor_lower_l (a b : Z) : 0 <= a -> 0 <= b -> a <= Z.lor a b.
Proof.
  intros Ha Hb. pose proof (Z.add_lor_land a b).
  pose proof (land_upper_r a b Ha Hb). lia.
Qed.

Lemma lor_lower_r (a b : Z) : 0 <= a -> 0 <= b -> b <= Z.lor a b.
Proof.
  intros Ha Hb. rewrite Z.lor_comm. apply lor_lower_l; assumption.
Qed.

Lemma land_mask (a : Z) (n : Z) : 0 <= n -> Z.land a (2 ^ n - 1) = a mod 2 ^ n.
Proof.
  intros Hn. rewrite <- Z.land_ones by assumption.
  rewrite Z.ones_equiv. f_equal; try lia.
Qed.

Lemma rune2_lower (b0 b1 : Z) :
  194 <= b0 < 224 -> 0 <= b1 ->
  128 <= Z.lor (Z.shiftl (Z.land b0 31) 6) (Z.land b1 63).
Proof.
  intros H0 H1.
  change 31 with (2 ^ 5 - 1). change 63 with (2 ^ 6 - 1).
  rewrite !land_mask by lia. rewrite Z.shiftl_mul_pow2 by lia.
  pose proof (Z.mod_pos_bound b1 (2 ^ 6) ltac:(lia)).
  assert (2 <= b0 mod 2 ^ 5).
  { change (2 ^ 5) with 32.
    replace b0 with (b0 - 192 + 6 * 32) by ring.
    rewrite Z.mod_add by lia. rewrite Z.mod_small; lia. }
  etransitivity; [|apply lor_lower_l]; lia.
Qed.

Lemma rune3_lower (b0 b1 b2 : Z) :
  224 <= b0 < 240 -> (b0 = 224 -> 160 <= b1) -> 128 <= b1 <= 191 -> 0 <= b2 ->
  128 <= Z.lor (Z.lor (Z.shiftl (Z.land b0 15) 12) (Z.shiftl (Z.land b1 63) 6))
               (Z.land b2 63).
Proof.
  intros H0 Hlo H1 H2.
  change 15 with (2 ^ 4 - 1). change 63 with (2 ^ 6 - 1).
  rewrite !land_mask by lia. rewrite !Z.shiftl_mul_pow2 by lia.
  pose proof (Z.mod_pos_bound b2 (2 ^ 6) ltac:(lia)).
  pose proof (Z.mod_pos_bound b1 (2 ^ 6) ltac:(lia)).
  pose proof (Z.mod_pos_bound b0 (2 ^ 4) ltac:(lia)).
  etransitivity; [|apply lor_lower_l]; try lia.
  2: { apply Z.lor_nonneg; split; lia. }
  destruct (Z.eq_dec b0 224) as [->|Hne].
  - etransitivity; [|apply lor_lower_r]; try lia.
    assert (32 <= b1 mod 2 ^ 6).
    { change (2 ^ 6) with 64.
      replace b1 with (b1 - 128 + 2 * 64) by ring.
      rewrite Z.mod_add by lia. rewrite Z.mod_small; lia. }
    lia.
  - etransitivity; [|apply lor_lower_l]; try lia.
    assert (1 <= b0 mod 2 ^ 4).
    { change (2 ^ 4) with 16.
      replace b0 with (b0 - 224 + 14 * 16) by ring.
      rewrite Z.mod_add by lia. rewrite Z.mod_small; lia. }
    lia.
Qed.

Lemma rune4_lower (b0 b1 b2 b3 : Z) :
  240 <= b0 <= 244 -> (b0 = 240 -> 144 <= b1) -> 128 <= b1 <= 191 ->
  0 <= b2 -> 0 <= b3 ->
  128 <= Z.lor (Z.lor (Z.lor (Z.shiftl (Z.land b0 7) 18)
                             (Z.shiftl (Z.land b1 63) 12))
                      (Z.shiftl (Z.land b2 63) 6))
               (Z.land b3 63).
Proof.
  intros H0 Hlo H1 H2 H3.
  change 7 with (2 ^ 3 - 1). change 63 with (2 ^ 6 - 1).
  rewrite !land_mask by lia. rewrite !Z.shiftl_mul_pow2 by lia.
  pose proof (Z.mod_pos_bound b3 (2 ^ 6) ltac:(lia)).
  pose proof (Z.mod_pos_bound b2 (2 ^ 6) ltac:(lia)).
  pose proof (Z.mod_pos_bound b1 (2 ^ 6) ltac:(lia)).
  pose proof (Z.mod_pos_bound b0 (2 ^ 3) ltac:(lia)).
  assert (Hn : 0 <= Z.lor (b0 mod 2 ^ 3 * 2 ^ 18) (b1 mod 2 ^ 6 * 2 ^ 12))
    by (apply Z.lor_nonneg; split; lia).
  etransitivity; [|apply lor_lower_l]; try lia.
  2: { apply Z.lor_nonneg; split; lia. }
  etransitivity; [|apply lor_lower_l]; try lia.
  destruct (Z.eq_dec b0 240) as [->|Hne].
  - etransitivity; [|apply lor_lower_r]; try lia.
    assert (16 <= b1 mod 2 ^ 6).
    { change (2 ^ 6) with 64.
      replace b1 with (b1 - 128 + 2 * 64) by ring.
      rewrite Z.mod_add by lia. rewrite Z.mod_small; lia. }
    lia.
  - etransitivity; [|apply lor_lower_l]; try lia.
    assert (1 <= b0 mod 2 ^ 3).
    { change (2 ^ 3) with 8.
      replace b0 with (b0 - 240 + 30 * 8) by ring.
      rewrite Z.mod_add by lia. rewrite Z.mod_small; lia. }
    lia.
Qed.

(** The three shapes of a decoded rune: an encoding error, an ASCII byte,
    or a sequence of two to four bytes, all above 127, whose value is
    above 127 and does not depend on what follows. *)
Inductive rune_shape (b : byte) (s : bytes) (r : Z) (w : nat) : Prop :=
| shape_error : r = utf8.RuneError -> w = 1%nat -> rune_shape b s r w
| shape_ascii : byte_val b < 128 -> r = byte_val b -> w = 1%nat -> rune_shape b s r w
| shape_multi (pre rest : bytes) :
    s = pre ++ rest -> w = S (List.length pre) -> (1 <= List.length pre)%nat ->
    128 <= byte_val b -> Forall (fun x => 128 <= byte_val x) pre ->
    128 <= r ->
    (forall rest', utf8.DecodeRune (b :: pre ++ rest') = (r, w)) ->
    rune_shape b s r w.

Lemma DecodeRune_shape (b : byte) (s : bytes) :
  rune_shape b s (fst (utf8.DecodeRune (b :: s))) (snd (utf8.DecodeRune (b :: s))).
Proof.
  pose proof (byte_val_range b) as Hb.
  unfold utf8.DecodeRune.
  destruct (byte_val b <? 128) eqn:E0.
  { apply shape_ascii; [apply Z.ltb_lt in E0; lia | reflexivity | reflexivity]. }
  apply Z.ltb_ge in E0.
  destruct ((byte_val b <? 194) || (244 <? byte_val b)) eqn:E1.
  { apply shape_error; reflexivity. }
  apply orb_false_iff in E1 as [E1 E1']. apply Z.ltb_ge in E1, E1'.
  cbv zeta.
  destruct s as [|p1 t1]; [apply shape_error; reflexivity|].
  pose proof (byte_val_range p1) as H1.
  destruct (byte_val b <? 224) eqn:E2.
  { destruct ((byte_val p1 <? _) || (_ <? byte_val p1)) eqn:C1;
      [apply shape_error; reflexivity|].
    pose proof C1 as C1'.
    apply orb_false_iff in C1 as [Ca Cb]. apply Z.ltb_ge in Ca, Cb.
    apply Z.ltb_lt in E2.
    assert (Hlo : 128 <= byte_val p1).
    { revert Ca. repeat match goal with |- context [if ?c then _ else _] =>
                                          destruct c end; lia. }
    apply (shape_multi _ _ _ _ [p1] t1); cbn [fst snd List.length];
      try reflexivity; try lia.
    - repeat constructor. exact Hlo.
    - apply rune2_lower; lia.
    - intros rest'. cbn [app]. unfold utf8.DecodeRune. cbv zeta. rewrite C1'.
      destruct (byte_val b <? 128) eqn:F0; [apply Z.ltb_lt in F0; lia|].
      destruct ((byte_val b <? 194) || (244 <? byte_val b)) eqn:F1;
        [apply orb_true_iff in F1 as [F1|F1]; apply Z.ltb_lt in F1; lia|].
      destruct (byte_val b <? 224) eqn:F2; [|apply Z.ltb_ge in F2; lia].
      reflexivity. }
  apply Z.ltb_ge in E2.
  destruct t1 as [|p2 t2]; [apply shape_error; reflexivity|].
  pose proof (byte_val_range p2) as H2.
  destruct (byte_val b <? 240) eqn:E3.
  { destruct ((byte_val p1 <? _) || (_ <? byte_val p1)) eqn:C1;
      [apply shape_error; reflexivity|].
    destruct ((byte_val p2 <? 128) || (191 <? byte_val p2)) eqn:C2;
      [apply shape_error; reflexivity|].
    pose proof C1 as C1'. pose proof C2 as C2'.
    apply orb_false_iff in C1 as [Ca Cb]. apply Z.ltb_ge in Ca, Cb.
    apply orb_false_iff in C2 as [Cc Cd]. apply Z.ltb_ge in Cc, Cd.
    apply Z.ltb_lt in E3.
    assert (Hlo : 128 <= byte_val p1 <= 191
                  /\ (byte_val b = 224 -> 160 <= byte_val p1)).
    { revert Ca Cb.
      destruct (Z.eqb_spec (byte_val b) 224);
        destruct (Z.eqb_spec (byte_val b) 240);
        destruct (Z.eqb_spec (byte_val b) 237);
        destruct (Z.eqb_spec (byte_val b) 244); lia. }
    apply (shape_multi _ _ _ _ [p1; p2] t2); cbn [fst snd List.length];
      try reflexivity; try lia.
    - repeat constructor; lia.
    - apply rune3_lower; lia.
    - intros rest'. cbn [app]. unfold utf8.DecodeRune. cbv zeta. rewrite C1', C2'.
      destruct (byte_val b <? 128) eqn:F0; [apply Z.ltb_lt in F0; lia|].
      destruct ((byte_val b <? 194) || (244 <? byte_val b)) eqn:F1;
        [apply orb_true_iff in F1 as [F1|F1]; apply Z.ltb_lt in F1; lia|].
      destruct (byte_val b <? 224) eqn:F2; [apply Z.ltb_lt in F2; lia|].
      destruct (byte_val b <? 240) eqn:F3; [|apply Z.ltb_ge in F3; lia].
      reflexivity. }
  apply Z.ltb_ge in E3.
  destruct t2 as [|p3 t3]; [apply shape_error; reflexivity|].
  pose proof (byte_val_range p3) as H3.
  destruct ((byte_val p1 <? _) || (_ <? byte_val p1)) eqn:C1;
    [apply shape_error; reflexivity|].
  destruct ((byte_val p2 <? 128) || (191 <? byte_val p2)) eqn:C2;
    [apply shape_error; reflexivity|].
  destruct ((byte_val p3 <? 128) || (191 <? byte_val p3)) eqn:C3;
    [apply shape_error; reflexivity|].
  pose proof C1 as C1'. pose proof C2 as C2'. pose proof C3 as C3'.
  apply orb_false_iff in C1 as [Ca Cb]. apply Z.ltb_ge in Ca, Cb.
  apply orb_false_iff in C2 as [Cc Cd]. apply Z.ltb_ge in Cc, Cd.
  apply orb_false_iff in C3 as [Ce Cf]. apply Z.ltb_ge in Ce, Cf.
  assert (Hlo : 128 <= byte_val p1 <= 191
                /\ (byte_val b = 240 -> 144 <= byte_val p1)).
  { revert Ca Cb.
    destruct (Z.eqb_spec (byte_val b) 224);
      destruct (Z.eqb_spec (byte_val b) 240);
      destruct (Z.eqb_spec (byte_val b) 237);
      destruct (Z.eqb_spec (byte_val b) 244); lia. }
  apply (shape_multi _ _ _ _ [p1; p2; p3] t3); cbn [fst snd List.length];
    try reflexivity; try lia.
  - repeat constructor; lia.
  - apply rune4_lower; lia.
  - intros rest'. cbn [app]. unfold utf8.DecodeRune. cbv zeta. rewrite C1', C2', C3'.
    destruct (byte_val b <? 128) eqn:F0; [apply Z.ltb_lt in F0; lia|].
    destruct ((byte_val b <? 194) || (244 <? byte_val b)) eqn:F1;
      [apply orb_true_iff in F1 as [F1|F1]; apply Z.ltb_lt in F1; lia|].
    destruct (byte_val b <? 224) eqn:F2; [apply Z.ltb_lt in F2; lia|].
    destruct (byte_val b <? 240) eqn:F3; [apply Z.ltb_lt in F3; lia|].
    reflexivity.
Qed.

(** A rune that [EscapeText] writes as U+FFFD. *)
Definition bad_rune (r : Z) (w : nat) : bool :=
  negb (xml.isInCharacterRange r) || ((r =? utf8.RuneError) && (w =? 1)%nat).

Definition replacement : bytes := utf8.EncodeRune utf8.RuneError.

(** The text that escaped text stands for: the text itself, with each
    rune that is ill encoded or out of the character range replaced by
    U+FFFD. *)
Fixpoint sanitize_from (skip : nat) (s : bytes) : bytes :=
  match s with
  | [] => []
  | _ :: s' =>
      match skip with
      | S k => sanitize_from k s'
      | O =>
          let '(r, w) := utf8.DecodeRune s in
          (if bad_rune r w then replacement else firstn w s)
          ++ sanitize_from (w - 1) s'
      end
  end.

Definition sanitize (s : bytes) : bytes := sanitize_from 0 s.

(** The escape of one byte of valid text. *)
Definition escape_byte (b : byte) : bytes :=
  let v := byte_val b in
  if v =? 34 then B "&#34;"
  else if v =? 39 then B "&#39;"
  else if v =? 38 then B "&amp;"
  else if v =? 60 then B "&lt;"
  else if v =? 62 then B "&gt;"
  else if v =? 9 then B "&#x9;"
  else if v =? 10 then B "&#xA;"
  else if v =? 13 then B "&#xD;"
  else [b].

(** A byte of valid text: part of a longer encoding, or an ASCII
    character of the range. *)
Definition wire_byte (b : byte) : bool :=
  (128 <=? byte_val b) || xml.isInCharacterRange (byte_val b).

Lemma escape_from_skip (k : nat) :
  forall s, xml.escape_from k s = xml.escape_from 0 (skipn k s).
Proof.
  induction k as [|k IH]; intros s; [reflexivity|].
  destruct s as [|b s']; [reflexivity|]. cbn [xml.escape_from skipn]. apply IH.
Qed.

Lemma sanitize_from_skip (k : nat) :
  forall s, sanitize_from k s = sanitize_from 0 (skipn k s).
Proof.
  induction k as [|k IH]; intros s; [reflexivity|].
  destruct s as [|b s']; [reflexivity|]. cbn [sanitize_from skipn]. apply IH.
Qed.

Lemma valid_from_skip (k : nat) :
  forall s, xml.valid_from k s = xml.valid_from 0 (skipn k s).
Proof.
  induction k as [|k IH]; intros s; [reflexivity|].
  destruct s as [|b s']; [reflexivity|]. cbn [xml.valid_from skipn]. apply IH.
Qed.

Lemma skipn_length_app {A} (pre rest : list A) :
  skipn (List.length pre) (pre ++ rest) = rest.
Proof. induction pre; cbn; auto. Qed.

Lemma firstn_length_app {A} (pre rest : list A) :
  firstn (List.length pre) (pre ++ rest) = pre.
Proof. induction pre; cbn; f_equal; auto. Qed.

Lemma escape_byte_high (b : byte) : 128 <= byte_val b -> escape_byte b = [b].
Proof.
  intros H. unfold escape_byte. cbv zeta.
  repeat match goal with
         | |- context [?x =? ?c] => destruct (Z.eqb_spec x c); [lia|]
         end.
  reflexivity.
Qed.

Lemma flat_map_escape_high (l : bytes) :
  Forall (fun x => 128 <= byte_val x) l -> flat_map escape_byte l = l.
Proof.
  induction 1 as [|x l Hx _ IH]; [reflexivity|].
  cbn [flat_map]. rewrite (escape_byte_high _ Hx), IH. reflexivity.
Qed.

Lemma forallb_wire_high (l : bytes) :
  Forall (fun x => 128 <= byte_val x) l -> forallb wire_byte l = true.
Proof.
  induction 1 as [|x l Hx _ IH]; [reflexivity|].
  cbn [forallb]. rewrite IH. unfold wire_byte.
  destruct (Z.leb_spec 128 (byte_val x)); [reflexivity | lia].
Qed.

Lemma escape_rune_high (r : Z) (w : nat) (orig : bytes) :
  128 <= r -> bad_rune r w = false -> xml.escape_rune r w orig = orig.
Proof.
  intros H Hb. unfold xml.escape_rune.
  repeat match goal with
         | |- context [r =? ?c] =>
             lazymatch c with
             | utf8.RuneError => fail
             | _ => destruct (Z.eqb_spec r c); [lia|]
             end
         end.
  unfold bad_rune in Hb. rewrite Hb. reflexivity.
Qed.

Lemma escape_rune_bad (r : Z) (w : nat) (orig : bytes) :
  bad_rune r w = true -> (r < 128 -> xml.isInCharacterRange r = false) ->
  xml.escape_rune r w orig = replacement.
Proof.
  intros Hb Hlow. unfold xml.escape_rune.
  repeat match goal with
         | |- context [r =? ?c] =>
             lazymatch c with
             | utf8.RuneError => fail
             | _ => destruct (Z.eqb_spec r c);
                    [subst r; specialize (Hlow ltac:(lia)); discriminate Hlow|]
             end
         end.
  unfold bad_rune in Hb. rewrite Hb. reflexivity.
Qed.

Lemma escape_rune_ascii (b : byte) :
  byte_val b < 128 -> xml.isInCharacterRange (byte_val b) = true ->
  xml.escape_rune (byte_val b) 1 [b] = escape_byte b.
Proof.
  intros H Hr. unfold xml.escape_rune, escape_byte. cbv zeta.
  repeat match goal with
         | |- context [byte_val b =? ?c] =>
             lazymatch c with
             | utf8.RuneError => fail
             | _ => destruct (Z.eqb_spec (byte_val b) c); [reflexivity|]
             end
         end.
  rewrite Hr. destruct (Z.eqb_spec (byte_val b) utf8.RuneError) as [E|_];
    [unfold utf8.RuneError in E; lia | reflexivity].
Qed.

Lemma DecodeRune_ascii (b : byte) (s : bytes) :
  byte_val b < 128 -> utf8.DecodeRune (b :: s) = (byte_val b, 1%nat).
Proof.
  intros H. unfold utf8.DecodeRune.
  destruct (Z.ltb_spec (byte_val b) 128); [reflexivity | lia].
Qed.

Lemma valid_replacement (s : bytes) :
  xml.valid_from 0 (replacement ++ s) = xml.valid_from 0 s.
Proof. reflexivity. Qed.

(** Escaped text is the bytewise escape of the sanitized text, which is
    valid text; valid text is its own sanitized text. *)
Lemma escape_sanitize (n : nat) :
  forall s, (List.length s <= n)%nat ->
    xml.escape_from 0 s = flat_map escape_byte (sanitize_from 0 s)
    /\ forallb wire_byte (sanitize_from 0 s) = true
    /\ xml.valid_from 0 (sanitize_from 0 s) = true
    /\ (xml.valid_from 0 s = true -> sanitize_from 0 s = s).
Proof.
  induction n as [|n IH]; intros s Hlen.
  { destruct s; [|cbn in Hlen; lia]. repeat split. }
  destruct s as [|b s']; [repeat split|].
  cbn [List.length] in Hlen.
  cbn [xml.escape_from sanitize_from xml.valid_from].
  destruct (utf8.DecodeRune (b :: s')) as [r w] eqn:Edec.
  pose proof (DecodeRune_shape b s') as Hshape.
  rewrite Edec in Hshape. cbn [fst snd] in Hshape.
  destruct Hshape as [Hr Hw | Hlow Hr Hw | pre rest Hs Hw Hpre Hb Hall Hr Hdec].
  - (* an encoding error *)
    subst r w. cbn [Nat.sub].
    destruct (IH s' ltac:(lia)) as (IH1 & IH2 & IH3 & _).
    assert (Hbad : bad_rune utf8.RuneError 1 = true) by reflexivity.
    rewrite Hbad, escape_rune_bad
      by (auto; intros Hc; unfold utf8.RuneError in Hc; lia).
    rewrite flat_map_app, forallb_app, valid_replacement, IH1, IH2, IH3.
    repeat split. discriminate.
  - (* an ASCII byte *)
    subst r w. cbn [Nat.sub firstn].
    destruct (IH s' ltac:(lia)) as (IH1 & IH2 & IH3 & IH4).
    destruct (xml.isInCharacterRange (byte_val b)) eqn:Hrange.
    + assert (Hbad : bad_rune (byte_val b) 1 = false).
      { unfold bad_rune. rewrite Hrange.
        destruct (Z.eqb_spec (byte_val b) utf8.RuneError) as [E|_];
          [unfold utf8.RuneError in E; lia | reflexivity]. }
      rewrite Hbad, escape_rune_ascii by assumption.
      cbn [app flat_map forallb xml.valid_from].
      rewrite DecodeRune_ascii by assumption. rewrite Hrange.
      unfold bad_rune in Hbad. rewrite Hrange in Hbad. cbn [negb orb] in Hbad.
      rewrite Hbad. cbn [Nat.sub].
      rewrite IH1, IH2, IH3.
      unfold wire_byte at 1. rewrite Hrange, orb_true_r.
      repeat split. intros Hv. f_equal. auto.
    + assert (Hbad : bad_rune (byte_val b) 1 = true)
        by (unfold bad_rune; rewrite Hrange; reflexivity).
      rewrite Hbad, escape_rune_bad by auto.
      rewrite flat_map_app, forallb_app, valid_replacement, IH1, IH2, IH3.
      repeat split.
      destruct ((byte_val b =? utf8.RuneError) && (1 =? 1)%nat); discriminate.
  - (* two to four bytes *)
    subst s' w. cbn [Nat.sub]. rewrite Nat.sub_0_r.
    rewrite (escape_from_skip (List.length pre)),
      (sanitize_from_skip (List.length pre)), (valid_from_skip (List.length pre)).
    rewrite skipn_length_app.
    assert (Hlr : (List.length rest <= n)%nat)
      by (rewrite length_app in Hlen; lia).
    destruct (IH rest Hlr) as (IH1 & IH2 & IH3 & IH4).
    assert (Hw1 : (r =? utf8.RuneError) && (S (List.length pre) =? 1)%nat = false).
    { destruct (List.length pre); [lia|]. apply andb_false_r. }
    rewrite Hw1.
    destruct (xml.isInCharacterRange r) eqn:Hrange.
    + assert (Hbad : bad_rune r (S (List.length pre)) = false)
        by (unfold bad_rune; rewrite Hrange, Hw1; reflexivity).
      rewrite Hbad, escape_rune_high by assumption.
      change (firstn (S (List.length pre)) (b :: pre ++ rest))
        with (b :: firstn (List.length pre) (pre ++ rest)).
      rewrite firstn_length_app.
      assert (Hall' : Forall (fun x => 128 <= byte_val x) (b :: pre))
        by (constructor; assumption).
      change (b :: pre) with ([b] ++ pre) at 1 2 3.
      rewrite <- !app_assoc. cbn [app].
      change (b :: pre ++ sanitize_from 0 rest)
        with ((b :: pre) ++ sanitize_from 0 rest).
      rewrite flat_map_app, forallb_app.
      rewrite (flat_map_escape_high _ Hall'), (forallb_wire_high _ Hall').
      rewrite IH1, IH2.
      split; [reflexivity|]. split; [reflexivity|]. split.
      * cbn [app xml.valid_from]. rewrite Hdec, Hw1, Hrange.
        cbn [Nat.sub]. rewrite Nat.sub_0_r, (valid_from_skip (List.length pre)).
        rewrite skipn_length_app.
        exact IH3.
      * intros Hv. cbn [app]. f_equal. f_equal. auto.
    + assert (Hbad : bad_rune r (S (List.length pre)) = true)
        by (unfold bad_rune; rewrite Hrange; reflexivity).
      rewrite Hbad, escape_rune_bad by (auto; intros; lia).
      rewrite flat_map_app, forallb_app, valid_replacement, IH1, IH2, IH3.
      repeat split. discriminate.
Qed.

Lemma escape_sanitize_text (s : bytes) :
  xml.EscapeText s = flat_map escape_byte (sanitize s)
  /\ forallb wire_byte (sanitize s) = true
  /\ xml.valid_text (sanitize s) = true
  /\ (xml.valid_text s = true -> sanitize s = s).
Proof. exact (escape_sanitize (List.length s) s (Nat.le_refl _)). Qed.

Lemma sanitize_valid (s : bytes) : xml.valid_text s = true -> sanitize s = s.
Proof. apply escape_sanitize_text. Qed.

Lemma sanitize_nonempty (s : bytes) : s <> [] -> sanitize s <> [].
Proof.
  destruct s as [|b s']; [congruence|]. intros _.
  unfold sanitize. cbn [sanitize_from].
  destruct (utf8.DecodeRune (b :: s')) as [r w] eqn:Edec.
  pose proof (DecodeRune_shape b s') as Hshape.
  rewrite Edec in Hshape. cbn [fst snd] in Hshape.
  destruct (bad_rune r w); [discriminate|].
  destruct Hshape as [_ Hw | _ _ Hw | pre rest _ Hw _ _ _ _ _]; subst w;
    discriminate.
Qed.

Lemma unescape_plain (b0 b1 c : byte) (s : bytes) :
  Ascii.eqb c "&" = false -> Ascii.eqb c ">" = false ->
  Ascii.eqb c "013" = false ->
  Ascii.eqb b1 "013" && Ascii.eqb c "010" = false ->
  xml.unescape false b0 b1 None (c :: s)
  = option_map (cons c) (xml.unescape false b1 c None s).
Proof.
  intros Ha Hg Hr Hn. cbn [xml.unescape].
  rewrite Ha, Hg, Hr, Hn, andb_false_r. reflexivity.
Qed.

Lemma unescape_amp (b0 b1 : byte) (s : bytes) :
  xml.unescape false b0 b1 None ("&"%char :: s)
  = xml.unescape false b0 b1 (Some []) s.
Proof.
  cbn [xml.unescape].
  change (Ascii.eqb "&" ">") with false. rewrite andb_false_r. reflexivity.
Qed.

Lemma byte_is (b : byte) (v : Z) : byte_val b = v -> b = byte_of v.
Proof. intros <-. symmetry. apply byte_of_val. Qed.

Lemma byte_eqb_false (b c : byte) : byte_val b <> byte_val c -> Ascii.eqb b c = false.
Proof. intros H. rewrite byte_eqb_val. apply Z.eqb_neq. exact H. Qed.

(** Decoding undoes the bytewise escape. *)
Lemma unescape_escape_bytes (d : bytes) :
  forall b0 b1,
    xml.unescape false b0 b1 None (flat_map escape_byte d) = Some d.
Proof.
  induction d as [|b d IH]; intros b0 b1; [reflexivity|].
  cbn [flat_map]. unfold escape_byte at 1. cbv zeta.
  repeat match goal with
         | |- context [byte_val b =? ?c] =>
             destruct (Z.eqb_spec (byte_val b) c) as [E|?];
             [apply byte_is in E; subst b; cbn [app list_ascii_of_string];
              rewrite unescape_amp; cbn [xml.unescape Ascii.eqb Bool.eqb rev app];
              cbn; rewrite IH; reflexivity|]
         end.
  cbn [app]. rewrite unescape_plain, IH; try reflexivity.
  - apply byte_eqb_false. cbn. assumption.
  - apply byte_eqb_false. cbn. assumption.
  - apply byte_eqb_false. cbn. assumption.
  - rewrite (byte_eqb_false b "010"), andb_false_r; [reflexivity|]. cbn. assumption.
Qed.

Lemma escape_byte_no_lt (b : byte) :
  forallb (fun c => negb (Ascii.eqb c "<")) (escape_byte b) = true.
Proof.
  unfold escape_byte. cbv zeta.
  repeat match goal with
         | |- context [byte_val b =? ?c] =>
             destruct (Z.eqb_spec (byte_val b) c) as [E|?]; [reflexivity|]
         end.
  cbn [forallb]. rewrite byte_eqb_false; [reflexivity|]. cbn. assumption.
Qed.

Lemma escaped_no_lt (d : bytes) :
  forallb (fun c => negb (Ascii.eqb c "<")) (flat_map escape_byte d) = true.
Proof.
  induction d as [|b d IH]; [reflexivity|].
  cbn [flat_map]. rewrite forallb_app, escape_byte_no_lt, IH. reflexivity.
Qed.

Lemma span_chardata_stop (s rest : bytes) :
  forallb (fun c => negb (Ascii.eqb c "<")) s = true ->
  xml.span_chardata (s ++ "<"%char :: rest) = (s, "<"%char :: rest).
Proof.
  induction s as [|c s IH]; intros H; [reflexivity|].
  cbn [forallb] in H. apply andb_true_iff in H as [Hc Hs].
  cbn [app xml.span_chardata].
  destruct (Ascii.eqb c "<"); [discriminate|]. rewrite (IH Hs). reflexivity.
Qed.

(** The token of character data that is followed by markup. *)
Lemma rawToken_chardata (raw d rest : bytes) :
  raw <> [] ->
  forallb (fun c => negb (Ascii.eqb c "<")) raw = true ->
  xml.decode_text false raw = Some d ->
  xml.rawToken (raw ++ "<"%char :: rest)
  = xml.Tok (xml.CharData d) ("<"%char :: rest).
Proof.
  intros Hne Hlt Hd. destruct raw as [|c raw']; [congruence|].
  pose proof (span_chardata_stop _ rest Hlt) as Hspan.
  cbn [forallb] in Hlt. apply andb_true_iff in Hlt as [Hc _].
  unfold xml.rawToken. cbn [app] in *. rewrite Hc, Hspan, Hd. reflexivity.
Qed.

Lemma decode_escaped (t : bytes) :
  xml.decode_text false (xml.EscapeText t) = Some (sanitize t).
Proof.
  destruct (escape_sanitize_text t) as (He & _ & Hv & _).
  unfold xml.decode_text. rewrite He, unescape_escape_bytes, Hv. reflexivity.
Qed.

Lemma rawToken_escaped_text (t rest : bytes) :
  t <> [] ->
  xml.rawToken (xml.EscapeText t ++ "<"%char :: rest)
  = xml.Tok (xml.CharData (sanitize t)) ("<"%char :: rest).
Proof.
  intros Hne. apply rawToken_chardata.
  - destruct (escape_sanitize_text t) as (He & _).
    rewrite He. pose proof (sanitize_nonempty t Hne) as Hs.
    destruct (sanitize t) as [|b d]; [congruence|].
    cbn [flat_map]. unfold escape_byte. cbv zeta.
    repeat match goal with
           | |- context [if ?c then _ else _] => destruct c; [discriminate|]
           end.
    discriminate.
  - destruct (escape_sanitize_text t) as (He & _). rewrite He. apply escaped_no_lt.
  - apply decode_escaped.
Qed.

(** White space between elements: line feeds and spaces. *)
Definition is_indent (c : byte) : bool := Ascii.eqb c "010" || Ascii.eqb c " ".

Lemma unescape_indent (s : bytes) :
  forallb is_indent s = true ->
  forall b0 b1, Ascii.eqb b1 "013" = false ->
                xml.unescape false b0 b1 None s = Some s.
Proof.
  induction s as [|c s IH]; intros H b0 b1 Hb1; [reflexivity|].
  cbn [forallb] in H. apply andb_true_iff in H as [Hc Hs].
  assert (Hcr : Ascii.eqb c "013" = false).
  { unfold is_indent in Hc. apply orb_true_iff in Hc as [Hc|Hc];
      apply Ascii.eqb_eq in Hc; subst c; reflexivity. }
  rewrite unescape_plain, (IH Hs); try reflexivity; try assumption.
  - unfold is_indent in Hc. apply orb_true_iff in Hc as [Hc|Hc];
      apply Ascii.eqb_eq in Hc; subst c; reflexivity.
  - unfold is_indent in Hc. apply orb_true_iff in Hc as [Hc|Hc];
      apply Ascii.eqb_eq in Hc; subst c; reflexivity.
  - rewrite Hb1. reflexivity.
Qed.

Lemma valid_indent (s : bytes) :
  forallb is_indent s = true -> xml.valid_from 0 s = true.
Proof.
  induction s as [|c s IH]; intros H; [reflexivity|].
  cbn [forallb] in H. apply andb_true_iff in H as [Hc Hs].
  unfold is_indent in Hc. apply orb_true_iff in Hc as [Hc|Hc];
    apply Ascii.eqb_eq in Hc; subst c; cbn; apply IH; assumption.
Qed.

Lemma indent_no_lt (s : bytes) :
  forallb is_indent s = true ->
  forallb (fun c => negb (Ascii.eqb c "<")) s = true.
Proof.
  induction s as [|c s IH]; intros H; [reflexivity|].
  cbn [forallb] in *. apply andb_true_iff in H as [Hc Hs].
  rewrite (IH Hs), andb_true_r.
  unfold is_indent in Hc. apply orb_true_iff in Hc as [Hc|Hc];
    apply Ascii.eqb_eq in Hc; subst c; reflexivity.
Qed.

Lemma newline_indent_is_indent (depth : nat) :
  forallb is_indent (xml.newline_indent (B "  ") depth) = true.
Proof.
  unfold xml.newline_indent. cbn [forallb]. 
  change (is_indent newline_byte) with true. cbn [andb].
  induction depth as [|d IH]; [reflexivity|].
  cbn [repeat concat]. rewrite forallb_app, IH. reflexivity.
Qed.

Lemma rawToken_indent (depth : nat) (rest : bytes) :
  xml.rawToken (xml.newline_indent (B "  ") depth ++ "<"%char :: rest)
  = xml.Tok (xml.CharData (xml.newline_indent (B "  ") depth)) ("<"%char :: rest).
Proof.
  pose proof (newline_indent_is_indent depth) as Hi.
  apply rawToken_chardata.
  - discriminate.
  - apply indent_no_lt. exact Hi.
  - unfold xml.decode_text. rewrite (unescape_indent _ Hi) by reflexivity.
    unfold xml.valid_text. rewrite (valid_indent _ Hi). reflexivity.
Qed.

(** ** Tags on the wire *)

(** A tag name of [types.go] as the decoder reads it back: a name of
    ASCII name bytes with at most one colon. *)
Definition tag_ok (name : bytes) : bool :=
  xml.isName name && forallb xml.isNameByte name
  && (strings.Count name ":"%char <=? 1)%nat.

Definition name_of (name : bytes) : xml.Name :=
  match xml.split_name name with
  | Some n => n
  | None => zero_Name
  end.

Lemma span_name_stop (name rest : bytes) (c : byte) :
  forallb xml.isNameByte name = true ->
  (128 <=? byte_val c) || xml.isNameByte c = false ->
  xml.span_name (name ++ c :: rest) = (name, c :: rest).
Proof.
  intros Hn Hc. induction name as [|x name IH].
  - cbn [app xml.span_name]. rewrite Hc. reflexivity.
  - cbn [forallb] in Hn. apply andb_true_iff in Hn as [Hx Hn].
    cbn [app xml.span_name]. rewrite Hx, orb_true_r, (IH Hn). reflexivity.
Qed.

Lemma nsname_tag (name rest : bytes) :
  tag_ok name = true ->
  xml.nsname (name ++ ">"%char :: rest) = Some (name_of name, ">"%char :: rest).
Proof.
  unfold tag_ok. intros H.
  apply andb_true_iff in H as [H Hc]. apply andb_true_iff in H as [Hi Hb].
  unfold xml.nsname, xml.readName.
  rewrite (span_name_stop name rest ">" Hb eq_refl).
  destruct name as [|k name']; [discriminate|].
  rewrite Hi. unfold name_of, xml.split_name.
  destruct (1 <? strings.Count (k :: name') ":"%char)%nat eqn:E.
  - apply Nat.ltb_lt in E. apply Nat.leb_le in Hc. lia.
  - destruct (xml.cut_colon (k :: name')) as [[[|? ?] [|? ?]]|]; reflexivity.
Qed.

Lemma name_start_not_markup (k : byte) :
  xml.is_name_start k = true ->
  Ascii.eqb k "/" = false /\ Ascii.eqb k "?" = false /\ Ascii.eqb k "!" = false
  /\ Ascii.eqb k "<" = false.
Proof.
  unfold xml.is_name_start. cbv zeta. intros H.
  assert (Hv : byte_val k <> 47 /\ byte_val k <> 63 /\ byte_val k <> 33
               /\ byte_val k <> 60).
  { destruct (Z.leb_spec 65 (byte_val k)); destruct (Z.leb_spec (byte_val k) 90);
      destruct (Z.leb_spec 97 (byte_val k)); destruct (Z.leb_spec (byte_val k) 122);
      destruct (Z.eqb_spec (byte_val k) 95); destruct (Z.eqb_spec (byte_val k) 58);
      cbn in H; try discriminate; lia. }
  destruct Hv as (H1 & H2 & H3 & H4).
  repeat split; apply byte_eqb_false; cbn; assumption.
Qed.

Lemma rawToken_start_tag (name rest : bytes) :
  tag_ok name = true ->
  xml.rawToken (xml.start_tag name [] ++ rest)
  = xml.Tok (xml.StartElement (name_of name) [] false) rest.
Proof.
  intros Hok. pose proof (nsname_tag name rest Hok) as Hns.
  unfold xml.start_tag. cbn [flat_map app]. rewrite <- app_assoc. cbn [app].
  unfold tag_ok in Hok.
  apply andb_true_iff in Hok as [H _]. apply andb_true_iff in H as [Hi _].
  destruct name as [|k name']; [discriminate|].
  cbn [xml.isName] in Hi. apply andb_true_iff in Hi as [Hk _].
  destruct (name_start_not_markup k Hk) as (H1 & H2 & H3 & _).
  unfold xml.rawToken. cbn [app] in *.
  change (negb (Ascii.eqb "<" "<")) with false. cbv iota.
  rewrite H1, H2, H3, Hns. cbn [xml.tok_of].
  reflexivity.
Qed.

Lemma rawToken_end_tag (name rest : bytes) :
  tag_ok name = true ->
  xml.rawToken (xml.end_tag name ++ rest)
  = xml.Tok (xml.EndElement (name_of name)) rest.
Proof.
  intros Hok. pose proof (nsname_tag name rest Hok) as Hns.
  unfold xml.end_tag. rewrite <- !app_assoc. cbn [app list_ascii_of_string].
  unfold xml.rawToken.
  change (negb (Ascii.eqb "<" "<")) with false. cbv iota.
  change (Ascii.eqb "/" "/") with true. cbv iota.
  rewrite Hns. reflexivity.
Qed.

Lemma name_eqb_refl (n : xml.Name) : xml.name_eqb n n = true.
Proof. unfold xml.name_eqb. rewrite !bytes_eqb_refl. reflexivity. Qed.

Lemma end_tag_head (name rest : bytes) :
  xml.end_tag name ++ rest = "<"%char :: "/"%char :: name ++ ">"%char :: rest.
Proof.
  unfold xml.end_tag. rewrite <- !app_assoc. reflexivity.
Qed.

Lemma render_head (depth : nat) (m : xml.Markup) (rest : bytes) :
  exists tl, xml.render (B "  ") depth m ++ rest = "<"%char :: tl.
Proof.
  destruct m; cbn [xml.render]; unfold xml.start_tag; cbn [app]; eexists; reflexivity.
Qed.

(** ** Parsing what the printer writes *)

Definition leaf_content (t : bytes) : list xml.Node :=
  match t with
  | [] => []
  | _ :: _ => [xml.Text t]
  end.

Definition indent_text (depth : nat) : xml.Node :=
  xml.Text (xml.newline_indent (B "  ") depth).

(** The element tree the decoder builds from the rendering of a markup
    tree: the text of a leaf sanitized, and the white space of the
    indentation between the elements of a branch. *)
Fixpoint image (depth : nat) (m : xml.Markup) : xml.Node :=
  match m with
  | xml.Leaf name text => xml.Element (name_of name) [] (leaf_content (sanitize text))
  | xml.Branch name _ kids =>
      xml.Element (name_of name) []
        match kids with
        | [] => []
        | _ :: _ =>
            flat_map (fun k => [indent_text (S depth); image (S depth) k]) kids
            ++ [indent_text depth]
        end
  end.

(** Markup without attributes, under tag names the decoder reads back. *)
Fixpoint plain (m : xml.Markup) : bool :=
  match m with
  | xml.Leaf name _ => tag_ok name
  | xml.Branch name attrs kids =>
      tag_ok name
      && match attrs with [] => true | _ :: _ => false end
      && forallb plain kids
  end.

(** A bound on the tokens of a rendering. *)
Fixpoint tokens (m : xml.Markup) : nat :=
  match m with
  | xml.Leaf _ _ => 3
  | xml.Branch _ _ kids => 3 + fold_right (fun k n => 1 + tokens k + n)%nat 0%nat kids
  end.

Definition tokens_list (kids : list xml.Markup) : nat :=
  fold_right (fun k n => 1 + tokens k + n)%nat 0%nat kids.

Fixpoint Markup_induction (P : xml.Markup -> Prop)
         (HL : forall name text, P (xml.Leaf name text))
         (HB : forall name attrs kids, Forall P kids -> P (xml.Branch name attrs kids))
         (m : xml.Markup) : P m :=
  match m with
  | xml.Leaf name text => HL name text
  | xml.Branch name attrs kids =>
      HB name attrs kids
         ((fix go (l : list xml.Markup) : Forall P l :=
             match l with
             | [] => Forall_nil P
             | k :: l' => Forall_cons k (Markup_induction P HL HB k) (go l')
             end) kids)
  end.

(** The element [m], rendered at [depth] and followed by [rest], parses
    to its image, and the parse goes on with [rest]. *)
Definition parses (m : xml.Markup) : Prop :=
  forall depth open rest f,
    (tokens m <= f)%nat ->
    xml.parse_nodes (S f) open (xml.render (B "  ") depth m ++ rest)
    = rbind (xml.parse_nodes f open rest)
            (fun '(sibs, r) => Ok (image depth m :: sibs, r)).

Definition kids_text (depth : nat) (kids : list xml.Markup) : bytes :=
  flat_map (fun k => xml.newline_indent (B "  ") (S depth)
                     ++ xml.render (B "  ") (S depth) k) kids.

Definition kids_image (depth : nat) (kids : list xml.Markup) : list xml.Node :=
  flat_map (fun k => [indent_text (S depth); image (S depth) k]) kids.

Lemma tokens_min (m : xml.Markup) : (3 <= tokens m)%nat.
Proof. destruct m; cbn [tokens]; lia. Qed.

Lemma parse_end_tag (name rest : bytes) (f : nat) :
  tag_ok name = true ->
  xml.parse_nodes (S f) (name_of name) (xml.end_tag name ++ rest) = Ok ([], rest).
Proof.
  intros Hok. cbn [xml.parse_nodes].
  rewrite (rawToken_end_tag _ _ Hok), name_eqb_refl. reflexivity.
Qed.

Lemma parse_kids (kids : list xml.Markup) :
  Forall parses kids ->
  forall depth name rest f,
    tag_ok name = true ->
    (2 + tokens_list kids <= f)%nat ->
    xml.parse_nodes f (name_of name)
      (kids_text depth kids ++ xml.newline_indent (B "  ") depth
       ++ xml.end_tag name ++ rest)
    = Ok (kids_image depth kids ++ [indent_text depth], rest).
Proof.
  induction 1 as [|k ks Hk _ IH]; intros depth name rest f Hok Hf.
  - cbn [kids_text kids_image flat_map app tokens_list fold_right] in *.
    destruct f as [|[|f]]; try lia.
    rewrite end_tag_head.
    cbn [xml.parse_nodes]. rewrite rawToken_indent.
    rewrite <- end_tag_head, (rawToken_end_tag _ _ Hok), name_eqb_refl.
    reflexivity.
  - cbn [tokens_list fold_right] in Hf. fold (tokens_list ks) in Hf.
    destruct f as [|[|f]]; try lia.
    cbn [kids_text kids_image flat_map]. fold (kids_text depth ks).
    fold (kids_image depth ks).
    rewrite <- !app_assoc.
    destruct (render_head (S depth) k
                (kids_text depth ks ++ xml.newline_indent (B "  ") depth
                 ++ xml.end_tag name ++ rest)) as [tl Htl].
    cbn [xml.parse_nodes]. rewrite Htl, rawToken_indent, <- Htl.
    change (match xml.rawToken ?s with
            | xml.TokEOF => _ | xml.TokErr e => _ | xml.Tok t r => _ end)
      with (xml.parse_nodes (S f) (name_of name) s).
    rewrite (Hk (S depth) (name_of name) _ f) by lia.
    pose proof (tokens_min k) as Hmin.
    rewrite (IH depth name rest f Hok) by lia.
    reflexivity.
Qed.

Lemma sanitize_nil : sanitize [] = [].
Proof. reflexivity. Qed.

Lemma parse_markup (m : xml.Markup) : plain m = true -> parses m.
Proof.
  induction m as [name text | name attrs kids IH] using Markup_induction;
    intros Hp depth open rest f Hf.
  - cbn [plain] in Hp. cbn [tokens] in Hf.
    cbn [xml.render image]. rewrite <- !app_assoc.
    cbn [xml.parse_nodes]. rewrite (rawToken_start_tag _ _ Hp).
    destruct f as [|[|f]]; try lia.
    destruct text as [|c text'].
    + change (xml.EscapeText []) with (@nil ascii). cbn [app].
      rewrite (parse_end_tag _ _ _ Hp). reflexivity.
    + rewrite end_tag_head.
      cbn [xml.parse_nodes].
      rewrite rawToken_escaped_text by discriminate.
      rewrite <- end_tag_head, (rawToken_end_tag _ _ Hp), name_eqb_refl.
      cbn [rbind].
      pose proof (sanitize_nonempty (c :: text') ltac:(discriminate)) as Hs.
      destruct (sanitize (c :: text')) as [|? ?]; [congruence|].
      reflexivity.
  - cbn [plain] in Hp.
    apply andb_true_iff in Hp as [Hp Hkids]. apply andb_true_iff in Hp as [Hok Ha].
    destruct attrs; [|discriminate].
    cbn [tokens] in Hf. fold (tokens_list kids) in Hf.
    assert (Hall : Forall parses kids).
    { clear Hf. induction IH as [|k ks Hk _ IHks]; [constructor|].
      cbn [forallb] in Hkids. apply andb_true_iff in Hkids as [H1 H2].
      constructor; auto. }
    cbn [xml.render image]. rewrite <- !app_assoc.
    cbn [xml.parse_nodes]. rewrite (rawToken_start_tag _ _ Hok).
    destruct kids as [|k ks].
    + cbn [app]. destruct f as [|f]; [lia|].
      rewrite (parse_end_tag _ _ _ Hok). reflexivity.
    + rewrite <- !app_assoc.
      fold (kids_text depth (k :: ks)). fold (kids_image depth (k :: ks)).
      rewrite (parse_kids _ Hall depth name rest f Hok) by lia.
      reflexivity.
Qed.

Lemma tokens_list_le_length (kids : list xml.Markup) :
  Forall (fun k => forall d, (tokens k <= List.length (xml.render (B "  ") d k))%nat)
         kids ->
  forall depth, (tokens_list kids <= List.length (kids_text depth kids))%nat.
Proof.
  induction 1 as [|k ks Hk _ IH]; intros depth.
  - cbn. lia.
  - cbn [tokens_list fold_right kids_text flat_map].
    fold (tokens_list ks). fold (kids_text depth ks).
    rewrite !length_app. specialize (Hk (S depth)). specialize (IH depth).
    unfold xml.newline_indent. cbn [List.length]. lia.
Qed.

Lemma tokens_le_length (m : xml.Markup) :
  forall depth, (tokens m <= List.length (xml.render (B "  ") depth m))%nat.
Proof.
  induction m as [name text | name attrs kids IH] using Markup_induction;
    intros depth.
  - cbn [tokens xml.render]. unfold xml.start_tag, xml.end_tag.
    rewrite !length_app. cbn [List.length flat_map app].
    rewrite !length_app. cbn [List.length]. lia.
  - cbn [tokens xml.render]. fold (tokens_list kids).
    pose proof (tokens_list_le_length kids IH depth) as Hk.
    unfold xml.start_tag, xml.end_tag.
    rewrite !length_app. cbn [List.length].
    rewrite !length_app. cbn [List.length].
    destruct kids as [|k ks]; [cbn in *; lia|].
    fold (kids_text depth (k :: ks)).
    rewrite !length_app. lia.
Qed.

(** ** The request document *)

Definition envelope_name : xml.Name :=
  {| xml.Space := B "soapenv"; xml.Local := B "Envelope" |}.

Definition envelope_attrs : list xml.Attr :=
  [ {| xml.AttrName := {| xml.Space := B "xmlns"; xml.Local := B "soapenv" |};
       xml.AttrValue := soapenvNS |};
    {| xml.AttrName := {| xml.Space := B "xmlns"; xml.Local := B "ns" |};
       xml.AttrValue := dhlNS |} ].

Lemma rawToken_declaration (rest : bytes) :
  xml.rawToken (xml.Header ++ rest)
  = xml.Tok (xml.ProcInst (B "xml") (B "version=" ++ [quote_byte] ++ B "1.0"
                                       ++ [quote_byte] ++ B " encoding="
                                       ++ [quote_byte] ++ B "UTF-8" ++ [quote_byte]))
            (newline_byte :: rest).
Proof. vm_compute. reflexivity. Qed.

Lemma rawToken_envelope_start (rest : bytes) :
  xml.rawToken (envelope_start_tag ++ rest)
  = xml.Tok (xml.StartElement envelope_name envelope_attrs false) rest.
Proof. vm_compute. reflexivity. Qed.

Definition header_markup : xml.Markup := xml.Branch (B "soapenv:Header") [] [].

Definition body_markup (m : xml.Markup) : xml.Markup :=
  xml.Branch (B "soapenv:Body") [] [m].

(** The element tree of a request: the envelope with its two name-space
    attributes, around the images of the header and of the body. *)
Definition envelope_image (m : xml.Markup) : xml.Node :=
  xml.Element envelope_name envelope_attrs
    (kids_image 0 [header_markup; body_markup m] ++ [indent_text 0]).

Lemma render_envelope (m : xml.Markup) :
  xml.render (B "  ") 0 (envelope_markup m)
  = envelope_start_tag
    ++ kids_text 0 [header_markup; body_markup m]
    ++ xml.newline_indent (B "  ") 0
    ++ xml.end_tag (B "soapenv:Envelope") ++ [].
Proof.
  unfold envelope_markup. cbn [xml.render].
  fold (kids_text 0 [header_markup; body_markup m]).
  rewrite app_nil_r, <- !app_assoc. reflexivity.
Qed.

Lemma parse_envelope (m : xml.Markup) :
  plain m = true ->
  xml.parse_document (xml.Header ++ xml.render (B "  ") 0 (envelope_markup m))
  = Ok (envelope_image m).
Proof.
  intros Hp.
  assert (Hall : Forall parses [header_markup; body_markup m]).
  { repeat (apply Forall_cons; [apply parse_markup|]); [reflexivity| |apply Forall_nil].
    cbn [body_markup plain forallb]. rewrite Hp. reflexivity. }
  assert (Hlen : (tokens_list [header_markup; body_markup m]
                  <= List.length (kids_text 0 [header_markup; body_markup m]))%nat).
  { apply tokens_list_le_length. repeat (apply Forall_cons; [intros d; apply tokens_le_length|]). apply Forall_nil. }
  unfold xml.parse_document, xml.parse_root.
  rewrite render_envelope.
  set (inner := kids_text 0 [header_markup; body_markup m]
                ++ xml.newline_indent (B "  ") 0
                ++ xml.end_tag (B "soapenv:Envelope") ++ []) in *.
  assert (Hroot : forall f, (3 <= f)%nat ->
            xml.find_root f (xml.Header ++ envelope_start_tag ++ inner)
            = Ok (envelope_name, envelope_attrs, false, inner)).
  { intros f Hf. destruct f as [|[|[|f]]]; try lia.
    cbn [xml.find_root]. rewrite rawToken_declaration.
    change (newline_byte :: envelope_start_tag ++ inner)
      with (xml.newline_indent (B "  ") 0
            ++ "<"%char :: tl envelope_start_tag ++ inner).
    rewrite rawToken_indent.
    change ("<"%char :: tl envelope_start_tag ++ inner)
      with (envelope_start_tag ++ inner).
    rewrite rawToken_envelope_start. reflexivity. }
  rewrite Hroot.
  2:{ rewrite length_app. change (List.length xml.Header) with 39%nat. lia. }
  cbn [rbind].
  change envelope_name with (name_of (B "soapenv:Envelope")).
  unfold inner.
  rewrite (parse_kids _ Hall 0%nat (B "soapenv:Envelope") []).
  - reflexivity.
  - reflexivity.
  - rewrite !length_app. unfold xml.newline_indent. cbn [List.length]. lia.
Qed.

(** ** Numbers on the wire *)

(** Printable ASCII: what [strconv] writes. *)
Definition printable (c : byte) : bool :=
  (33 <=? byte_val c) && (byte_val c <? 127).

Lemma valid_printable (s : bytes) :
  forallb printable s = true -> xml.valid_text s = true.
Proof.
  unfold xml.valid_text.
  induction s as [|c s IH]; intros H; [reflexivity|].
  cbn [forallb] in H. apply andb_true_iff in H as [Hc Hs].
  unfold printable in Hc. apply andb_true_iff in Hc as [H1 H2].
  apply Z.leb_le in H1. apply Z.ltb_lt in H2.
  cbn [xml.valid_from]. rewrite DecodeRune_ascii by lia.
  replace (byte_val c =? utf8.RuneError) with false
    by (symmetry; apply Z.eqb_neq; unfold utf8.RuneError; lia).
  cbn [andb].
  replace (xml.isInCharacterRange (byte_val c)) with true.
  - apply IH, Hs.
  - unfold xml.isInCharacterRange.
    replace (32 <=? byte_val c) with true by (symmetry; apply Z.leb_le; lia).
    replace (byte_val c <=? 55295) with true by (symmetry; apply Z.leb_le; lia).
    cbn [andb]. rewrite orb_true_r. reflexivity.
Qed.

Lemma TrimLeft_printable (s : bytes) :
  forallb printable s = true -> strings.TrimLeft s = s.
Proof.
  destruct s as [|c s]; intros H; [reflexivity|].
  cbn [forallb] in H. apply andb_true_iff in H as [Hc _].
  unfold printable in Hc. apply andb_true_iff in Hc as [H1 H2].
  apply Z.leb_le in H1. apply Z.ltb_lt in H2.
  cbn [strings.TrimLeft]. unfold strings.is_space. cbv zeta.
  replace (byte_val c <=? 13) with false by (symmetry; apply Z.leb_gt; lia).
  replace (byte_val c =? 32) with false by (symmetry; apply Z.eqb_neq; lia).
  rewrite andb_false_r. reflexivity.
Qed.

Lemma TrimSpace_printable (s : bytes) :
  forallb printable s = true -> strings.TrimSpace s = s.
Proof.
  intros H. unfold strings.TrimSpace.
  rewrite (TrimLeft_printable s H), TrimLeft_printable, rev_involutive;
    [reflexivity|].
  rewrite forallb_forall in *. intros x Hx. apply H, in_rev, Hx.
Qed.

Lemma digit_char_val (d : Z) :
  0 <= d < 10 -> byte_val (strconv.digit_char d) = 48 + d.
Proof. intros H. unfold strconv.digit_char. apply byte_val_of. lia. Qed.

Lemma digit_char_is_digit (d : Z) :
  0 <= d < 10 -> strconv.is_digit (strconv.digit_char d) = true.
Proof.
  intros H. unfold strconv.is_digit. rewrite digit_char_val by assumption.
  apply andb_true_iff. split; apply Z.leb_le; lia.
Qed.

Lemma digit_char_printable (d : Z) :
  0 <= d < 10 -> printable (strconv.digit_char d) = true.
Proof.
  intros H. unfold printable. rewrite digit_char_val by assumption.
  apply andb_true_iff. split; [apply Z.leb_le | apply Z.ltb_lt]; lia.
Qed.

(** [ds] is a decimal numeral of [n]. *)
Definition numeral (ds : bytes) (n : Z) : Prop :=
  ds <> [] /\ forallb printable ds = true
  /\ forall acc rest, strconv.parse_digits acc (ds ++ rest)
                      = strconv.parse_digits (acc * 10 ^ Z.of_nat (List.length ds) + n) rest.

Lemma utoa_fuel_numeral (f : nat) :
  forall n acc, 0 <= n < 10 ^ Z.of_nat (S f) ->
    exists ds, strconv.utoa_fuel f n acc = ds ++ acc /\ numeral ds n.
Proof.
  assert (Hone : forall n, 0 <= n < 10 ->
            numeral [strconv.digit_char n] n).
  { intros n Hn. split; [discriminate|]. split.
    - cbn [forallb]. rewrite digit_char_printable by assumption. reflexivity.
    - intros acc rest. cbn [app strconv.parse_digits List.length].
      rewrite digit_char_is_digit, digit_char_val by assumption.
      f_equal. change (Z.of_nat 1) with 1. lia. }
  induction f as [|f IH]; intros n acc Hn.
  - cbn [strconv.utoa_fuel]. change (10 ^ Z.of_nat 1) with 10 in Hn.
    rewrite Z.mod_small by lia.
    exists [strconv.digit_char n]. split; [reflexivity | apply Hone, Hn].
  - cbn [strconv.utoa_fuel].
    pose proof (Z.mod_pos_bound n 10 ltac:(lia)) as Hm.
    pose proof (Z.div_mod n 10 ltac:(lia)) as Hdm.
    destruct (Z.eqb_spec (n / 10) 0) as [Hz|Hz].
    + exists [strconv.digit_char (n mod 10)]. split; [reflexivity|].
      replace (n mod 10) with n by lia. apply Hone. lia.
    + assert (Hq : 0 <= n / 10 < 10 ^ Z.of_nat (S f)).
      { split; [apply Z.div_pos; lia|].
        apply Z.div_lt_upper_bound; [lia|].
        replace (Z.of_nat (S (S f))) with (Z.succ (Z.of_nat (S f))) in Hn by lia.
        rewrite Z.pow_succ_r in Hn by lia. lia. }
      destruct (IH (n / 10) (strconv.digit_char (n mod 10) :: acc) Hq)
        as (ds & Heq & Hne & Hpr & Hparse).
      exists (ds ++ [strconv.digit_char (n mod 10)]). split.
      * rewrite Heq, <- app_assoc. reflexivity.
      * split; [destruct ds; discriminate|]. split.
        -- rewrite forallb_app, Hpr. cbn [forallb].
           rewrite digit_char_printable by assumption. reflexivity.
        -- intros a rest. rewrite <- app_assoc, Hparse.
           cbn [app strconv.parse_digits].
           rewrite digit_char_is_digit, digit_char_val by assumption.
           f_equal. rewrite length_app. cbn [List.length].
           replace (Z.of_nat (List.length ds + 1)) with (Z.succ (Z.of_nat (List.length ds))) by lia.
           rewrite Z.pow_succ_r by lia. lia.
Qed.

Lemma utoa_numeral (n : Z) : 0 <= n -> numeral (strconv.utoa n) n.
Proof.
  intros Hn. unfold strconv.utoa.
  destruct (utoa_fuel_numeral (Z.to_nat (Z.log2 n)) n []) as (ds & Heq & Hnum).
  - split; [assumption|].
    destruct (Z.eq_dec n 0) as [->|Hnz]; [reflexivity|].
    pose proof (Z.log2_nonneg n) as Hl.
    pose proof (Z.log2_spec n ltac:(lia)) as [_ Hup].
    replace (Z.of_nat (S (Z.to_nat (Z.log2 n)))) with (Z.succ (Z.log2 n)) by lia.
    eapply Z.lt_le_trans; [exact Hup|].
    apply Z.pow_le_mono_l. lia.
  - rewrite Heq, app_nil_r. exact Hnum.
Qed.

Lemma numeral_parse (ds : bytes) (n : Z) :
  numeral ds n -> strconv.parse_unsigned ds = Some n.
Proof.
  intros (Hne & _ & Hp). unfold strconv.parse_unsigned.
  destruct ds as [|c ds']; [congruence|].
  specialize (Hp 0 []). rewrite app_nil_r in Hp. rewrite Hp. reflexivity.
Qed.

Lemma numeral_head (ds : bytes) (n : Z) :
  numeral ds n -> exists c tl, ds = c :: tl /\ printable c = true
                               /\ Ascii.eqb c "-" = false /\ Ascii.eqb c "+" = false.
Proof.
  intros (Hne & Hpr & Hp).
  destruct ds as [|c tl]; [congruence|]. exists c, tl.
  specialize (Hp 0 []). cbn [app strconv.parse_digits] in Hp.
  cbn [forallb] in Hpr. apply andb_true_iff in Hpr as [Hc _].
  repeat split; try assumption.
  - destruct (Ascii.eqb_spec c "-"); [subst c|reflexivity].
    cbn in Hp. destruct tl; cbn in Hp; discriminate.
  - destruct (Ascii.eqb_spec c "+"); [subst c|reflexivity].
    cbn in Hp. destruct tl; cbn in Hp; discriminate.
Qed.

(** [strconv.ParseInt] reads back what [strconv.FormatInt] writes. *)
Lemma ParseInt_FormatInt (i : Z) :
  - 2 ^ 63 <= i < 2 ^ 63 ->
  strconv.ParseInt (strconv.FormatInt i) = Some i.
Proof.
  intros Hi. unfold strconv.FormatInt.
  destruct (Z.ltb_spec i 0) as [Hneg|Hpos].
  - pose proof (utoa_numeral (- i) ltac:(lia)) as Hnum.
    cbn [strconv.ParseInt]. change (Ascii.eqb "-" "-") with true. cbv iota.
    rewrite (numeral_parse _ _ Hnum).
    destruct (Z.leb_spec (- i) (2 ^ 63)); [f_equal; lia | lia].
  - pose proof (utoa_numeral i Hpos) as Hnum.
    destruct (numeral_head _ _ Hnum) as (c & tl & Heq & _ & Hm & Hp).
    rewrite Heq. cbn [strconv.ParseInt]. rewrite Hm, Hp, <- Heq.
    rewrite (numeral_parse _ _ Hnum).
    destruct (Z.ltb_spec i (2 ^ 63)); [reflexivity | lia].
Qed.

Lemma FormatInt_printable (i : Z) :
  forallb printable (strconv.FormatInt i) = true.
Proof.
  unfold strconv.FormatInt. destruct (Z.ltb_spec i 0).
  - cbn [forallb]. destruct (utoa_numeral (- i) ltac:(lia)) as (_ & Hpr & _).
    rewrite Hpr. reflexivity.
  - destruct (utoa_numeral i ltac:(lia)) as (_ & Hpr & _). exact Hpr.
Qed.

Lemma FormatInt_nonempty (i : Z) : strconv.FormatInt i <> [].
Proof.
  unfold strconv.FormatInt. destruct (Z.ltb_spec i 0); [discriminate|].
  destruct (utoa_numeral i ltac:(lia)) as (Hne & _). exact Hne.
Qed.

(** ** Decoding what the encoder writes *)

(** The elements of a list of markup trees, without the white space
    between them. *)
Definition elements (depth : nat) (kids : list xml.Markup) : list xml.Node :=
  map (image depth) kids.

(** The content of the image of a branch. *)
Definition content (depth : nat) (kids : list xml.Markup) : list xml.Node :=
  match kids with
  | [] => []
  | _ :: _ => kids_image depth kids ++ [indent_text depth]
  end.

Lemma image_branch (depth : nat) (name : bytes) (attrs : list (bytes * bytes))
      (kids : list xml.Markup) :
  image depth (xml.Branch name attrs kids)
  = xml.Element (name_of name) [] (content depth kids).
Proof. destruct kids; reflexivity. Qed.

Lemma unmarshal_kids_image {T} (tbl : xml.fields T) (depth : nat)
      (kids : list xml.Markup) (tail : list xml.Node) :
  forall v,
    xml.unmarshal_struct tbl v (kids_image depth kids ++ tail)
    = rbind (xml.unmarshal_struct tbl v (elements (S depth) kids))
            (fun v' => xml.unmarshal_struct tbl v' tail).
Proof.
  induction kids as [|k ks IH]; intros v; [reflexivity|].
  cbn [kids_image flat_map app elements map]. fold (kids_image depth ks).
  fold (elements (S depth) ks).
  unfold indent_text at 1. cbn [xml.unmarshal_struct].
  destruct (image (S depth) k) as [name attrs sub | d];
    cbn [xml.unmarshal_struct]; [|apply IH].
  destruct (xml.lookup_field tbl (xml.Local name)) as [store|]; [|apply IH].
  destruct (store v sub) as [v'|e]; cbn [rbind]; [apply IH | reflexivity].
Qed.

(** The decoder drops the indentation: the content of a branch decodes
    as its elements do. *)
Lemma unmarshal_content {T} (tbl : xml.fields T) (depth : nat)
      (kids : list xml.Markup) (v : T) :
  xml.unmarshal_struct tbl v (content depth kids)
  = xml.unmarshal_struct tbl v (elements (S depth) kids).
Proof.
  destruct kids as [|k ks]; [reflexivity|].
  unfold content. rewrite unmarshal_kids_image.
  destruct (xml.unmarshal_struct tbl v (elements (S depth) (k :: ks)));
    reflexivity.
Qed.

Lemma chardata_leaf_content (s : bytes) : xml.chardata (leaf_content s) = s.
Proof. destruct s; [reflexivity|]. cbn. rewrite app_nil_r. reflexivity. Qed.

Definition text_ok (s : bytes) : Prop := xml.valid_text s = true.

Lemma chardata_leaf (s : bytes) :
  text_ok s -> xml.chardata (leaf_content (sanitize s)) = s.
Proof. intros H. rewrite (sanitize_valid s H). apply chardata_leaf_content. Qed.

Section Steps.

Context {T : Type} (tbl : xml.fields T).

Lemma decode_leaf (tag text : bytes) (depth : nat) (more : list xml.Markup)
      (store : T -> list xml.Node -> result xml.error T) (v : T) :
  xml.lookup_field tbl (xml.Local (name_of tag)) = Some store ->
  xml.unmarshal_struct tbl v (elements depth (xml.Leaf tag text :: more))
  = rbind (store v (leaf_content (sanitize text)))
          (fun v' => xml.unmarshal_struct tbl v' (elements depth more)).
Proof.
  intros Hl. cbn [elements map image xml.unmarshal_struct].
  rewrite Hl. reflexivity.
Qed.

Lemma decode_string_elem (set : bytes -> T -> T) (tag text : bytes)
      (depth : nat) (more : list xml.Markup) (v : T) :
  xml.lookup_field tbl (xml.Local (name_of tag)) = Some (xml.string_field set) ->
  text_ok text ->
  xml.unmarshal_struct tbl v (elements depth (xml.string_elem tag text ++ more))
  = xml.unmarshal_struct tbl (set text v) (elements depth more).
Proof.
  intros Hl Ht. unfold xml.string_elem. cbn [app].
  rewrite (decode_leaf _ _ _ _ _ _ Hl).
  unfold xml.string_field, xml.copy_string. rewrite (chardata_leaf _ Ht).
  reflexivity.
Qed.

Lemma decode_omitempty_elem (set : bytes -> T -> T) (tag text : bytes)
      (depth : nat) (more : list xml.Markup) (v : T) :
  xml.lookup_field tbl (xml.Local (name_of tag)) = Some (xml.string_field set) ->
  text_ok text ->
  xml.unmarshal_struct tbl v (elements depth (xml.omitempty_elem tag text ++ more))
  = xml.unmarshal_struct tbl
      (match text with [] => v | _ :: _ => set text v end) (elements depth more).
Proof.
  intros Hl Ht. destruct text as [|c text']; [reflexivity|].
  apply (decode_string_elem set tag (c :: text') depth more v Hl Ht).
Qed.

Lemma decode_int_elem (set : Z -> T -> T) (tag : bytes) (i : Z)
      (depth : nat) (more : list xml.Markup) (v : T) :
  xml.lookup_field tbl (xml.Local (name_of tag)) = Some (xml.int_field set) ->
  - 2 ^ 63 <= i < 2 ^ 63 ->
  xml.unmarshal_struct tbl v (elements depth (xml.int_elem tag i ++ more))
  = xml.unmarshal_struct tbl (set i v) (elements depth more).
Proof.
  intros Hl Hi. unfold xml.int_elem. cbn [app].
  rewrite (decode_leaf _ _ _ _ _ _ Hl).
  unfold xml.int_field, xml.copy_int.
  rewrite chardata_leaf by (apply valid_printable, FormatInt_printable).
  pose proof (FormatInt_nonempty i) as Hne.
  destruct (strconv.FormatInt i) as [|c s] eqn:E; [congruence|].
  rewrite <- E, TrimSpace_printable by apply FormatInt_printable.
  rewrite (ParseInt_FormatInt i Hi). reflexivity.
Qed.

Lemma decode_bool_elem (set : bool -> T -> T) (tag : bytes) (b : bool)
      (depth : nat) (more : list xml.Markup) (v : T) :
  xml.lookup_field tbl (xml.Local (name_of tag)) = Some (xml.bool_field set) ->
  xml.unmarshal_struct tbl v (elements depth (xml.bool_elem tag b ++ more))
  = xml.unmarshal_struct tbl (set b v) (elements depth more).
Proof.
  intros Hl. unfold xml.bool_elem. cbn [app].
  rewrite (decode_leaf _ _ _ _ _ _ Hl).
  unfold xml.bool_field.
  assert (Hb : xml.copy_bool (leaf_content (sanitize (strconv.FormatBool b))) = Ok b)
    by (destruct b; vm_compute; reflexivity).
  rewrite Hb. reflexivity.
Qed.

Lemma decode_branch (tag : bytes) (kids more : list xml.Markup) (depth : nat)
      (store : T -> list xml.Node -> result xml.error T) (v : T) :
  xml.lookup_field tbl (xml.Local (name_of tag)) = Some store ->
  xml.unmarshal_struct tbl v (elements depth (xml.struct_elem tag kids ++ more))
  = rbind (store v (content depth kids))
          (fun v' => xml.unmarshal_struct tbl v' (elements depth more)).
Proof.
  intros Hl. unfold xml.struct_elem. cbn [app elements map].
  rewrite image_branch. cbn [xml.unmarshal_struct]. rewrite Hl. reflexivity.
Qed.

Lemma decode_struct_elem {U} (sub : xml.fields U) (get : T -> U) (set : U -> T -> T)
      (tag : bytes) (kids more : list xml.Markup) (depth : nat) (u : U) (v : T) :
  xml.lookup_field tbl (xml.Local (name_of tag)) = Some (xml.struct_field get set sub) ->
  xml.unmarshal_struct sub (get v) (elements (S depth) kids) = Ok u ->
  xml.unmarshal_struct tbl v (elements depth (xml.struct_elem tag kids ++ more))
  = xml.unmarshal_struct tbl (set u v) (elements depth more).
Proof.
  intros Hl Hu. rewrite (decode_branch _ _ _ _ _ _ Hl).
  unfold xml.struct_field. rewrite unmarshal_content, Hu. reflexivity.
Qed.

Lemma decode_skipped_elem (tag : bytes) (kids more : list xml.Markup)
      (depth : nat) (v : T) :
  xml.lookup_field tbl (xml.Local (name_of tag)) = None ->
  xml.unmarshal_struct tbl v (elements depth (xml.struct_elem tag kids ++ more))
  = xml.unmarshal_struct tbl v (elements depth more).
Proof.
  intros Hl. unfold xml.struct_elem. cbn [app elements map].
  rewrite image_branch. cbn [xml.unmarshal_struct]. rewrite Hl. reflexivity.
Qed.

Lemma decode_slice_elem {U} (sub : xml.fields U) (get : T -> list U)
      (set : list U -> T -> T) (zero : U) (f : U -> list xml.Markup)
      (tag : bytes) (depth : nat) (more : list xml.Markup) (l : list U) :
  xml.lookup_field tbl (xml.Local (name_of tag))
  = Some (xml.slice_field get set zero sub) ->
  (forall x v, get (set x v) = x) ->
  (forall x y v, set x (set y v) = set x v) ->
  (forall v, set (get v) v = v) ->
  Forall (fun u => xml.unmarshal_struct sub zero (elements (S depth) (f u)) = Ok u) l ->
  forall v,
    xml.unmarshal_struct tbl v (elements depth (xml.slice_elem tag f l ++ more))
    = xml.unmarshal_struct tbl (set (get v ++ l) v) (elements depth more).
Proof.
  intros Hl Hgs Hss Hsg Hall. induction Hall as [|u l Hu _ IH]; intros v.
  - rewrite app_nil_r, Hsg. reflexivity.
  - unfold xml.slice_elem. cbn [flat_map]. fold (xml.slice_elem tag f l).
    rewrite <- app_assoc, (decode_branch _ _ _ _ _ _ Hl).
    unfold xml.slice_field. rewrite unmarshal_content, Hu. cbn [rbind].
    rewrite IH, Hgs, Hss, <- app_assoc. reflexivity.
Qed.

End Steps.

Lemma plain_slice_elem {U} (tag : bytes) (f : U -> list xml.Markup) (l : list U) :
  tag_ok tag = true ->
  (forall u, forallb plain (f u) = true) ->
  forallb plain (xml.slice_elem tag f l) = true.
Proof.
  intros Ht Hf. induction l as [|u l IH]; [reflexivity|].
  unfold xml.slice_elem. cbn [flat_map xml.struct_elem app forallb plain].
  fold (xml.slice_elem tag f l). rewrite Ht, Hf, IH. reflexivity.
Qed.

(** ** The round trip of a shipment *)

(** Values whose strings are XML character data as they stand. *)
Definition Address_ok (a : Address) : Prop :=
  Forall text_ok
    [Address_Country a; Address_Name a; Address_PostalCode a; Address_City a;
     Address_Street a; Address_HouseNumber a; Address_ApartmentNumber a;
     Address_ContactPerson a; Address_ContactPhone a; Address_ContactEmail a].

Definition Payment_ok (p : Payment) : Prop :=
  Forall text_ok
    [Payment_PaymentType p; Payment_PayerType p; Payment_AccountNumber p;
     Payment_PaymentMethod p].

Definition Service_ok (s : Service) : Prop := text_ok (Service_Product s).

Ltac string_step :=
  erewrite decode_string_elem; [ | reflexivity | assumption ].

Ltac omitempty_step :=
  erewrite decode_omitempty_elem; [ | reflexivity | assumption ].

Ltac forall_inv H :=
  repeat match type of H with
         | Forall _ (_ :: _) =>
             let H1 := fresh "Hok" in
             apply Forall_cons_iff in H; destruct H as [H1 H]
         end.

Lemma decode_Address (a : Address) (depth : nat) :
  Address_ok a ->
  xml.unmarshal_struct fields_Address zero_Address (elements depth (marshal_Address a))
  = Ok a.
Proof.
  destruct a as [country name postalCode city street houseNumber apartmentNumber
                 contactPerson contactPhone contactEmail].
  unfold Address_ok, marshal_Address.
  cbn [Address_Country Address_Name Address_PostalCode Address_City Address_Street
       Address_HouseNumber Address_ApartmentNumber Address_ContactPerson
       Address_ContactPhone Address_ContactEmail].
  intros H. forall_inv H.
  rewrite <- (app_nil_r (xml.string_elem (B "contactEmail") contactEmail)).
  omitempty_step. do 5 string_step. do 2 omitempty_step. do 2 string_step.
  destruct country, apartmentNumber, contactPerson; reflexivity.
Qed.

Lemma decode_Payment (p : Payment) (depth : nat) :
  Payment_ok p ->
  xml.unmarshal_struct fields_Payment zero_Payment (elements depth (marshal_Payment p))
  = Ok p.
Proof.
  destruct p as [paymentType payerType accountNumber paymentMethod].
  unfold Payment_ok, marshal_Payment.
  cbn [Payment_PaymentType Payment_PayerType Payment_AccountNumber
       Payment_PaymentMethod].
  intros H. forall_inv H.
  rewrite <- (app_nil_r (xml.string_elem (B "paymentMethod") paymentMethod)).
  do 4 string_step. reflexivity.
Qed.

Lemma decode_Service (s : Service) (depth : nat) :
  Service_ok s ->
  xml.unmarshal_struct fields_Service zero_Service (elements depth (marshal_Service s))
  = Ok s.
Proof.
  destruct s as [product]. unfold Service_ok, marshal_Service.
  cbn [Service_Product]. intros H.
  rewrite <- (app_nil_r (xml.string_elem (B "product") product)).
  string_step. reflexivity.
Qed.

Lemma plain_Address (a : Address) : forallb plain (marshal_Address a) = true.
Proof.
  destruct a as [country ? ? ? ? ? apartmentNumber contactPerson ? ?].
  destruct country, apartmentNumber, contactPerson; reflexivity.
Qed.

Lemma plain_Payment (p : Payment) : forallb plain (marshal_Payment p) = true.
Proof. reflexivity. Qed.

Lemma plain_Service (s : Service) : forallb plain (marshal_Service s) = true.
Proof. reflexivity. Qed.

Lemma plain_AuthData (a : AuthData) : forallb plain (marshal_AuthData a) = true.
Proof. reflexivity. Qed.

Section RoundTrip.

Variable float64 : Type.
Variable FormatFloat : float64 -> bytes.
Variable ParseFloat : bytes -> option float64.
Variable float_zero : float64.

(** A weight that [FormatFloat] writes as text [ParseFloat] reads back. *)
Definition weight_ok (w : float64) : Prop :=
  text_ok (FormatFloat w) /\ FormatFloat w <> []
  /\ ParseFloat (strings.TrimSpace (FormatFloat w)) = Some w.

Definition Piece_ok (p : Piece float64) : Prop :=
  text_ok (Piece_Type float64 p)
  /\ - 2 ^ 63 <= Piece_Quantity float64 p < 2 ^ 63
  /\ weight_ok (Piece_Weight float64 p).

Definition ShipmentItem_ok (s : ShipmentItem float64) : Prop :=
  Address_ok (ShipmentItem_Shipper float64 s)
  /\ Address_ok (ShipmentItem_Receiver float64 s)
  /\ Forall Piece_ok (PieceList_Items float64 (ShipmentItem_PieceList float64 s))
  /\ Payment_ok (ShipmentItem_Payment float64 s)
  /\ Service_ok (ShipmentItem_Service float64 s)
  /\ Forall text_ok [ShipmentItem_ShipmentDate float64 s;
                     ShipmentItem_Comment float64 s;
                     ShipmentItem_Content float64 s].

Lemma decode_Piece (p : Piece float64) (depth : nat) :
  Piece_ok p ->
  xml.unmarshal_struct (fields_Piece float64 ParseFloat float_zero)
    (zero_Piece float64 float_zero)
    (elements depth (marshal_Piece float64 FormatFloat p))
  = Ok p.
Proof.
  destruct p as [type quantity weight]. unfold Piece_ok, marshal_Piece.
  cbn [Piece_Type Piece_Quantity Piece_Weight].
  intros (Ht & Hq & Hw & Hne & Hparse).
  string_step. erewrite decode_int_elem; [ | reflexivity | assumption ].
  erewrite decode_leaf; [ | reflexivity ].
  unfold float_field, copy_float. rewrite (chardata_leaf _ Hw).
  destruct (FormatFloat weight) as [|c s] eqn:E; [congruence|].
  rewrite Hparse. reflexivity.
Qed.

Lemma decode_PieceList (l : PieceList float64) (depth : nat) :
  Forall Piece_ok (PieceList_Items float64 l) ->
  xml.unmarshal_struct (fields_PieceList float64 ParseFloat float_zero)
    (zero_PieceList float64)
    (elements depth (marshal_PieceList float64 FormatFloat l))
  = Ok l.
Proof.
  destruct l as [items]. unfold marshal_PieceList. cbn [PieceList_Items].
  intros H.
  rewrite <- (app_nil_r (xml.slice_elem _ _ _)).
  erewrite decode_slice_elem; cycle 1.
  - reflexivity.
  - intros x []; reflexivity.
  - intros x y []; reflexivity.
  - intros []; reflexivity.
  - eapply Forall_impl; [|exact H]. intros p Hp. apply decode_Piece, Hp.
  - reflexivity.
Qed.

Lemma decode_ShipmentItem (s : ShipmentItem float64) (depth : nat) :
  ShipmentItem_ok s ->
  xml.unmarshal_struct (fields_ShipmentItem float64 ParseFloat float_zero)
    (zero_ShipmentItem float64)
    (elements depth (marshal_ShipmentItem float64 FormatFloat s))
  = Ok s.
Proof.
  destruct s as [shipper receiver pieceList payment service shipmentDate
                 skipRestrictionCheck comment content].
  unfold ShipmentItem_ok, marshal_ShipmentItem.
  cbn [ShipmentItem_Shipper ShipmentItem_Receiver ShipmentItem_PieceList
       ShipmentItem_Payment ShipmentItem_Service ShipmentItem_ShipmentDate
       ShipmentItem_SkipRestrictionCheck ShipmentItem_Comment ShipmentItem_Content].
  intros (Hs & Hr & Hl & Hp & Hv & H). forall_inv H.
  rewrite <- (app_nil_r (xml.string_elem (B "content") content)).
  erewrite decode_struct_elem; [ | reflexivity | apply decode_Address, Hs ].
  erewrite decode_struct_elem; [ | reflexivity | apply decode_Address, Hr ].
  erewrite decode_struct_elem; [ | reflexivity | apply decode_PieceList, Hl ].
  erewrite decode_struct_elem; [ | reflexivity | apply decode_Payment, Hp ].
  erewrite decode_struct_elem; [ | reflexivity | apply decode_Service, Hv ].
  string_step.
  erewrite decode_bool_elem; [ | reflexivity ].
  do 2 string_step. reflexivity.
Qed.

Lemma decode_Shipments (items : list (ShipmentItem float64)) (depth : nat) :
  Forall ShipmentItem_ok items ->
  xml.unmarshal_struct (fields_Shipments float64 ParseFloat float_zero)
    (zero_Shipments float64)
    (elements depth (marshal_Shipments float64 FormatFloat (mkShipments float64 items)))
  = Ok (mkShipments float64 items).
Proof.
  unfold marshal_Shipments. cbn [Shipments_Items]. intros H.
  rewrite <- (app_nil_r (xml.slice_elem _ _ _)).
  erewrite decode_slice_elem; cycle 1.
  - reflexivity.
  - intros x []; reflexivity.
  - intros x y []; reflexivity.
  - intros []; reflexivity.
  - eapply Forall_impl; [|exact H]. intros s Hs. apply decode_ShipmentItem, Hs.
  - reflexivity.
Qed.

Lemma plain_Piece (p : Piece float64) :
  forallb plain (marshal_Piece float64 FormatFloat p) = true.
Proof. reflexivity. Qed.

Lemma plain_ShipmentItem (s : ShipmentItem float64) :
  forallb plain (marshal_ShipmentItem float64 FormatFloat s) = true.
Proof.
  unfold marshal_ShipmentItem, xml.struct_elem, marshal_PieceList.
  cbn [app forallb plain].
  rewrite plain_Address, plain_Address, plain_Payment, plain_Service,
    plain_slice_elem; [reflexivity | reflexivity | apply plain_Piece].
Qed.

Lemma plain_createShipments (c : Client) (items : list (ShipmentItem float64)) :
  plain (createShipments_markup float64 FormatFloat c items) = true.
Proof.
  unfold createShipments_markup, xml.struct_elem, marshal_Shipments.
  cbn [app forallb plain Shipments_Items].
  rewrite plain_AuthData, plain_slice_elem;
    [reflexivity | reflexivity | apply plain_ShipmentItem].
Qed.

Lemma read_request (c : Client) (items : list (ShipmentItem float64)) :
  Forall ShipmentItem_ok items ->
  Unmarshal_shipments float64 ParseFloat float_zero
    (createShipments_request float64 FormatFloat c items)
  = Ok items.
Proof.
  intros H. unfold Unmarshal_shipments, createShipments_request.
  rewrite (parse_envelope _ (plain_createShipments c items)).
  unfold envelope_image. cbn [rbind xml.expect_name].
  change (bytes_eqb (B "Envelope") (xml.Local envelope_name)) with true.
  cbv iota. cbn [rbind].
  fold (content 0 [header_markup;
                   body_markup (createShipments_markup float64 FormatFloat c items)]).
  rewrite unmarshal_content.
  change [header_markup; body_markup (createShipments_markup float64 FormatFloat c items)]
    with (xml.struct_elem (B "soapenv:Header") []
          ++ xml.struct_elem (B "soapenv:Body")
               [createShipments_markup float64 FormatFloat c items] ++ []).
  rewrite decode_skipped_elem by reflexivity.
  erewrite decode_struct_elem; cycle 1.
  - reflexivity.
  - change [createShipments_markup float64 FormatFloat c items]
      with (xml.struct_elem (B "ns:createShipments")
              (xml.struct_elem (B "authData") (marshal_AuthData (authData c))
               ++ xml.struct_elem (B "shipments")
                    (marshal_Shipments float64 FormatFloat (mkShipments float64 items)))
            ++ []).
    erewrite decode_struct_elem; cycle 1.
    + reflexivity.
    + rewrite decode_skipped_elem by reflexivity.
      rewrite <- (app_nil_r (xml.struct_elem (B "shipments") _)).
      erewrite decode_struct_elem; cycle 1.
      * reflexivity.
      * apply decode_Shipments, H.
      * reflexivity.
    + reflexivity.
  - reflexivity.
Qed.

End RoundTrip.

(** C1, as the code has it: for shipments whose strings are XML character
    data as they stand, whose quantities are in the range of [int64] and whose
    weights [FormatFloat] writes as text that [ParseFloat] reads back, the
    request [marshalSOAPRequest] builds around them is read back, by the
    element names of the struct tags, as the same shipments: every field of
    every [ShipmentItem] comes back equal. *)
Theorem shipments_round_trip
        (float64 : Type) (FormatFloat : float64 -> bytes)
        (ParseFloat : bytes -> option float64) (float_zero : float64)
        (c : Client) (items : list (ShipmentItem float64)) :
  Forall (ShipmentItem_ok float64 FormatFloat ParseFloat) items ->
  exists data,
    @marshalSOAPRequest _ (Marshaler_CreateShipmentsRequest float64 FormatFloat) c
      {| CreateShipmentsRequest_XMLName := zero_Name;
         CreateShipmentsRequest_AuthData := authData c;
         CreateShipmentsRequest_Shipments := mkShipments float64 items |}
    = Ok data
    /\ Unmarshal_shipments float64 ParseFloat float_zero data = Ok items.
Proof.
  intros H. exists (createShipments_request float64 FormatFloat c items).
  split.
  - rewrite marshalSOAPRequest_spec. reflexivity.
  - apply read_request, H.
Qed.

Ltac check_ok :=
  repeat first [ split | apply Forall_cons | apply Forall_nil ];
  first [ vm_compute; reflexivity | vm_compute; discriminate | lia ].

Lemma sample_item_ok :
  Forall (ShipmentItem_ok kilograms FormatKilograms ParseKilograms) [sample_item].
Proof. check_ok. Defined.

Lemma shipments_round_trip_witness :
  Forall (ShipmentItem_ok kilograms FormatKilograms ParseKilograms) [sample_item]
  /\ exists data,
      @marshalSOAPRequest _
        (Marshaler_CreateShipmentsRequest kilograms FormatKilograms) sample_client
        {| CreateShipmentsRequest_XMLName := zero_Name;
           CreateShipmentsRequest_AuthData := authData sample_client;
           CreateShipmentsRequest_Shipments := mkShipments kilograms [sample_item] |}
      = Ok data
      /\ Unmarshal_shipments kilograms ParseKilograms 0 data = Ok [sample_item].
Proof.
  split; [exact sample_item_ok|].
  exact (shipments_round_trip kilograms FormatKilograms ParseKilograms 0
           sample_client [sample_item] sample_item_ok).
Defined.

(** A shipment whose comment is the control character U+0001. *)
Definition control_item : ShipmentItem kilograms :=
  ShipmentItem_set_Comment kilograms ["001"%char] sample_item.

(** U+FFFD, the replacement character, in UTF-8. *)
Definition replacement_text : bytes := ["239"%char; "191"%char; "189"%char].

(** C1, refuted as stated: the comment U+0001 is not in the character
    range of XML and [EscapeText] writes U+FFFD in its place.  The request
    around the shipment is, byte for byte, the request around the shipment
    whose comment is U+FFFD, so that no decoder tells the two apart; the
    shipment read back is the latter, and differs from the one sent. *)
Lemma control_character_is_replaced :
  createShipments_request kilograms FormatKilograms sample_client [control_item]
  = createShipments_request kilograms FormatKilograms sample_client
      [ShipmentItem_set_Comment kilograms replacement_text sample_item]
  /\ Unmarshal_shipments kilograms ParseKilograms 0
       (createShipments_request kilograms FormatKilograms sample_client [control_item])
     = Ok [ShipmentItem_set_Comment kilograms replacement_text sample_item]
  /\ ShipmentItem_set_Comment kilograms replacement_text sample_item <> control_item.
Proof.
  split; [vm_compute; reflexivity|].
  split; [vm_compute; reflexivity | discriminate].
Qed.

(** No type of the package reads a request: [SOAPEnvelope] names its
    element with the prefix, and the local name of the element is
    compared with the whole tag. *)
Remark request_is_not_a_SOAPEnvelope :
  Unmarshal_SOAPEnvelope_check
    (createShipments_request kilograms FormatKilograms sample_client [sample_item])
  = Err xml.UnmarshalError.
Proof. vm_compute. reflexivity. Qed.

(** * Further properties of [client.go] *)

(** ** Failures of the transport *)

(** The value and the error of a result, without the response. *)
Definition outcome {A} (t : A * option Response * option failure)
  : A * option failure :=
  (fst (fst t), snd t).

(** A world on the local day 19884 whose peer answers every request with
    [answer]. *)
Definition answering_world (answer : result transport_error Response) : World :=
  mkWorld (fun _ => {| time.day_number := 19884; time.nanos := 0 |}) 0
          (fun _ => answer) [] (fun _ => true) (fun _ => true) (B "/opt/dhl") [] [].

Lemma GetMyShipmentsLastDays_unfold c ctx days w :
  GetMyShipmentsLastDays c ctx days w
  = GetMyShipments c ctx
      (time.Format (time.AddDate (clock w (S (ticks w))) 0 0 (int_neg days))
                   time.layout_date)
      (time.Format (clock w (ticks w)) time.layout_date) 0 (after_two_readings w).
Proof. reflexivity. Qed.

Lemma transport_result_fails w ctx body soapAction err :
  ctx <> NilContext ->
  peer w (post ctx body soapAction) = Err err ->
  transport_result w ctx body soapAction = ([], None, Some (ErrMakingRequest err)).
Proof.
  intros Hctx Hp. unfold transport_result.
  destruct ctx; [congruence | |]; rewrite Hp; reflexivity.
Qed.

Lemma transport_result_unread w ctx body soapAction resp err :
  ctx <> NilContext ->
  peer w (post ctx body soapAction) = Ok resp ->
  Response_Body resp = Err err ->
  transport_result w ctx body soapAction
  = ([], Some resp, Some (ErrReadingResponse err)).
Proof.
  intros Hctx Hp Hb. unfold transport_result.
  destruct ctx; [congruence | |]; rewrite Hp, Hb; reflexivity.
Qed.

Section Transport.

Variable float64 : Type.
Variable FormatFloat : float64 -> bytes.

Lemma CreateShipments_sent c ctx items w :
  sent (snd (CreateShipments float64 FormatFloat c ctx items w))
  = match ctx with
    | NilContext => sent w
    | _ => sent w ++ [post ctx (createShipments_request float64 FormatFloat c items)
                           (Endpoint ++ B "#createShipments")]
    end.
Proof.
  rewrite CreateShipments_run. cbn [snd]. apply doRequest_sent.
Qed.

Lemma CreateShipment_world c ctx x w :
  snd (CreateShipment float64 FormatFloat c ctx x w)
  = snd (CreateShipments float64 FormatFloat c ctx [x] w).
Proof.
  unfold CreateShipment, bind.
  destruct (CreateShipments float64 FormatFloat c ctx [x] w)
    as [[[results resp] err] w'].
  cbn [snd]. destruct err; [reflexivity|]. destruct results; reflexivity.
Qed.

(** X1: When the peer cannot be reached, every method returns the zero value
    of its result, no response, and the error of the transport wrapped as
    [error making request]; nothing is decoded. *)
Theorem transport_failure_is_returned c ctx w err :
  ctx <> NilContext ->
  (forall req, peer w req = Err err) ->
  fst (GetVersion c ctx w) = ([], None, Some (ErrMakingRequest err))
  /\ (forall items,
        fst (CreateShipments float64 FormatFloat c ctx items w)
        = ([], None, Some (ErrMakingRequest err)))
  /\ (forall x,
        fst (CreateShipment float64 FormatFloat c ctx x w)
        = (None, None, Some (ErrMakingRequest err)))
  /\ (forall createdFrom createdTo offset,
        fst (GetMyShipments c ctx createdFrom createdTo offset w)
        = ([], None, Some (ErrMakingRequest err)))
  /\ (forall days,
        fst (GetMyShipmentsLastDays c ctx days w)
        = ([], None, Some (ErrMakingRequest err))).
Proof.
  intros Hctx Hp.
  assert (Hc : forall items,
             fst (CreateShipments float64 FormatFloat c ctx items w)
             = ([], None, Some (ErrMakingRequest err))).
  { intros items. rewrite CreateShipments_result.
    rewrite (transport_result_fails _ _ _ _ err Hctx (Hp _)). reflexivity. }
  assert (Hg : forall w', peer w' = peer w ->
             forall createdFrom createdTo offset,
               fst (GetMyShipments c ctx createdFrom createdTo offset w')
               = ([], None, Some (ErrMakingRequest err))).
  { intros w' Hw createdFrom createdTo offset. rewrite GetMyShipments_result.
    rewrite (transport_result_fails _ _ _ _ err Hctx); [reflexivity|].
    rewrite Hw. apply Hp. }
  repeat split.
  - rewrite GetVersion_result.
    rewrite (transport_result_fails _ _ _ _ err Hctx (Hp _)). reflexivity.
  - exact Hc.
  - intros x. rewrite CreateShipment_result, Hc. reflexivity.
  - apply Hg. reflexivity.
  - intros days. rewrite GetMyShipmentsLastDays_unfold. apply Hg. reflexivity.
Qed.

(** X2: When the response arrives and its body cannot be read, every method
    returns the zero value of its result and the error wrapped as [error
    reading response], together with the response itself. *)
Theorem unread_body_is_returned_with_the_response c ctx w resp err :
  ctx <> NilContext ->
  (forall req, peer w req = Ok resp) ->
  Response_Body resp = Err err ->
  fst (GetVersion c ctx w) = ([], Some resp, Some (ErrReadingResponse err))
  /\ (forall items,
        fst (CreateShipments float64 FormatFloat c ctx items w)
        = ([], Some resp, Some (ErrReadingResponse err)))
  /\ (forall x,
        fst (CreateShipment float64 FormatFloat c ctx x w)
        = (None, Some resp, Some (ErrReadingResponse err)))
  /\ (forall createdFrom createdTo offset,
        fst (GetMyShipments c ctx createdFrom createdTo offset w)
        = ([], Some resp, Some (ErrReadingResponse err))).
Proof.
  intros Hctx Hp Hb.
  assert (Hc : forall items,
             fst (CreateShipments float64 FormatFloat c ctx items w)
             = ([], Some resp, Some (ErrReadingResponse err))).
  { intros items. rewrite CreateShipments_result.
    rewrite (transport_result_unread _ _ _ _ resp err Hctx (Hp _) Hb). reflexivity. }
  repeat split.
  - rewrite GetVersion_result.
    rewrite (transport_result_unread _ _ _ _ resp err Hctx (Hp _) Hb). reflexivity.
  - exact Hc.
  - intros x. rewrite CreateShipment_result, Hc. reflexivity.
  - intros createdFrom createdTo offset. rewrite GetMyShipments_result.
    rewrite (transport_result_unread _ _ _ _ resp err Hctx (Hp _) Hb). reflexivity.
Qed.

(** X3: The status of the response is not looked at: two responses whose
    bodies read as the same bytes give the same value and the same error,
    whatever their status lines and status codes. *)
Theorem status_code_is_not_checked c ctx w1 w2 resp1 resp2 data :
  ctx <> NilContext ->
  (forall req, answers w1 req resp1 data) ->
  (forall req, answers w2 req resp2 data) ->
  outcome (fst (GetVersion c ctx w1)) = outcome (fst (GetVersion c ctx w2))
  /\ (forall items,
        outcome (fst (CreateShipments float64 FormatFloat c ctx items w1))
        = outcome (fst (CreateShipments float64 FormatFloat c ctx items w2)))
  /\ (forall createdFrom createdTo offset,
        outcome (fst (GetMyShipments c ctx createdFrom createdTo offset w1))
        = outcome (fst (GetMyShipments c ctx createdFrom createdTo offset w2))).
Proof.
  intros Hctx H1 H2. repeat split.
  - rewrite !GetVersion_result.
    rewrite (transport_result_answers _ _ _ _ _ _ Hctx (H1 _)),
      (transport_result_answers _ _ _ _ _ _ Hctx (H2 _)).
    unfold GetVersion_decode, outcome.
    destruct (Unmarshal_SOAPResponseEnvelope data) as [env|e]; [|reflexivity].
    destruct (SOAPResponseBody_GetVersionResponse (SOAPResponseEnvelope_Body env));
      reflexivity.
  - intros items. rewrite !CreateShipments_result.
    rewrite (transport_result_answers _ _ _ _ _ _ Hctx (H1 _)),
      (transport_result_answers _ _ _ _ _ _ Hctx (H2 _)).
    unfold CreateShipments_decode, outcome.
    destruct (Unmarshal_SOAPResponseEnvelope data) as [env|e]; [|reflexivity].
    destruct (SOAPResponseBody_CreateShipmentsResponse (SOAPResponseEnvelope_Body env));
      reflexivity.
  - intros createdFrom createdTo offset. rewrite !GetMyShipments_result.
    rewrite (transport_result_answers _ _ _ _ _ _ Hctx (H1 _)),
      (transport_result_answers _ _ _ _ _ _ Hctx (H2 _)).
    unfold GetMyShipments_decode, outcome.
    destruct (Unmarshal_GetMyShipmentsEnvelope data) as [env|e]; reflexivity.
Qed.

(** X4: With a nil context no request is made: every method returns the
    error [error creating request], and nothing is sent to the peer. *)
Theorem nil_context_sends_nothing c w :
  (fst (GetVersion c NilContext w) = ([], None, Some ErrCreatingRequest)
   /\ sent (snd (GetVersion c NilContext w)) = sent w)
  /\ (forall items,
        fst (CreateShipments float64 FormatFloat c NilContext items w)
        = ([], None, Some ErrCreatingRequest)
        /\ sent (snd (CreateShipments float64 FormatFloat c NilContext items w))
           = sent w)
  /\ (forall createdFrom createdTo offset,
        fst (GetMyShipments c NilContext createdFrom createdTo offset w)
        = ([], None, Some ErrCreatingRequest)
        /\ sent (snd (GetMyShipments c NilContext createdFrom createdTo offset w))
           = sent w).
Proof.
  repeat split.
  - rewrite GetVersion_result. reflexivity.
  - rewrite GetVersion_sent. reflexivity.
  - rewrite CreateShipments_result. reflexivity.
  - rewrite CreateShipments_sent. reflexivity.
  - rewrite GetMyShipments_result. reflexivity.
  - rewrite GetMyShipments_sent. reflexivity.
Qed.

(** X5: Each call makes one request, whatever comes of it: a [POST] to the
    endpoint, with the content type [text/xml; charset=utf-8], the SOAP
    action of the operation, and the marshaled envelope as its body.
    [CreateShipment] sends the request of [CreateShipments] for the one
    shipment; an empty list of shipments is sent like any other. *)
Theorem one_request_per_call c ctx w :
  ctx <> NilContext ->
  (forall items,
     sent (snd (CreateShipments float64 FormatFloat c ctx items w))
     = sent w
       ++ [ {| Request_ctx := ctx;
               Request_Method := B "POST";
               Request_URL := Endpoint;
               Request_Header :=
                 [(B "Content-Type", B "text/xml; charset=utf-8");
                  (B "SOAPAction", Endpoint ++ B "#createShipments")];
               Request_Body := createShipments_request float64 FormatFloat c items |} ])
  /\ (forall x,
        sent (snd (CreateShipment float64 FormatFloat c ctx x w))
        = sent (snd (CreateShipments float64 FormatFloat c ctx [x] w)))
  /\ (forall createdFrom createdTo offset,
        sent (snd (GetMyShipments c ctx createdFrom createdTo offset w))
        = sent w
          ++ [ {| Request_ctx := ctx;
                  Request_Method := B "POST";
                  Request_URL := Endpoint;
                  Request_Header :=
                    [(B "Content-Type", B "text/xml; charset=utf-8");
                     (B "SOAPAction", Endpoint ++ B "#getMyShipments")];
                  Request_Body :=
                    getMyShipments_request c createdFrom createdTo offset |} ]).
Proof.
  intros Hctx. repeat split.
  - intros items. rewrite CreateShipments_sent. destruct ctx; [congruence | |]; reflexivity.
  - intros x. rewrite CreateShipment_world. reflexivity.
  - intros createdFrom createdTo offset. rewrite GetMyShipments_sent.
    destruct ctx; [congruence | |]; reflexivity.
Qed.

End Transport.

(** ** The debug files *)

(** The directory of the debug files: the configured one, or the
    directory of the executable when none is configured. *)
Definition debug_dir (c : Client) (w : World) : bytes :=
  match debugFilesDir c with
  | [] => executable_dir w
  | d => d
  end.

(** The path of the debug file written at the instant [t]. *)
Definition debug_path (c : Client) (w : World) (prefix : bytes) (t : time.Time)
  : bytes :=
  filepath_Join (debug_dir c w)
    (prefix ++ B "_" ++ time.Format t time.layout_stamp ++ B ".xml").

(** What a call leaves on the machine it runs on: the files written, the
    lines printed, and the number of readings of the clock. *)
Definition local_trace (w : World) : list (bytes * bytes) * list output * nat :=
  (files w, stdout w, ticks w).

Lemma writeDebugFile_written (c : Client) (prefix payload : bytes) (w : World) :
  can_mkdir w (debug_dir c w) = true ->
  can_write w (debug_path c w prefix (clock w (ticks w))) = true ->
  writeDebugFile c prefix payload w
  = (tt,
     mkWorld (clock w) (S (ticks w)) (peer w) (sent w) (can_mkdir w) (can_write w)
             (executable_dir w)
             (files w ++ [(debug_path c w prefix (clock w (ticks w)), payload)])
             (stdout w ++ [DebugWrote (debug_path c w prefix (clock w (ticks w)))])).
Proof.
  unfold debug_path, debug_dir, writeDebugFile, bind, ret, getExecutableDir,
    os_MkdirAll, time_Now, os_WriteFile, fmt_Printf.
  intros Hm Hw.
  destruct (debugFilesDir c) as [|d ds]; rewrite Hm; cbn [clock ticks can_write];
    rewrite Hw; reflexivity.
Qed.

Lemma writeDebugFile_no_directory (c : Client) (prefix payload : bytes) (w : World) :
  can_mkdir w (debug_dir c w) = false ->
  writeDebugFile c prefix payload w
  = (tt,
     mkWorld (clock w) (ticks w) (peer w) (sent w) (can_mkdir w) (can_write w)
             (executable_dir w) (files w)
             (stdout w ++ [WarningMkdir (debug_dir c w)])).
Proof.
  unfold debug_dir, writeDebugFile, bind, ret, getExecutableDir,
    os_MkdirAll, fmt_Printf.
  intros Hm. destruct (debugFilesDir c) as [|d ds]; rewrite Hm; reflexivity.
Qed.

Lemma transport_result_peer w1 w2 ctx body soapAction :
  peer w1 = peer w2 ->
  transport_result w1 ctx body soapAction = transport_result w2 ctx body soapAction.
Proof. intros H. unfold transport_result. rewrite H. reflexivity. Qed.

Lemma doRequest_quiet (c : Client) (ctx : Context) (body soapAction op : bytes)
      (w : World) :
  debugFiles c = false ->
  local_trace (snd (doRequest c ctx body soapAction op w)) = local_trace w.
Proof.
  intros Hd. unfold doRequest, bind, ret, http_Do. rewrite Hd.
  destruct ctx; [reflexivity | |];
    (destruct (peer w _) as [resp|err]; [|reflexivity];
     destruct (Response_Body resp); reflexivity).
Qed.

Section Debug.

Variable float64 : Type.
Variable FormatFloat : float64 -> bytes.

(** X6: What a method returns depends on the client through the user name
    and the password only, and on the world through the peer only: the
    account number, the debug settings, the file system and the clock have
    no part in it. *)
Theorem result_depends_on_credentials_and_peer_only c1 c2 ctx w1 w2 :
  authData c1 = authData c2 ->
  peer w1 = peer w2 ->
  fst (GetVersion c1 ctx w1) = fst (GetVersion c2 ctx w2)
  /\ (forall items,
        fst (CreateShipments float64 FormatFloat c1 ctx items w1)
        = fst (CreateShipments float64 FormatFloat c2 ctx items w2))
  /\ (forall x,
        fst (CreateShipment float64 FormatFloat c1 ctx x w1)
        = fst (CreateShipment float64 FormatFloat c2 ctx x w2))
  /\ (forall createdFrom createdTo offset,
        fst (GetMyShipments c1 ctx createdFrom createdTo offset w1)
        = fst (GetMyShipments c2 ctx createdFrom createdTo offset w2)).
Proof.
  intros Hc Hp.
  assert (Hs : forall items,
             fst (CreateShipments float64 FormatFloat c1 ctx items w1)
             = fst (CreateShipments float64 FormatFloat c2 ctx items w2)).
  { intros items. rewrite !CreateShipments_result.
    unfold createShipments_request, createShipments_markup.
    rewrite Hc, (transport_result_peer w1 w2 _ _ _ Hp). reflexivity. }
  repeat split.
  - rewrite !GetVersion_result, (transport_result_peer w1 w2 _ _ _ Hp). reflexivity.
  - exact Hs.
  - intros x. rewrite !CreateShipment_result, Hs. reflexivity.
  - intros createdFrom createdTo offset. rewrite !GetMyShipments_result.
    unfold getMyShipments_request, getMyShipments_markup.
    rewrite Hc, (transport_result_peer w1 w2 _ _ _ Hp). reflexivity.
Qed.

(** X7: With the debug files off, a call writes no file, prints nothing and
    does not read the clock. *)
Theorem no_debug_files_unless_enabled c ctx w :
  debugFiles c = false ->
  local_trace (snd (GetVersion c ctx w)) = local_trace w
  /\ (forall items,
        local_trace (snd (CreateShipments float64 FormatFloat c ctx items w))
        = local_trace w)
  /\ (forall x,
        local_trace (snd (CreateShipment float64 FormatFloat c ctx x w))
        = local_trace w)
  /\ (forall createdFrom createdTo offset,
        local_trace (snd (GetMyShipments c ctx createdFrom createdTo offset w))
        = local_trace w).
Proof.
  intros Hd.
  assert (Hs : forall items,
             local_trace (snd (CreateShipments float64 FormatFloat c ctx items w))
             = local_trace w).
  { intros items. rewrite CreateShipments_run. cbn [snd].
    apply doRequest_quiet, Hd. }
  repeat split.
  - unfold GetVersion. rewrite marshalSOAPRequest_spec.
    change (xml.marshalValue zero_GetVersionRequest)
      with (@Ok xml.error _ (xml.Branch (B "ns:getVersion") [] [])).
    cbv iota beta. fold getVersion_request. unfold bind.
    pose proof (doRequest_quiet c ctx getVersion_request
                  (Endpoint ++ B "#getVersion") (B "getVersion") w Hd) as Hq.
    destruct (doRequest c ctx getVersion_request (Endpoint ++ B "#getVersion")
                        (B "getVersion") w) as [[[body resp] err] w'].
    cbn [snd] in Hq.
    destruct err; [exact Hq|].
    destruct (Unmarshal_SOAPResponseEnvelope body) as [env|e]; [|exact Hq].
    destruct (SOAPResponseBody_GetVersionResponse (SOAPResponseEnvelope_Body env));
      exact Hq.
  - exact Hs.
  - intros x. rewrite CreateShipment_world. apply Hs.
  - intros createdFrom createdTo offset. rewrite GetMyShipments_run. cbn [snd].
    apply doRequest_quiet, Hd.
Qed.

End Debug.

(** X8: With the debug files on, a request that is answered leaves two files
    in the debug directory: the bytes sent, under the name of the
    operation with [_request] and the time of the first reading of the
    clock, and the bytes received, under the name with [_response] and the
    time of the second reading.  One line is printed for each. *)
Theorem debug_files_hold_request_and_response c ctx body soapAction op w resp data :
  debugFiles c = true ->
  ctx <> NilContext ->
  can_mkdir w (debug_dir c w) = true ->
  (forall path, can_write w path = true) ->
  answers w (post ctx body soapAction) resp data ->
  let request_path := debug_path c w (op ++ B "_request") (clock w (ticks w)) in
  let response_path := debug_path c w (op ++ B "_response") (clock w (S (ticks w))) in
  fst (doRequest c ctx body soapAction op w) = (data, Some resp, None)
  /\ local_trace (snd (doRequest c ctx body soapAction op w))
     = (files w ++ [(request_path, body); (response_path, data)],
        stdout w ++ [DebugWrote request_path; DebugWrote response_path],
        S (S (ticks w))).
Proof.
  intros Hd Hctx Hm Hw [Hp Hb]. cbv zeta. split.
  - rewrite doRequest_result. apply transport_result_answers; [assumption|].
    split; assumption.
  - unfold doRequest. rewrite Hd. unfold bind at 1.
    rewrite (writeDebugFile_written c _ body w Hm (Hw _)).
    assert (Hgo :
      local_trace
        (snd ((r <- http_Do (post ctx body soapAction) ;;
               match r with
               | Err err => ret ([], None, Some (ErrMakingRequest err))
               | Ok resp =>
                   match Response_Body resp with
                   | Err err => ret ([], Some resp, Some (ErrReadingResponse err))
                   | Ok respBody =>
                       writeDebugFile c (op ++ B "_response") respBody ;;;
                       ret (respBody, Some resp, None)
                   end
               end)%io
              (mkWorld (clock w) (S (ticks w)) (peer w) (sent w) (can_mkdir w)
                 (can_write w) (executable_dir w)
                 (files w
                  ++ [(debug_path c w (op ++ B "_request") (clock w (ticks w)), body)])
                 (stdout w
                  ++ [DebugWrote
                        (debug_path c w (op ++ B "_request") (clock w (ticks w)))]))))
      = (files w
         ++ [(debug_path c w (op ++ B "_request") (clock w (ticks w)), body);
             (debug_path c w (op ++ B "_response") (clock w (S (ticks w))), data)],
         stdout w
         ++ [DebugWrote (debug_path c w (op ++ B "_request") (clock w (ticks w)));
             DebugWrote (debug_path c w (op ++ B "_response") (clock w (S (ticks w))))],
         S (S (ticks w)))).
    { unfold bind at 1. unfold http_Do. cbn [peer]. rewrite Hp, Hb.
      unfold bind, ret.
      rewrite writeDebugFile_written; [ | exact Hm | apply Hw ].
      unfold local_trace. cbn [snd files stdout ticks clock].
      rewrite <- !app_assoc. reflexivity. }
    destruct ctx; [congruence | |]; exact Hgo.
Qed.

(** X9: With the debug files on and a debug directory that cannot be made,
    the request is made all the same and its answer returned; no file is
    written, the clock is not read, and a warning is printed in place of
    each of the two files. *)
Theorem debug_directory_failure_only_warns c ctx body soapAction op w resp data :
  debugFiles c = true ->
  ctx <> NilContext ->
  can_mkdir w (debug_dir c w) = false ->
  answers w (post ctx body soapAction) resp data ->
  fst (doRequest c ctx body soapAction op w) = (data, Some resp, None)
  /\ local_trace (snd (doRequest c ctx body soapAction op w))
     = (files w,
        stdout w ++ [WarningMkdir (debug_dir c w); WarningMkdir (debug_dir c w)],
        ticks w).
Proof.
  intros Hd Hctx Hm [Hp Hb]. split.
  - rewrite doRequest_result. apply transport_result_answers; [assumption|].
    split; assumption.
  - unfold doRequest. rewrite Hd. unfold bind at 1.
    rewrite (writeDebugFile_no_directory c _ body w Hm).
    assert (Hgo :
      local_trace
        (snd ((r <- http_Do (post ctx body soapAction) ;;
               match r with
               | Err err => ret ([], None, Some (ErrMakingRequest err))
               | Ok resp =>
                   match Response_Body resp with
                   | Err err => ret ([], Some resp, Some (ErrReadingResponse err))
                   | Ok respBody =>
                       writeDebugFile c (op ++ B "_response") respBody ;;;
                       ret (respBody, Some resp, None)
                   end
               end)%io
              (mkWorld (clock w) (ticks w) (peer w) (sent w) (can_mkdir w)
                 (can_write w) (executable_dir w) (files w)
                 (stdout w ++ [WarningMkdir (debug_dir c w)]))))
      = (files w,
         stdout w ++ [WarningMkdir (debug_dir c w); WarningMkdir (debug_dir c w)],
         ticks w)).
    { unfold bind at 1. unfold http_Do. cbn [peer]. rewrite Hp, Hb.
      unfold bind, ret.
      rewrite writeDebugFile_no_directory; [ | exact Hm ].
      unfold local_trace. cbn [snd files stdout ticks].
      rewrite <- !app_assoc. reflexivity. }
    destruct ctx; [congruence | |]; exact Hgo.
Qed.

(** ** No error of marshaling *)

Section Encoding.

Variable float64 : Type.
Variable FormatFloat : float64 -> bytes.


End Encoding.

(** ** Examples of the transport and of the debug files *)

Definition refused : transport_error := NetworkError (B "connection refused").

Definition cut_short : transport_error := NetworkError (B "unexpected EOF").

Definition unread_response : Response := mkResponse (B "200 OK") 200 (Err cut_short).

Definition server_error_response (data : bytes) : Response :=
  mkResponse (B "500 Internal Server Error") 500 (Ok data).

(** A client with the credentials of the sample client, another account
    number, and the debug files on. *)
Definition logging_client : Client :=
  NewClient (mkDHL24Config (B "user") (B "secret") (B "7654321") true
                           (B "/var/log/dhl")).

(** A world in which no directory can be made. *)
Definition read_only_world (data : bytes) : World :=
  mkWorld (fun _ => {| time.day_number := 19884; time.nanos := 0 |}) 0
          (fun _ => Ok (ok_response data)) [] (fun _ => false) (fun _ => false)
          (B "/opt/dhl") [] [].

Lemma transport_failure_is_returned_witness :
  fst (GetVersion sample_client Background (answering_world (Err refused)))
  = ([], None, Some (ErrMakingRequest refused))
  /\ fst (CreateShipment kilograms FormatKilograms sample_client Background sample_item
            (answering_world (Err refused)))
     = (None, None, Some (ErrMakingRequest refused)).
Proof.
  pose proof (transport_failure_is_returned kilograms FormatKilograms sample_client
                Background (answering_world (Err refused)) refused
                ltac:(discriminate) (fun _ => eq_refl)) as (Hv & _ & Hx & _).
  split; [exact Hv | exact (Hx sample_item)].
Defined.

Lemma unread_body_is_returned_with_the_response_witness :
  fst (GetVersion sample_client Background (answering_world (Ok unread_response)))
  = ([], Some unread_response, Some (ErrReadingResponse cut_short)).
Proof.
  exact (proj1 (unread_body_is_returned_with_the_response kilograms FormatKilograms
                  sample_client Background (answering_world (Ok unread_response))
                  unread_response cut_short ltac:(discriminate) (fun _ => eq_refl)
                  eq_refl)).
Defined.

Lemma status_code_is_not_checked_witness :
  outcome (fst (GetVersion sample_client Background
                  (replying_world 19884 version_document)))
  = outcome (fst (GetVersion sample_client Background
                    (answering_world (Ok (server_error_response version_document)))))
  /\ outcome (fst (GetVersion sample_client Background
                     (answering_world (Ok (server_error_response version_document)))))
     = (B "2.13.3", None).
Proof.
  split; [|vm_compute; reflexivity].
  exact (proj1 (status_code_is_not_checked kilograms FormatKilograms sample_client
                  Background (replying_world 19884 version_document)
                  (answering_world (Ok (server_error_response version_document)))
                  (ok_response version_document)
                  (server_error_response version_document) version_document
                  ltac:(discriminate)
                  (fun _ => conj eq_refl eq_refl) (fun _ => conj eq_refl eq_refl))).
Defined.

Lemma one_request_per_call_witness :
  map Request_Method
      (sent (snd (CreateShipments kilograms FormatKilograms sample_client Background []
                    (replying_world 19884 empty_body_document))))
  = [B "POST"].
Proof.
  rewrite (proj1 (one_request_per_call kilograms FormatKilograms sample_client
                    Background (replying_world 19884 empty_body_document)
                    ltac:(discriminate)) []).
  reflexivity.
Defined.

Lemma result_depends_on_credentials_and_peer_only_witness :
  fst (CreateShipments kilograms FormatKilograms sample_client Background [sample_item]
         (replying_world 19884 two_confirmations_document))
  = fst (CreateShipments kilograms FormatKilograms logging_client Background
           [sample_item] (read_only_world two_confirmations_document)).
Proof.
  exact (proj1 (proj2 (result_depends_on_credentials_and_peer_only kilograms FormatKilograms
                  sample_client logging_client Background
                  (replying_world 19884 two_confirmations_document)
                  (read_only_world two_confirmations_document) eq_refl eq_refl))
               [sample_item]).
Defined.

Lemma no_debug_files_unless_enabled_witness :
  local_trace (snd (GetVersion sample_client Background
                      (replying_world 19884 version_document)))
  = ([], [], 0%nat).
Proof.
  exact (proj1 (no_debug_files_unless_enabled kilograms FormatKilograms sample_client
                  Background (replying_world 19884 version_document) eq_refl)).
Defined.

Lemma debug_files_hold_request_and_response_witness :
  files (snd (doRequest logging_client Background getVersion_request
                (Endpoint ++ B "#getVersion") (B "getVersion")
                (replying_world 19884 version_document)))
  = [(B "/var/log/dhl/getVersion_request_20240610_000000.000.xml", getVersion_request);
     (B "/var/log/dhl/getVersion_response_20240610_000000.000.xml", version_document)].
Proof.
  pose proof (debug_files_hold_request_and_response logging_client Background
                getVersion_request (Endpoint ++ B "#getVersion") (B "getVersion")
                (replying_world 19884 version_document)
                (ok_response version_document) version_document
                eq_refl ltac:(discriminate) eq_refl (fun _ => eq_refl)
                (conj eq_refl eq_refl)) as [_ H].
  exact (f_equal (fun t => fst (fst t)) H).
Defined.

Lemma debug_directory_failure_only_warns_witness :
  local_trace (snd (doRequest logging_client Background getVersion_request
                      (Endpoint ++ B "#getVersion") (B "getVersion")
                      (read_only_world version_document)))
  = ([], [WarningMkdir (B "/var/log/dhl"); WarningMkdir (B "/var/log/dhl")], 0%nat).
Proof.
  exact (proj2 (debug_directory_failure_only_warns logging_client Background
                  getVersion_request (Endpoint ++ B "#getVersion") (B "getVersion")
                  (read_only_world version_document)
                  (ok_response version_document) version_document
                  eq_refl ltac:(discriminate) eq_refl (conj eq_refl eq_refl))).
Defined.

(** * Further properties of the requests *)

(** ** Requests are well-formed, whatever their text *)

Lemma find_envelope (inner : bytes) (f : nat) :
  (3 <= f)%nat ->
  xml.find_root f (xml.Header ++ envelope_start_tag ++ inner)
  = Ok (envelope_name, envelope_attrs, false, inner).
Proof.
  intros Hf. destruct f as [|[|[|f]]]; try lia.
  cbn [xml.find_root]. rewrite rawToken_declaration.
  change (newline_byte :: envelope_start_tag ++ inner)
    with (xml.newline_indent (B "  ") 0
          ++ "<"%char :: tl envelope_start_tag ++ inner).
  rewrite rawToken_indent.
  change ("<"%char :: tl envelope_start_tag ++ inner)
    with (envelope_start_tag ++ inner).
  rewrite rawToken_envelope_start. reflexivity.
Qed.

Lemma prolog_envelope (inner : bytes) (f : nat) :
  (3 <= f)%nat ->
  prolog f (xml.Header ++ envelope_start_tag ++ inner) = true.
Proof.
  intros Hf. destruct f as [|[|[|f]]]; try lia.
  cbn [prolog]. rewrite rawToken_declaration. cbn [is_misc andb].
  change (newline_byte :: envelope_start_tag ++ inner)
    with (xml.newline_indent (B "  ") 0
          ++ "<"%char :: tl envelope_start_tag ++ inner).
  rewrite rawToken_indent.
  change ("<"%char :: tl envelope_start_tag ++ inner)
    with (envelope_start_tag ++ inner).
  change (is_misc (xml.CharData (xml.newline_indent (B "  ") 0))) with true.
  cbn [andb]. rewrite rawToken_envelope_start. reflexivity.
Qed.

(** The request around a payload without attributes parses to the image
    of its markup, and nothing is left after the envelope. *)
Lemma parse_root_envelope (m : xml.Markup) :
  plain m = true ->
  xml.parse_root (xml.Header ++ xml.render (B "  ") 0 (envelope_markup m))
  = Ok (envelope_image m, [])
  /\ well_formed (xml.Header ++ xml.render (B "  ") 0 (envelope_markup m)) = true.
Proof.
  intros Hp.
  assert (Hall : Forall parses [header_markup; body_markup m]).
  { repeat (apply Forall_cons; [apply parse_markup|]); [reflexivity| |apply Forall_nil].
    cbn [body_markup plain forallb]. rewrite Hp. reflexivity. }
  assert (Hlen : (tokens_list [header_markup; body_markup m]
                  <= List.length (kids_text 0 [header_markup; body_markup m]))%nat).
  { apply tokens_list_le_length.
    repeat (apply Forall_cons; [intros d; apply tokens_le_length|]). apply Forall_nil. }
  assert (Hroot :
    xml.parse_root (xml.Header ++ xml.render (B "  ") 0 (envelope_markup m))
    = Ok (envelope_image m, [])).
  { unfold xml.parse_root. rewrite render_envelope.
    rewrite find_envelope
      by (rewrite length_app; change (List.length xml.Header) with 39%nat; lia).
    cbn [rbind].
    change envelope_name with (name_of (B "soapenv:Envelope")).
    rewrite (parse_kids _ Hall 0%nat (B "soapenv:Envelope") []).
    - reflexivity.
    - reflexivity.
    - rewrite !length_app. unfold xml.newline_indent. cbn [List.length]. lia. }
  split; [exact Hroot|].
  unfold well_formed. rewrite Hroot.
  rewrite render_envelope, prolog_envelope
    by (rewrite length_app; change (List.length xml.Header) with 39%nat; lia).
  reflexivity.
Qed.

Lemma plain_getMyShipments (c : Client) (createdFrom createdTo : bytes) (offset : Z) :
  plain (getMyShipments_markup c createdFrom createdTo offset) = true.
Proof. reflexivity. Qed.

(** X11: Whatever bytes the credentials, the dates and the fields of the
    shipments hold, the request of each operation is a well-formed
    document, and the decoder reads it as the element tree of its markup:
    one element for each field written, holding the text of the field
    (with U+FFFD for what is not an XML character) and no element of its
    own.  No text of a field is read as markup. *)
Theorem requests_are_well_formed
        (float64 : Type) (FormatFloat : float64 -> bytes) (c : Client) :
  (well_formed getVersion_request = true
   /\ xml.parse_root getVersion_request
      = Ok (envelope_image (xml.Branch (B "ns:getVersion") [] []), []))
  /\ (forall items,
        well_formed (createShipments_request float64 FormatFloat c items) = true
        /\ xml.parse_root (createShipments_request float64 FormatFloat c items)
           = Ok (envelope_image (createShipments_markup float64 FormatFloat c items),
                 []))
  /\ (forall createdFrom createdTo offset,
        well_formed (getMyShipments_request c createdFrom createdTo offset) = true
        /\ xml.parse_root (getMyShipments_request c createdFrom createdTo offset)
           = Ok (envelope_image (getMyShipments_markup c createdFrom createdTo offset),
                 [])).
Proof.
  split; [|split].
  - destruct (parse_root_envelope (xml.Branch (B "ns:getVersion") [] []) eq_refl)
      as [Hr Hw].
    split; assumption.
  - intros items.
    destruct (parse_root_envelope _ (plain_createShipments float64 FormatFloat c items))
      as [Hr Hw].
    split; assumption.
  - intros createdFrom createdTo offset.
    destruct (parse_root_envelope _ (plain_getMyShipments c createdFrom createdTo offset))
      as [Hr Hw].
    split; assumption.
Qed.

(** ** What the encoding loses *)

Lemma sanitize_ok (s : bytes) : text_ok (sanitize s).
Proof. apply escape_sanitize_text. Qed.

Lemma sanitize_idempotent (s : bytes) : sanitize (sanitize s) = sanitize s.
Proof. apply sanitize_valid, sanitize_ok. Qed.

Lemma EscapeText_sanitize (s : bytes) :
  xml.EscapeText (sanitize s) = xml.EscapeText s.
Proof.
  destruct (escape_sanitize_text s) as (He & _).
  destruct (escape_sanitize_text (sanitize s)) as (He' & _).
  rewrite He', He, sanitize_idempotent. reflexivity.
Qed.

(** Two markup trees the printer writes as the same bytes. *)
Definition same_render (m1 m2 : xml.Markup) : Prop :=
  forall depth, xml.render (B "  ") depth m1 = xml.render (B "  ") depth m2.

Lemma same_render_refl (m : xml.Markup) : same_render m m.
Proof. intros depth. reflexivity. Qed.

Lemma same_render_all_refl (l : list xml.Markup) : Forall2 same_render l l.
Proof. induction l; constructor; [apply same_render_refl | assumption]. Qed.

Lemma same_render_leaf (name text : bytes) :
  same_render (xml.Leaf name (sanitize text)) (xml.Leaf name text).
Proof. intros depth. cbn [xml.render]. rewrite EscapeText_sanitize. reflexivity. Qed.

Lemma same_render_kids (k1 k2 : list xml.Markup) (depth : nat) :
  Forall2 same_render k1 k2 -> kids_text depth k1 = kids_text depth k2.
Proof.
  induction 1 as [|m1 m2 l1 l2 Hm _ IH]; [reflexivity|].
  cbn [kids_text flat_map]. fold (kids_text depth l1). fold (kids_text depth l2).
  rewrite (Hm (S depth)), IH. reflexivity.
Qed.

Lemma same_render_branch (name : bytes) (attrs : list (bytes * bytes))
      (k1 k2 : list xml.Markup) :
  Forall2 same_render k1 k2 ->
  same_render (xml.Branch name attrs k1) (xml.Branch name attrs k2).
Proof.
  intros H depth. cbn [xml.render].
  pose proof (same_render_kids k1 k2 depth H) as Hk.
  destruct H as [|m1 m2 l1 l2 Hm Hl]; [reflexivity|].
  fold (kids_text depth (m1 :: l1)). fold (kids_text depth (m2 :: l2)).
  rewrite Hk. reflexivity.
Qed.

Lemma same_render_string_elem (tag text : bytes) :
  Forall2 same_render (xml.string_elem tag (sanitize text)) (xml.string_elem tag text).
Proof. repeat constructor. apply same_render_leaf. Qed.

Lemma same_render_omitempty_elem (tag text : bytes) :
  Forall2 same_render (xml.omitempty_elem tag (sanitize text))
          (xml.omitempty_elem tag text).
Proof.
  destruct text as [|c text']; [constructor|].
  pose proof (sanitize_nonempty (c :: text') ltac:(discriminate)) as Hne.
  pose proof (same_render_leaf tag (c :: text')) as Hl.
  destruct (sanitize (c :: text')) as [|c' s']; [congruence|].
  repeat constructor. exact Hl.
Qed.

Lemma same_render_struct_elem (tag : bytes) (k1 k2 : list xml.Markup) :
  Forall2 same_render k1 k2 ->
  Forall2 same_render (xml.struct_elem tag k1) (xml.struct_elem tag k2).
Proof. intros H. repeat constructor. apply same_render_branch, H. Qed.

Lemma same_render_slice_elem {U} (tag : bytes) (f : U -> list xml.Markup)
      (clean : U -> U) (l : list U) :
  (forall u, Forall2 same_render (f (clean u)) (f u)) ->
  Forall2 same_render (xml.slice_elem tag f (map clean l)) (xml.slice_elem tag f l).
Proof.
  intros Hf. induction l as [|u l IH]; [constructor|].
  unfold xml.slice_elem. cbn [map flat_map xml.struct_elem app].
  constructor; [apply same_render_branch, Hf | exact IH].
Qed.

(** The value with each of its strings sanitized. *)
Definition clean_Address (a : Address) : Address :=
  mkAddress (sanitize (Address_Country a)) (sanitize (Address_Name a))
            (sanitize (Address_PostalCode a)) (sanitize (Address_City a))
            (sanitize (Address_Street a)) (sanitize (Address_HouseNumber a))
            (sanitize (Address_ApartmentNumber a)) (sanitize (Address_ContactPerson a))
            (sanitize (Address_ContactPhone a)) (sanitize (Address_ContactEmail a)).

Definition clean_Payment (p : Payment) : Payment :=
  mkPayment (sanitize (Payment_PaymentType p)) (sanitize (Payment_PayerType p))
            (sanitize (Payment_AccountNumber p)) (sanitize (Payment_PaymentMethod p)).

Definition clean_Service (s : Service) : Service :=
  mkService (sanitize (Service_Product s)).

Lemma same_render_Address (a : Address) :
  Forall2 same_render (marshal_Address (clean_Address a)) (marshal_Address a).
Proof.
  unfold marshal_Address, clean_Address.
  cbn [Address_Country Address_Name Address_PostalCode Address_City Address_Street
       Address_HouseNumber Address_ApartmentNumber Address_ContactPerson
       Address_ContactPhone Address_ContactEmail].
  repeat first [ apply Forall2_app
               | apply same_render_string_elem
               | apply same_render_omitempty_elem ].
Qed.

Lemma same_render_Payment (p : Payment) :
  Forall2 same_render (marshal_Payment (clean_Payment p)) (marshal_Payment p).
Proof.
  unfold marshal_Payment, clean_Payment.
  cbn [Payment_PaymentType Payment_PayerType Payment_AccountNumber
       Payment_PaymentMethod].
  repeat first [ apply Forall2_app | apply same_render_string_elem ].
Qed.

Lemma same_render_Service (s : Service) :
  Forall2 same_render (marshal_Service (clean_Service s)) (marshal_Service s).
Proof. apply same_render_string_elem. Qed.

Lemma Address_ok_clean (a : Address) : Address_ok (clean_Address a).
Proof. repeat constructor; apply sanitize_ok. Qed.

Lemma Payment_ok_clean (p : Payment) : Payment_ok (clean_Payment p).
Proof. repeat constructor; apply sanitize_ok. Qed.

Section Loss.

Variable float64 : Type.
Variable FormatFloat : float64 -> bytes.
Variable ParseFloat : bytes -> option float64.
Variable float_zero : float64.

Definition clean_Piece (p : Piece float64) : Piece float64 :=
  mkPiece (sanitize (Piece_Type float64 p)) (Piece_Quantity float64 p)
          (Piece_Weight float64 p).

Definition clean_ShipmentItem (s : ShipmentItem float64) : ShipmentItem float64 :=
  mkShipmentItem
    (clean_Address (ShipmentItem_Shipper float64 s))
    (clean_Address (ShipmentItem_Receiver float64 s))
    (mkPieceList (map clean_Piece
                      (PieceList_Items float64 (ShipmentItem_PieceList float64 s))))
    (clean_Payment (ShipmentItem_Payment float64 s))
    (clean_Service (ShipmentItem_Service float64 s))
    (sanitize (ShipmentItem_ShipmentDate float64 s))
    (ShipmentItem_SkipRestrictionCheck float64 s)
    (sanitize (ShipmentItem_Comment float64 s))
    (sanitize (ShipmentItem_Content float64 s)).

(** The numbers of a shipment are within what the wire carries: its
    quantities in the range of [int64], its weights written as text that
    reads back. *)
Definition numbers_ok (s : ShipmentItem float64) : Prop :=
  Forall (fun p => - 2 ^ 63 <= Piece_Quantity float64 p < 2 ^ 63
                   /\ weight_ok float64 FormatFloat ParseFloat
                                (Piece_Weight float64 p))
         (PieceList_Items float64 (ShipmentItem_PieceList float64 s)).

Lemma same_render_Piece (p : Piece float64) :
  Forall2 same_render (marshal_Piece float64 FormatFloat (clean_Piece p))
          (marshal_Piece float64 FormatFloat p).
Proof.
  unfold marshal_Piece, clean_Piece. cbn [Piece_Type Piece_Quantity Piece_Weight].
  apply Forall2_app; [apply same_render_string_elem | apply same_render_all_refl].
Qed.

Lemma same_render_ShipmentItem (s : ShipmentItem float64) :
  Forall2 same_render (marshal_ShipmentItem float64 FormatFloat (clean_ShipmentItem s))
          (marshal_ShipmentItem float64 FormatFloat s).
Proof.
  unfold marshal_ShipmentItem, clean_ShipmentItem, marshal_PieceList.
  cbn [ShipmentItem_Shipper ShipmentItem_Receiver ShipmentItem_PieceList
       ShipmentItem_Payment ShipmentItem_Service ShipmentItem_ShipmentDate
       ShipmentItem_SkipRestrictionCheck ShipmentItem_Comment ShipmentItem_Content
       PieceList_Items].
  repeat first [ apply same_render_Address
               | apply same_render_Payment
               | apply same_render_Service
               | apply (same_render_slice_elem (B "item")
                          (marshal_Piece float64 FormatFloat) clean_Piece),
                       same_render_Piece
               | apply same_render_string_elem
               | apply same_render_struct_elem
               | apply same_render_all_refl
               | apply Forall2_app ].
Qed.

Lemma same_request_clean (c : Client) (items : list (ShipmentItem float64)) :
  createShipments_request float64 FormatFloat c (map clean_ShipmentItem items)
  = createShipments_request float64 FormatFloat c items.
Proof.
  unfold createShipments_request. f_equal.
  apply same_render_branch.
  repeat first [ apply Forall2_cons | apply Forall2_nil | apply same_render_refl ].
  apply same_render_branch.
  repeat first [ apply Forall2_cons | apply Forall2_nil ].
  unfold createShipments_markup. apply same_render_branch.
  apply Forall2_app; [apply same_render_all_refl|].
  apply same_render_struct_elem.
  unfold marshal_Shipments. cbn [Shipments_Items].
  apply (same_render_slice_elem (B "item") (marshal_ShipmentItem float64 FormatFloat)
           clean_ShipmentItem), same_render_ShipmentItem.
Qed.

Lemma ShipmentItem_ok_clean (s : ShipmentItem float64) :
  numbers_ok s ->
  ShipmentItem_ok float64 FormatFloat ParseFloat (clean_ShipmentItem s).
Proof.
  intros H. unfold ShipmentItem_ok, clean_ShipmentItem.
  cbn [ShipmentItem_Shipper ShipmentItem_Receiver ShipmentItem_PieceList
       ShipmentItem_Payment ShipmentItem_Service ShipmentItem_ShipmentDate
       ShipmentItem_Comment ShipmentItem_Content PieceList_Items].
  repeat split;
    try apply Address_ok_clean; try apply Payment_ok_clean; try apply sanitize_ok.
  - unfold numbers_ok in H.
    induction H as [|p l [Hq Hw] _ IH]; [constructor|].
    cbn [map]. constructor; [|exact IH].
    unfold Piece_ok, clean_Piece. cbn [Piece_Type Piece_Quantity Piece_Weight].
    repeat split; try apply sanitize_ok; try lia; apply Hw.
  - repeat constructor; apply sanitize_ok.
Qed.

(** X12: All that the encoding of a shipment loses is what is not an XML
    character: for shipments whose numbers are within what the wire
    carries, and whatever bytes their strings hold, the request is read
    back as the shipments with each string sanitized, that is with U+FFFD
    in place of every ill-encoded byte and of every character out of the
    XML range; and sanitizing the shipments first changes no byte of the
    request. *)
Theorem encoding_loses_only_invalid_characters
        (c : Client) (items : list (ShipmentItem float64)) :
  Forall numbers_ok items ->
  Unmarshal_shipments float64 ParseFloat float_zero
    (createShipments_request float64 FormatFloat c items)
  = Ok (map clean_ShipmentItem items)
  /\ createShipments_request float64 FormatFloat c (map clean_ShipmentItem items)
     = createShipments_request float64 FormatFloat c items.
Proof.
  intros H. split; [|apply same_request_clean].
  rewrite <- same_request_clean. apply read_request.
  induction H as [|s l Hs _ IH]; [constructor|].
  cbn [map]. constructor; [apply ShipmentItem_ok_clean, Hs | exact IH].
Qed.

End Loss.

Lemma encoding_loses_only_invalid_characters_witness :
  Unmarshal_shipments kilograms ParseKilograms 0
    (createShipments_request kilograms FormatKilograms sample_client [control_item])
  = Ok [clean_ShipmentItem kilograms control_item]
  /\ ShipmentItem_Comment kilograms (clean_ShipmentItem kilograms control_item)
     = replacement_text.
Proof.
  split; [|vm_compute; reflexivity].
  refine (proj1 (encoding_loses_only_invalid_characters kilograms FormatKilograms
                   ParseKilograms 0 sample_client [control_item] _)).
  repeat first [ split | apply Forall_cons | apply Forall_nil ];
    first [ vm_compute; reflexivity | vm_compute; discriminate | lia ].
Defined.

(** * Further properties of the responses *)

(** ** The response types on the wire

    What [xml.MarshalIndent] writes for the response types of
    [types.go], by their struct tags.  A nil pointer is left out. *)

Definition pointer_elem {U} (tag : bytes) (f : U -> list xml.Markup) (o : option U)
  : list xml.Markup :=
  match o with
  | None => []
  | Some u => xml.struct_elem tag (f u)
  end.

Definition marshal_GetVersionResponse (r : GetVersionResponse) : list xml.Markup :=
  xml.string_elem (B "getVersionResult") (GetVersionResponse_Version r).

Definition marshal_CreatedShipment (s : CreatedShipment) : list xml.Markup :=
  xml.string_elem (B "shipmentId") (CreatedShipment_ShipmentID s)
  ++ xml.omitempty_elem (B "shipmentNo") (CreatedShipment_ShipmentNo s)
  ++ xml.omitempty_elem (B "orderStatus") (CreatedShipment_OrderStatus s).

Definition marshal_CreateShipmentsResult (r : CreateShipmentsResult)
  : list xml.Markup :=
  xml.slice_elem (B "item") marshal_CreatedShipment (CreateShipmentsResult_Items r).

Definition marshal_CreateShipmentsResponse (r : CreateShipmentsResponse)
  : list xml.Markup :=
  xml.struct_elem (B "createShipmentsResult")
    (marshal_CreateShipmentsResult (CreateShipmentsResponse_Result r)).

Definition marshal_AddressInfo (a : AddressInfo) : list xml.Markup :=
  xml.string_elem (B "name") (AddressInfo_Name a)
  ++ xml.string_elem (B "postalCode") (AddressInfo_PostalCode a)
  ++ xml.string_elem (B "city") (AddressInfo_City a)
  ++ xml.string_elem (B "street") (AddressInfo_Street a)
  ++ xml.string_elem (B "houseNumber") (AddressInfo_HouseNumber a)
  ++ xml.string_elem (B "apartmentNumber") (AddressInfo_ApartmentNumber a)
  ++ xml.string_elem (B "contactPerson") (AddressInfo_ContactPerson a)
  ++ xml.string_elem (B "contactPhone") (AddressInfo_ContactPhone a)
  ++ xml.string_elem (B "contactEmail") (AddressInfo_ContactEmail a).

Definition marshal_ShipmentBasicData (s : ShipmentBasicData) : list xml.Markup :=
  xml.string_elem (B "shipmentId") (ShipmentBasicData_ShipmentID s)
  ++ xml.string_elem (B "created") (ShipmentBasicData_Created s)
  ++ xml.struct_elem (B "shipper") (marshal_AddressInfo (ShipmentBasicData_Shipper s))
  ++ xml.struct_elem (B "receiver") (marshal_AddressInfo (ShipmentBasicData_Receiver s))
  ++ xml.string_elem (B "orderStatus") (ShipmentBasicData_OrderStatus s).

Definition marshal_GetMyShipmentsResult (r : GetMyShipmentsResult)
  : list xml.Markup :=
  xml.slice_elem (B "item") marshal_ShipmentBasicData (GetMyShipmentsResult_Items r).

Definition marshal_GetMyShipmentsResponse (r : GetMyShipmentsResponse)
  : list xml.Markup :=
  xml.struct_elem (B "getMyShipmentsResult")
    (marshal_GetMyShipmentsResult (GetMyShipmentsResponse_Result r)).

Definition marshal_SOAPResponseBody (b : SOAPResponseBody) : list xml.Markup :=
  pointer_elem (B "getVersionResponse") marshal_GetVersionResponse
               (SOAPResponseBody_GetVersionResponse b)
  ++ pointer_elem (B "createShipmentsResponse") marshal_CreateShipmentsResponse
                  (SOAPResponseBody_CreateShipmentsResponse b)
  ++ pointer_elem (B "getMyShipmentsResponse") marshal_GetMyShipmentsResponse
                  (SOAPResponseBody_GetMyShipmentsResponse b).

Definition marshal_GetMyShipmentsBody (b : GetMyShipmentsBody) : list xml.Markup :=
  xml.struct_elem (B "getMyShipmentsResponse")
    (marshal_GetMyShipmentsResponse (GetMyShipmentsBody_Response b)).

(** The element is named by the tag of [XMLName], whatever the field
    holds. *)
#[global] Instance Marshaler_SOAPResponseEnvelope : xml.Marshaler SOAPResponseEnvelope :=
  fun e =>
    Ok (xml.Branch (B "Envelope") []
          (xml.struct_elem (B "Body")
             (marshal_SOAPResponseBody (SOAPResponseEnvelope_Body e)))).

#[global] Instance Marshaler_GetMyShipmentsEnvelope
  : xml.Marshaler GetMyShipmentsEnvelope :=
  fun e =>
    Ok (xml.Branch (B "Envelope") []
          (xml.struct_elem (B "Body")
             (marshal_GetMyShipmentsBody (GetMyShipmentsEnvelope_Body e)))).

(** ** Reading a marshaled document *)

(** A document that is one element without attributes parses to its
    image. *)
Lemma parse_plain_document (name : bytes) (kids : list xml.Markup) :
  plain (xml.Branch name [] kids) = true ->
  xml.parse_document (xml.render (B "  ") 0 (xml.Branch name [] kids))
  = Ok (image 0 (xml.Branch name [] kids)).
Proof.
  intros Hp. cbn [plain] in Hp.
  apply andb_true_iff in Hp as [Hok Hkids]. rewrite andb_true_r in Hok.
  assert (Hall : Forall parses kids).
  { rewrite forallb_forall in Hkids. apply Forall_forall.
    intros k Hk. apply parse_markup, Hkids, Hk. }
  assert (Hlen : forall d, (tokens_list kids <= List.length (kids_text d kids))%nat).
  { apply tokens_list_le_length. apply Forall_forall.
    intros k _ d. apply tokens_le_length. }
  unfold xml.parse_document, xml.parse_root.
  rewrite image_branch. cbn [xml.render].
  set (inner := match kids with
                | [] => []
                | _ :: _ => kids_text 0 kids ++ xml.newline_indent (B "  ") 0
                end ++ xml.end_tag name).
  assert (Hfind : forall f, xml.find_root (S f) (xml.start_tag name [] ++ inner)
                            = Ok (name_of name, [], false, inner)).
  { intros f. cbn [xml.find_root]. rewrite (rawToken_start_tag _ _ Hok). reflexivity. }
  rewrite Hfind. cbn [rbind]. unfold inner, content.
  destruct kids as [|k ks].
  - cbn [app]. rewrite <- (app_nil_r (xml.end_tag name)).
    rewrite (parse_end_tag _ _ _ Hok). reflexivity.
  - rewrite <- app_assoc.
    rewrite <- (app_nil_r (xml.end_tag name)).
    rewrite (parse_kids _ Hall 0%nat name []); [reflexivity | exact Hok |].
    rewrite !length_app. specialize (Hlen 0%nat).
    unfold xml.newline_indent. cbn [List.length]. lia.
Qed.

Section PointerStep.

Context {T : Type} (tbl : xml.fields T).

Lemma decode_pointer_elem {U} (sub : xml.fields U) (get : T -> option U)
      (set : option U -> T -> T) (zero : U) (f : U -> list xml.Markup)
      (tag : bytes) (o : option U) (more : list xml.Markup) (depth : nat) (v : T) :
  xml.lookup_field tbl (xml.Local (name_of tag))
  = Some (xml.pointer_field get set zero sub) ->
  get v = None ->
  (forall u, o = Some u ->
             xml.unmarshal_struct sub zero (elements (S depth) (f u)) = Ok u) ->
  xml.unmarshal_struct tbl v (elements depth (pointer_elem tag f o ++ more))
  = xml.unmarshal_struct tbl
      (match o with Some u => set (Some u) v | None => v end)
      (elements depth more).
Proof.
  intros Hl Hg Hu. destruct o as [u|]; [|reflexivity].
  unfold pointer_elem. rewrite (decode_branch _ _ _ _ _ _ _ Hl).
  unfold xml.pointer_field. rewrite Hg, unmarshal_content, (Hu u eq_refl).
  reflexivity.
Qed.

End PointerStep.

(** Values whose strings are XML character data as they stand. *)
Definition CreatedShipment_ok (s : CreatedShipment) : Prop :=
  Forall text_ok [CreatedShipment_ShipmentID s; CreatedShipment_ShipmentNo s;
                  CreatedShipment_OrderStatus s].

Definition AddressInfo_ok (a : AddressInfo) : Prop :=
  Forall text_ok
    [AddressInfo_Name a; AddressInfo_PostalCode a; AddressInfo_City a;
     AddressInfo_Street a; AddressInfo_HouseNumber a; AddressInfo_ApartmentNumber a;
     AddressInfo_ContactPerson a; AddressInfo_ContactPhone a;
     AddressInfo_ContactEmail a].

Definition ShipmentBasicData_ok (s : ShipmentBasicData) : Prop :=
  Forall text_ok [ShipmentBasicData_ShipmentID s; ShipmentBasicData_Created s;
                  ShipmentBasicData_OrderStatus s]
  /\ AddressInfo_ok (ShipmentBasicData_Shipper s)
  /\ AddressInfo_ok (ShipmentBasicData_Receiver s).

Definition GetMyShipmentsResponse_ok (r : GetMyShipmentsResponse) : Prop :=
  Forall ShipmentBasicData_ok
         (GetMyShipmentsResult_Items (GetMyShipmentsResponse_Result r)).

Definition SOAPResponseBody_ok (b : SOAPResponseBody) : Prop :=
  (forall r, SOAPResponseBody_GetVersionResponse b = Some r ->
             text_ok (GetVersionResponse_Version r))
  /\ (forall r, SOAPResponseBody_CreateShipmentsResponse b = Some r ->
                Forall CreatedShipment_ok
                       (CreateShipmentsResult_Items (CreateShipmentsResponse_Result r)))
  /\ (forall r, SOAPResponseBody_GetMyShipmentsResponse b = Some r ->
                GetMyShipmentsResponse_ok r).

Lemma decode_GetVersionResponse (r : GetVersionResponse) (depth : nat) :
  text_ok (GetVersionResponse_Version r) ->
  xml.unmarshal_struct fields_GetVersionResponse zero_GetVersionResponse
    (elements depth (marshal_GetVersionResponse r))
  = Ok r.
Proof.
  destruct r as [version]. unfold marshal_GetVersionResponse.
  cbn [GetVersionResponse_Version]. intros H.
  rewrite <- (app_nil_r (xml.string_elem _ _)). string_step. reflexivity.
Qed.

Lemma decode_CreatedShipment (s : CreatedShipment) (depth : nat) :
  CreatedShipment_ok s ->
  xml.unmarshal_struct fields_CreatedShipment zero_CreatedShipment
    (elements depth (marshal_CreatedShipment s))
  = Ok s.
Proof.
  destruct s as [shipmentId shipmentNo orderStatus].
  unfold CreatedShipment_ok, marshal_CreatedShipment.
  cbn [CreatedShipment_ShipmentID CreatedShipment_ShipmentNo
       CreatedShipment_OrderStatus].
  intros H. forall_inv H.
  rewrite <- (app_nil_r (xml.omitempty_elem (B "orderStatus") orderStatus)).
  string_step. do 2 omitempty_step.
  destruct shipmentNo, orderStatus; reflexivity.
Qed.

Lemma decode_CreateShipmentsResponse (r : CreateShipmentsResponse) (depth : nat) :
  Forall CreatedShipment_ok
         (CreateShipmentsResult_Items (CreateShipmentsResponse_Result r)) ->
  xml.unmarshal_struct fields_CreateShipmentsResponse zero_CreateShipmentsResponse
    (elements depth (marshal_CreateShipmentsResponse r))
  = Ok r.
Proof.
  destruct r as [[items]]. unfold marshal_CreateShipmentsResponse.
  cbn [CreateShipmentsResponse_Result CreateShipmentsResult_Items]. intros H.
  rewrite <- (app_nil_r (xml.struct_elem _ _)).
  erewrite decode_struct_elem; cycle 1.
  - reflexivity.
  - unfold marshal_CreateShipmentsResult. cbn [CreateShipmentsResult_Items].
    rewrite <- (app_nil_r (xml.slice_elem _ _ _)).
    erewrite decode_slice_elem; cycle 1.
    + reflexivity.
    + intros x []; reflexivity.
    + intros x y []; reflexivity.
    + intros []; reflexivity.
    + eapply Forall_impl; [|exact H]. intros s Hs. apply decode_CreatedShipment, Hs.
    + reflexivity.
  - reflexivity.
Qed.

Lemma decode_AddressInfo (a : AddressInfo) (depth : nat) :
  AddressInfo_ok a ->
  xml.unmarshal_struct fields_AddressInfo zero_AddressInfo
    (elements depth (marshal_AddressInfo a))
  = Ok a.
Proof.
  destruct a as [name postalCode city street houseNumber apartmentNumber
                 contactPerson contactPhone contactEmail].
  unfold AddressInfo_ok, marshal_AddressInfo.
  cbn [AddressInfo_Name AddressInfo_PostalCode AddressInfo_City AddressInfo_Street
       AddressInfo_HouseNumber AddressInfo_ApartmentNumber AddressInfo_ContactPerson
       AddressInfo_ContactPhone AddressInfo_ContactEmail].
  intros H. forall_inv H.
  rewrite <- (app_nil_r (xml.string_elem (B "contactEmail") contactEmail)).
  do 9 string_step. reflexivity.
Qed.

Lemma decode_ShipmentBasicData (s : ShipmentBasicData) (depth : nat) :
  ShipmentBasicData_ok s ->
  xml.unmarshal_struct fields_ShipmentBasicData zero_ShipmentBasicData
    (elements depth (marshal_ShipmentBasicData s))
  = Ok s.
Proof.
  destruct s as [shipmentId created shipper receiver orderStatus].
  unfold ShipmentBasicData_ok, marshal_ShipmentBasicData.
  cbn [ShipmentBasicData_ShipmentID ShipmentBasicData_Created
       ShipmentBasicData_Shipper ShipmentBasicData_Receiver
       ShipmentBasicData_OrderStatus].
  intros (H & Hs & Hr). forall_inv H.
  rewrite <- (app_nil_r (xml.string_elem (B "orderStatus") orderStatus)).
  do 2 string_step.
  erewrite decode_struct_elem; [ | reflexivity | apply decode_AddressInfo, Hs ].
  erewrite decode_struct_elem; [ | reflexivity | apply decode_AddressInfo, Hr ].
  string_step. reflexivity.
Qed.

Lemma decode_GetMyShipmentsResponse (r : GetMyShipmentsResponse) (depth : nat) :
  GetMyShipmentsResponse_ok r ->
  xml.unmarshal_struct fields_GetMyShipmentsResponse zero_GetMyShipmentsResponse
    (elements depth (marshal_GetMyShipmentsResponse r))
  = Ok r.
Proof.
  destruct r as [[items]].
  unfold GetMyShipmentsResponse_ok, marshal_GetMyShipmentsResponse.
  cbn [GetMyShipmentsResponse_Result GetMyShipmentsResult_Items]. intros H.
  rewrite <- (app_nil_r (xml.struct_elem _ _)).
  erewrite decode_struct_elem; cycle 1.
  - reflexivity.
  - unfold marshal_GetMyShipmentsResult. cbn [GetMyShipmentsResult_Items].
    rewrite <- (app_nil_r (xml.slice_elem _ _ _)).
    erewrite decode_slice_elem; cycle 1.
    + reflexivity.
    + intros x []; reflexivity.
    + intros x y []; reflexivity.
    + intros []; reflexivity.
    + eapply Forall_impl; [|exact H]. intros s Hs. apply decode_ShipmentBasicData, Hs.
    + reflexivity.
  - reflexivity.
Qed.

Lemma decode_SOAPResponseBody (b : SOAPResponseBody) (depth : nat) :
  SOAPResponseBody_ok b ->
  xml.unmarshal_struct fields_SOAPResponseBody zero_SOAPResponseBody
    (elements depth (marshal_SOAPResponseBody b))
  = Ok b.
Proof.
  destruct b as [version created mine]. unfold SOAPResponseBody_ok, marshal_SOAPResponseBody.
  cbn [SOAPResponseBody_GetVersionResponse SOAPResponseBody_CreateShipmentsResponse
       SOAPResponseBody_GetMyShipmentsResponse].
  intros (Hv & Hc & Hm).
  rewrite <- (app_nil_r (pointer_elem (B "getMyShipmentsResponse") _ _)).
  erewrite decode_pointer_elem; cycle 1.
  { reflexivity. }
  { reflexivity. }
  { intros r ->. apply decode_GetVersionResponse, Hv. reflexivity. }
  erewrite decode_pointer_elem; cycle 1.
  { reflexivity. }
  { destruct version; reflexivity. }
  { intros r ->. apply decode_CreateShipmentsResponse, Hc. reflexivity. }
  erewrite decode_pointer_elem; cycle 1.
  { reflexivity. }
  { destruct version, created; reflexivity. }
  { intros r ->. apply decode_GetMyShipmentsResponse, Hm. reflexivity. }
  destruct version, created, mine; reflexivity.
Qed.

Lemma plain_CreatedShipment (s : CreatedShipment) :
  forallb plain (marshal_CreatedShipment s) = true.
Proof.
  destruct s as [? shipmentNo orderStatus]. destruct shipmentNo, orderStatus; reflexivity.
Qed.

Lemma plain_ShipmentBasicData (s : ShipmentBasicData) :
  forallb plain (marshal_ShipmentBasicData s) = true.
Proof. reflexivity. Qed.

Lemma plain_GetMyShipmentsResponse (r : GetMyShipmentsResponse) :
  forallb plain (marshal_GetMyShipmentsResponse r) = true.
Proof.
  unfold marshal_GetMyShipmentsResponse, marshal_GetMyShipmentsResult, xml.struct_elem.
  cbn [forallb plain].
  rewrite plain_slice_elem; [reflexivity | reflexivity | apply plain_ShipmentBasicData].
Qed.

Lemma plain_CreateShipmentsResponse (r : CreateShipmentsResponse) :
  forallb plain (marshal_CreateShipmentsResponse r) = true.
Proof.
  unfold marshal_CreateShipmentsResponse, marshal_CreateShipmentsResult, xml.struct_elem.
  cbn [forallb plain].
  rewrite plain_slice_elem; [reflexivity | reflexivity | apply plain_CreatedShipment].
Qed.

Lemma plain_pointer_elem {U} (tag : bytes) (f : U -> list xml.Markup) (o : option U) :
  tag_ok tag = true ->
  (forall u, forallb plain (f u) = true) ->
  forallb plain (pointer_elem tag f o) = true.
Proof.
  intros Ht Hf. destruct o as [u|]; [|reflexivity].
  cbn [pointer_elem xml.struct_elem forallb plain]. rewrite Ht, Hf. reflexivity.
Qed.

Lemma plain_SOAPResponseBody (b : SOAPResponseBody) :
  forallb plain (marshal_SOAPResponseBody b) = true.
Proof.
  unfold marshal_SOAPResponseBody. rewrite !forallb_app.
  rewrite !plain_pointer_elem; try reflexivity.
  - apply plain_GetMyShipmentsResponse.
  - apply plain_CreateShipmentsResponse.
Qed.

(** The name of the root element of a response, as the decoder stores it
    in [XMLName]. *)
Definition Envelope_name : xml.Name := {| xml.Space := []; xml.Local := B "Envelope" |}.

Lemma Unmarshal_marshaled_SOAPResponseEnvelope (e : SOAPResponseEnvelope) :
  SOAPResponseBody_ok (SOAPResponseEnvelope_Body e) ->
  Unmarshal_SOAPResponseEnvelope
    (xml.render (B "  ") 0
       (xml.Branch (B "Envelope") []
          (xml.struct_elem (B "Body")
             (marshal_SOAPResponseBody (SOAPResponseEnvelope_Body e)))))
  = Ok (mkSOAPResponseEnvelope Envelope_name (SOAPResponseEnvelope_Body e)).
Proof.
  intros H. unfold Unmarshal_SOAPResponseEnvelope.
  rewrite parse_plain_document.
  2:{ cbn [plain xml.struct_elem forallb]. rewrite plain_SOAPResponseBody. reflexivity. }
  rewrite image_branch. cbn [rbind xml.expect_name root_name].
  change (bytes_eqb (B "Envelope") (xml.Local (name_of (B "Envelope")))) with true.
  cbv iota. cbn [rbind]. rewrite unmarshal_content.
  rewrite <- (app_nil_r (xml.struct_elem (B "Body") _)).
  erewrite decode_struct_elem; cycle 1.
  - reflexivity.
  - apply decode_SOAPResponseBody, H.
  - reflexivity.
Qed.

Lemma decode_GetMyShipmentsBody_slots (b : SOAPResponseBody) (depth : nat) :
  SOAPResponseBody_ok b ->
  xml.unmarshal_struct fields_GetMyShipmentsBody zero_GetMyShipmentsBody
    (elements depth (marshal_SOAPResponseBody b))
  = Ok (mkGetMyShipmentsBody
          match SOAPResponseBody_GetMyShipmentsResponse b with
          | Some r => r
          | None => zero_GetMyShipmentsResponse
          end).
Proof.
  destruct b as [version created mine]. unfold SOAPResponseBody_ok, marshal_SOAPResponseBody.
  cbn [SOAPResponseBody_GetVersionResponse SOAPResponseBody_CreateShipmentsResponse
       SOAPResponseBody_GetMyShipmentsResponse].
  intros (_ & _ & Hm).
  assert (H1 : forall v more,
             xml.unmarshal_struct fields_GetMyShipmentsBody v
               (elements depth
                  (pointer_elem (B "getVersionResponse") marshal_GetVersionResponse
                                version ++ more))
             = xml.unmarshal_struct fields_GetMyShipmentsBody v (elements depth more)).
  { intros v more. destruct version; [|reflexivity].
    apply decode_skipped_elem. reflexivity. }
  assert (H2 : forall v more,
             xml.unmarshal_struct fields_GetMyShipmentsBody v
               (elements depth
                  (pointer_elem (B "createShipmentsResponse")
                                marshal_CreateShipmentsResponse created ++ more))
             = xml.unmarshal_struct fields_GetMyShipmentsBody v (elements depth more)).
  { intros v more. destruct created; [|reflexivity].
    apply decode_skipped_elem. reflexivity. }
  rewrite H1, H2. destruct mine as [r|]; [|reflexivity].
  cbn [pointer_elem]. rewrite <- (app_nil_r (xml.struct_elem _ _)).
  erewrite decode_struct_elem; cycle 1.
  - reflexivity.
  - apply decode_GetMyShipmentsResponse, Hm. reflexivity.
  - reflexivity.
Qed.

Lemma Unmarshal_marshaled_as_GetMyShipmentsEnvelope (e : SOAPResponseEnvelope) :
  SOAPResponseBody_ok (SOAPResponseEnvelope_Body e) ->
  Unmarshal_GetMyShipmentsEnvelope
    (xml.render (B "  ") 0
       (xml.Branch (B "Envelope") []
          (xml.struct_elem (B "Body")
             (marshal_SOAPResponseBody (SOAPResponseEnvelope_Body e)))))
  = Ok (mkGetMyShipmentsEnvelope Envelope_name
          (mkGetMyShipmentsBody
             match SOAPResponseBody_GetMyShipmentsResponse
                     (SOAPResponseEnvelope_Body e) with
             | Some r => r
             | None => zero_GetMyShipmentsResponse
             end)).
Proof.
  intros H. unfold Unmarshal_GetMyShipmentsEnvelope.
  rewrite parse_plain_document.
  2:{ cbn [plain xml.struct_elem forallb]. rewrite plain_SOAPResponseBody. reflexivity. }
  rewrite image_branch. cbn [rbind xml.expect_name root_name].
  change (bytes_eqb (B "Envelope") (xml.Local (name_of (B "Envelope")))) with true.
  cbv iota. cbn [rbind]. rewrite unmarshal_content.
  rewrite <- (app_nil_r (xml.struct_elem (B "Body") _)).
  erewrite decode_struct_elem; cycle 1.
  - reflexivity.
  - apply decode_GetMyShipmentsBody_slots, H.
  - reflexivity.
Qed.

(** ** The round trip of a response *)

(** X13: A response envelope whose strings are XML character data marshals,
    and the bytes unmarshal to the envelope with the same body: each slot
    nil or set as it was, every field of every record equal.  [XMLName]
    comes back as the name of the root element. *)
Theorem response_envelope_round_trip (e : SOAPResponseEnvelope) :
  SOAPResponseBody_ok (SOAPResponseEnvelope_Body e) ->
  exists data,
    xml.MarshalIndent e (B "  ") = Ok data
    /\ Unmarshal_SOAPResponseEnvelope data
       = Ok (mkSOAPResponseEnvelope Envelope_name (SOAPResponseEnvelope_Body e)).
Proof.
  intros H. eexists. split; [reflexivity|].
  apply Unmarshal_marshaled_SOAPResponseEnvelope, H.
Qed.

(** X14: The same for the envelope [GetMyShipments] decodes into, whose
    response is a value and not a pointer. *)
Theorem shipments_envelope_round_trip (e : GetMyShipmentsEnvelope) :
  GetMyShipmentsResponse_ok (GetMyShipmentsBody_Response (GetMyShipmentsEnvelope_Body e)) ->
  exists data,
    xml.MarshalIndent e (B "  ") = Ok data
    /\ Unmarshal_GetMyShipmentsEnvelope data
       = Ok (mkGetMyShipmentsEnvelope Envelope_name (GetMyShipmentsEnvelope_Body e)).
Proof.
  intros H. eexists. split; [reflexivity|].
  destruct e as [xmlname [r]].
  cbn [GetMyShipmentsEnvelope_Body GetMyShipmentsBody_Response] in H.
  apply (Unmarshal_marshaled_as_GetMyShipmentsEnvelope
           (mkSOAPResponseEnvelope xmlname (mkSOAPResponseBody None None (Some r)))).
  repeat split; cbn; intros r' [= <-]; exact H.
Qed.

Section Answers.

Variable float64 : Type.
Variable FormatFloat : float64 -> bytes.

(** X15: When the peer answers with a marshaled response envelope, each method
    returns what its slot of the envelope holds: [GetVersion] the version,
    [CreateShipments] the confirmations, [CreateShipment] the first of
    them, [GetMyShipments] the shipments; on a nil slot [GetVersion] and
    [CreateShipments] return their empty-response error, and
    [GetMyShipments] no shipment and no error. *)
Theorem methods_return_what_the_envelope_holds c ctx w resp e data :
  ctx <> NilContext ->
  SOAPResponseBody_ok (SOAPResponseEnvelope_Body e) ->
  xml.MarshalIndent e (B "  ") = Ok data ->
  (forall req, answers w req resp data) ->
  fst (GetVersion c ctx w)
  = match SOAPResponseBody_GetVersionResponse (SOAPResponseEnvelope_Body e) with
    | Some r => (GetVersionResponse_Version r, Some resp, None)
    | None => ([], Some resp, Some ErrEmptyGetVersion)
    end
  /\ (forall items,
        fst (CreateShipments float64 FormatFloat c ctx items w)
        = match SOAPResponseBody_CreateShipmentsResponse
                  (SOAPResponseEnvelope_Body e) with
          | Some r =>
              (CreateShipmentsResult_Items (CreateShipmentsResponse_Result r),
               Some resp, None)
          | None => ([], Some resp, Some ErrEmptyCreateShipments)
          end)
  /\ (forall x,
        fst (CreateShipment float64 FormatFloat c ctx x w)
        = match SOAPResponseBody_CreateShipmentsResponse
                  (SOAPResponseEnvelope_Body e) with
          | Some r =>
              match CreateShipmentsResult_Items (CreateShipmentsResponse_Result r) with
              | [] => (None, Some resp, Some ErrNoShipmentCreated)
              | first :: _ => (Some first, Some resp, None)
              end
          | None => (None, Some resp, Some ErrEmptyCreateShipments)
          end)
  /\ (forall createdFrom createdTo offset,
        fst (GetMyShipments c ctx createdFrom createdTo offset w)
        = (match SOAPResponseBody_GetMyShipmentsResponse
                   (SOAPResponseEnvelope_Body e) with
           | Some r => GetMyShipmentsResult_Items (GetMyShipmentsResponse_Result r)
           | None => []
           end, Some resp, None)).
Proof.
  intros Hctx Hok Hdata Hans.
  assert (Hd : data
               = xml.render (B "  ") 0
                   (xml.Branch (B "Envelope") []
                      (xml.struct_elem (B "Body")
                         (marshal_SOAPResponseBody (SOAPResponseEnvelope_Body e)))))
    by (injection Hdata as <-; reflexivity).
  clear Hdata. subst data.
  pose proof (Unmarshal_marshaled_SOAPResponseEnvelope e Hok) as Hu.
  pose proof (Unmarshal_marshaled_as_GetMyShipmentsEnvelope e Hok) as Hg.
  assert (Hc : forall items,
             fst (CreateShipments float64 FormatFloat c ctx items w)
             = match SOAPResponseBody_CreateShipmentsResponse
                       (SOAPResponseEnvelope_Body e) with
               | Some r =>
                   (CreateShipmentsResult_Items (CreateShipmentsResponse_Result r),
                    Some resp, None)
               | None => ([], Some resp, Some ErrEmptyCreateShipments)
               end).
  { intros items. rewrite CreateShipments_result.
    rewrite (transport_result_answers _ _ _ _ _ _ Hctx (Hans _)).
    unfold CreateShipments_decode. rewrite Hu. cbn [SOAPResponseEnvelope_Body].
    destruct (SOAPResponseBody_CreateShipmentsResponse (SOAPResponseEnvelope_Body e));
      reflexivity. }
  split; [|split; [exact Hc|split]].
  - rewrite GetVersion_result.
    rewrite (transport_result_answers _ _ _ _ _ _ Hctx (Hans _)).
    unfold GetVersion_decode. rewrite Hu. cbn [SOAPResponseEnvelope_Body].
    destruct (SOAPResponseBody_GetVersionResponse (SOAPResponseEnvelope_Body e));
      reflexivity.
  - intros x. rewrite CreateShipment_result, Hc.
    destruct (SOAPResponseBody_CreateShipmentsResponse (SOAPResponseEnvelope_Body e))
      as [r|]; [|reflexivity].
    destruct (CreateShipmentsResult_Items (CreateShipmentsResponse_Result r));
      reflexivity.
  - intros createdFrom createdTo offset. rewrite GetMyShipments_result.
    rewrite (transport_result_answers _ _ _ _ _ _ Hctx (Hans _)).
    unfold GetMyShipments_decode. rewrite Hg.
    cbn [GetMyShipmentsEnvelope_Body GetMyShipmentsBody_Response].
    destruct (SOAPResponseBody_GetMyShipmentsResponse (SOAPResponseEnvelope_Body e));
      reflexivity.
Qed.

End Answers.

(** *** Examples *)

Definition sample_shipment : ShipmentBasicData :=
  mkShipmentBasicData (B "11122223333") (B "2024-06-09")
    (mkAddressInfo (B "ESMALTE INC") (B "01249") (B "Warsaw") (B "GOLESZOWSKA")
                   (B "3") [] [] (B "123456789") (B "sender@example.com"))
    (mkAddressInfo (B "Test & Receiver") (B "01249") (B "Warsaw") (B "GOLESZOWSKA")
                   (B "3") [] [] (B "987654321") (B "receiver@example.com"))
    (B "<sent>").

(** An envelope with its three slots set. *)
Definition full_envelope : SOAPResponseEnvelope :=
  mkSOAPResponseEnvelope zero_Name
    (mkSOAPResponseBody
       (Some (mkGetVersionResponse (B "2.13.3")))
       (Some (mkCreateShipmentsResponse
                (mkCreateShipmentsResult [first_confirmation; second_confirmation])))
       (Some (mkGetMyShipmentsResponse (mkGetMyShipmentsResult [sample_shipment])))).

Definition full_document : bytes :=
  xml.render (B "  ") 0
    (xml.Branch (B "Envelope") []
       (xml.struct_elem (B "Body")
          (marshal_SOAPResponseBody (SOAPResponseEnvelope_Body full_envelope)))).

Lemma full_envelope_ok : SOAPResponseBody_ok (SOAPResponseEnvelope_Body full_envelope).
Proof.
  repeat split; cbn; intros r [= <-];
    repeat first [ split | apply Forall_cons | apply Forall_nil ];
    vm_compute; reflexivity.
Defined.

Lemma response_envelope_round_trip_witness :
  exists data,
    xml.MarshalIndent full_envelope (B "  ") = Ok data
    /\ Unmarshal_SOAPResponseEnvelope data
       = Ok (mkSOAPResponseEnvelope Envelope_name
               (SOAPResponseEnvelope_Body full_envelope)).
Proof. exact (response_envelope_round_trip full_envelope full_envelope_ok). Defined.

Lemma shipments_envelope_round_trip_witness :
  exists data,
    xml.MarshalIndent
      (mkGetMyShipmentsEnvelope zero_Name
         (mkGetMyShipmentsBody
            (mkGetMyShipmentsResponse (mkGetMyShipmentsResult [sample_shipment]))))
      (B "  ") = Ok data
    /\ Unmarshal_GetMyShipmentsEnvelope data
       = Ok (mkGetMyShipmentsEnvelope Envelope_name
               (mkGetMyShipmentsBody
                  (mkGetMyShipmentsResponse
                     (mkGetMyShipmentsResult [sample_shipment])))).
Proof.
  refine (shipments_envelope_round_trip
            (mkGetMyShipmentsEnvelope zero_Name
               (mkGetMyShipmentsBody
                  (mkGetMyShipmentsResponse
                     (mkGetMyShipmentsResult [sample_shipment])))) _).
  repeat first [ split | apply Forall_cons | apply Forall_nil ];
    vm_compute; reflexivity.
Defined.

Lemma methods_return_what_the_envelope_holds_witness :
  fst (GetVersion sample_client Background (replying_world 19884 full_document))
  = (B "2.13.3", Some (ok_response full_document), None)
  /\ fst (GetMyShipments sample_client Background (B "2024-06-03") (B "2024-06-10") 0
            (replying_world 19884 full_document))
     = ([sample_shipment], Some (ok_response full_document), None).
Proof.
  pose proof (methods_return_what_the_envelope_holds kilograms FormatKilograms
                sample_client Background (replying_world 19884 full_document)
                (ok_response full_document) full_envelope full_document
                ltac:(discriminate) full_envelope_ok eq_refl
                (fun _ => conj eq_refl eq_refl)) as (Hv & _ & _ & Hm).
  split; [exact Hv | exact (Hm _ _ _)].
Defined.

(** * Further properties of [GetMyShipmentsLastDays] *)

(** ** A negative number of days *)



(** ** The form of the dates *)

Lemma utoa_fuel_digits (f : nat) :
  forall n acc k,
    0 <= n < 10 ^ Z.of_nat k -> (1 <= k)%nat ->
    exists ds, strconv.utoa_fuel f n acc = ds ++ acc
               /\ (1 <= List.length ds <= k)%nat
               /\ forallb strconv.is_digit ds = true.
Proof.
  assert (Hone : forall n acc k, 0 <= n -> (1 <= k)%nat ->
            exists ds, strconv.digit_char (n mod 10) :: acc = ds ++ acc
                       /\ (1 <= List.length ds <= k)%nat
                       /\ forallb strconv.is_digit ds = true).
  { intros n acc k Hn Hk. exists [strconv.digit_char (n mod 10)].
    split; [reflexivity|]. split; [cbn [List.length]; lia|].
    cbn [forallb]. rewrite digit_char_is_digit; [reflexivity|].
    apply Z.mod_pos_bound. lia. }
  induction f as [|f IH]; intros n acc k Hn Hk.
  - cbn [strconv.utoa_fuel]. apply Hone; lia.
  - cbn [strconv.utoa_fuel].
    destruct (Z.eqb_spec (n / 10) 0) as [Hz|Hz]; [apply Hone; lia|].
    assert (Hq : 0 < n / 10).
    { pose proof (Z.div_pos n 10 ltac:(lia) ltac:(lia)). lia. }
    destruct k as [|[|k]]; [lia | |].
    + change (10 ^ Z.of_nat 1) with 10 in Hn.
      rewrite Z.div_small in Hq by lia. lia.
    + destruct (IH (n / 10) (strconv.digit_char (n mod 10) :: acc) (S k))
        as (ds & Heq & Hlen & Hd).
      * split; [lia|]. apply Z.div_lt_upper_bound; [lia|].
        replace (Z.of_nat (S (S k))) with (Z.succ (Z.of_nat (S k))) in Hn by lia.
        rewrite Z.pow_succ_r in Hn by lia. lia.
      * lia.
      * exists (ds ++ [strconv.digit_char (n mod 10)]). split.
        -- rewrite Heq, <- app_assoc. reflexivity.
        -- split; [rewrite length_app; cbn [List.length]; lia|].
           rewrite forallb_app, Hd. cbn [forallb].
           rewrite digit_char_is_digit; [reflexivity|].
           apply Z.mod_pos_bound. lia.
Qed.

Lemma zero_is_digit : strconv.is_digit "0"%char = true.
Proof. reflexivity. Qed.

Lemma appendInt_digits (x : Z) (width : nat) :
  0 <= x < 10 ^ Z.of_nat width -> (1 <= width)%nat ->
  List.length (time.appendInt x width) = width
  /\ forallb strconv.is_digit (time.appendInt x width) = true.
Proof.
  intros Hx Hw. unfold time.appendInt.
  destruct (Z.ltb_spec x 0) as [Hneg|_]; [lia|].
  rewrite Z.abs_eq by lia. unfold strconv.utoa.
  destruct (utoa_fuel_digits (Z.to_nat (Z.log2 x)) x [] width Hx Hw)
    as (ds & Heq & Hlen & Hd).
  rewrite Heq, app_nil_r. cbn [app]. split.
  - rewrite length_app, repeat_length. lia.
  - rewrite forallb_app, Hd, andb_true_r.
    apply forallb_forall. intros c Hc. apply repeat_spec in Hc. subst c.
    apply zero_is_digit.
Qed.

Definition day_check (z : Z) : bool :=
  let '(_, _, d) := time.civil_from_days z in (1 <=? d) && (d <=? 31).

Lemma day_check_era : all_from (Z.to_nat 146097) era_start day_check = true.
Proof. vm_compute. reflexivity. Qed.

Lemma day_of_month_range (z : Z) : 1 <= snd (time.civil_from_days z) <= 31.
Proof.
  set (k := (z - era_start) / 146097).
  set (z0 := z - 146097 * k).
  assert (Hz0 : era_start <= z0 < era_start + Z.of_nat (Z.to_nat 146097)).
  { rewrite Z2Nat.id by lia. unfold z0, k.
    pose proof (Z.mod_pos_bound (z - era_start) 146097 ltac:(lia)) as Hm.
    rewrite Z.mod_eq in Hm by lia. lia. }
  pose proof (all_from_spec _ _ _ day_check_era z0 Hz0) as Hc.
  unfold day_check in Hc.
  replace z with (z0 + 146097 * k) by (unfold z0; ring).
  rewrite civil_from_days_shift.
  destruct (time.civil_from_days z0) as [[y m] d]. cbn [shift_years snd].
  apply andb_true_iff in Hc as [H1 H2]. lia.
Qed.

(** A date as the server reads it: four digits, two digits, two digits,
    with a hyphen between them. *)
Definition is_date_text (s : bytes) : bool :=
  match s with
  | [y1; y2; y3; y4; h1; m1; m2; h2; d1; d2] =>
      forallb strconv.is_digit [y1; y2; y3; y4; m1; m2; d1; d2]
      && Ascii.eqb h1 "-" && Ascii.eqb h2 "-"
  | _ => false
  end.

Definition year_of (t : time.Time) : Z := fst (fst (time.Date t)).

Lemma Format_is_date_text (t : time.Time) :
  0 <= year_of t <= 9999 ->
  is_date_text (time.Format t time.layout_date) = true.
Proof.
  unfold year_of. intros Hy. rewrite Format_layout_date.
  pose proof (calendar_check_all (time.day_number t)) as (_ & Hm & _).
  pose proof (day_of_month_range (time.day_number t)) as Hd.
  unfold time.Date in *.
  destruct (time.civil_from_days (time.day_number t)) as [[y m] d].
  cbn [fst snd] in *. unfold format_date.
  destruct (appendInt_digits y 4) as [Ly Dy]; [change (10 ^ Z.of_nat 4) with 10000; lia | lia |].
  destruct (appendInt_digits m 2) as [Lm Dm]; [change (10 ^ Z.of_nat 2) with 100; lia | lia |].
  destruct (appendInt_digits d 2) as [Ld Dd]; [change (10 ^ Z.of_nat 2) with 100; lia | lia |].
  destruct (time.appendInt y 4) as [|y1 [|y2 [|y3 [|y4 [|]]]]]; try discriminate.
  destruct (time.appendInt m 2) as [|m1 [|m2 [|]]]; try discriminate.
  destruct (time.appendInt d 2) as [|d1 [|d2 [|]]]; try discriminate.
  cbn [forallb] in Dy, Dm, Dd.
  repeat match goal with
         | H : _ && _ = true |- _ => apply andb_true_iff in H; destruct H
         end.
  cbn [app list_ascii_of_string is_date_text forallb].
  repeat match goal with
         | H : strconv.is_digit _ = true |- _ => rewrite H; clear H
         end.
  reflexivity.
Qed.

(** X17: While the years of the two dates are within 0..9999, the dates
    [GetMyShipmentsLastDays] passes on are ten characters each: the year
    in four digits, the month and the day in two, with hyphens between
    them. *)
Theorem dates_are_year_month_day c ctx days w :
  0 <= year_of (clock w (ticks w)) <= 9999 ->
  0 <= year_of (time.AddDate (clock w (S (ticks w))) 0 0 (int_neg days)) <= 9999 ->
  exists createdFrom createdTo,
    GetMyShipmentsLastDays c ctx days w
    = GetMyShipments c ctx createdFrom createdTo 0 (after_two_readings w)
    /\ is_date_text createdFrom = true
    /\ is_date_text createdTo = true.
Proof.
  intros Hto Hfrom. eexists. eexists. split; [apply GetMyShipmentsLastDays_unfold|].
  split; apply Format_is_date_text; assumption.
Qed.

Lemma dates_are_year_month_day_witness :
  exists createdFrom createdTo,
    GetMyShipmentsLastDays sample_client Background 7
      (replying_world 19884 empty_body_document)
    = GetMyShipments sample_client Background createdFrom createdTo 0
        (after_two_readings (replying_world 19884 empty_body_document))
    /\ is_date_text createdFrom = true
    /\ is_date_text createdTo = true.
Proof.
  refine (dates_are_year_month_day sample_client Background 7
            (replying_world 19884 empty_body_document) _ _);
    vm_compute; split; discriminate.
Defined.

(** * Further properties of the debug files *)



(** X19: The request is written to its debug file before it is sent: when the
    peer cannot be reached, the file of the request is there, and no file
    of a response. *)
Theorem failed_request_is_still_logged c ctx body soapAction op w err :
  debugFiles c = true ->
  ctx <> NilContext ->
  can_mkdir w (debug_dir c w) = true ->
  (forall path, can_write w path = true) ->
  peer w (post ctx body soapAction) = Err err ->
  fst (doRequest c ctx body soapAction op w) = ([], None, Some (ErrMakingRequest err))
  /\ local_trace (snd (doRequest c ctx body soapAction op w))
     = (files w
        ++ [(debug_path c w (op ++ B "_request") (clock w (ticks w)), body)],
        stdout w
        ++ [DebugWrote (debug_path c w (op ++ B "_request") (clock w (ticks w)))],
        S (ticks w)).
Proof.
  intros Hd Hctx Hm Hw Hp. split.
  - rewrite doRequest_result. apply transport_result_fails; assumption.
  - unfold doRequest. rewrite Hd. unfold bind at 1.
    rewrite (writeDebugFile_written c _ body w Hm (Hw _)).
    assert (Hgo :
      local_trace
        (snd ((r <- http_Do (post ctx body soapAction) ;;
               match r with
               | Err err => ret ([], None, Some (ErrMakingRequest err))
               | Ok resp =>
                   match Response_Body resp with
                   | Err err => ret ([], Some resp, Some (ErrReadingResponse err))
                   | Ok respBody =>
                       writeDebugFile c (op ++ B "_response") respBody ;;;
                       ret (respBody, Some resp, None)
                   end
               end)%io
              (mkWorld (clock w) (S (ticks w)) (peer w) (sent w) (can_mkdir w)
                 (can_write w) (executable_dir w)
                 (files w
                  ++ [(debug_path c w (op ++ B "_request") (clock w (ticks w)), body)])
                 (stdout w
                  ++ [DebugWrote
                        (debug_path c w (op ++ B "_request") (clock w (ticks w)))]))))
      = (files w
         ++ [(debug_path c w (op ++ B "_request") (clock w (ticks w)), body)],
         stdout w
         ++ [DebugWrote (debug_path c w (op ++ B "_request") (clock w (ticks w)))],
         S (ticks w))).
    { unfold bind at 1. unfold http_Do. cbn [peer]. rewrite Hp. reflexivity. }
    destruct ctx; [congruence | |]; exact Hgo.
Qed.



Lemma failed_request_is_still_logged_witness :
  files (snd (doRequest logging_client Background getVersion_request
                (Endpoint ++ B "#getVersion") (B "getVersion")
                (answering_world (Err refused))))
  = [(B "/var/log/dhl/getVersion_request_20240610_000000.000.xml", getVersion_request)].
Proof.
  pose proof (failed_request_is_still_logged logging_client Background
                getVersion_request (Endpoint ++ B "#getVersion") (B "getVersion")
                (answering_world (Err refused)) refused
                eq_refl ltac:(discriminate) eq_refl (fun _ => eq_refl) eq_refl)
    as [_ H].
  exact (f_equal (fun t => fst (fst t)) H).
Defined.

(** * Prefixes and attributes in a response *)

(** An element tree without its name-space prefixes and attributes. *)
Fixpoint bare (n : xml.Node) : xml.Node :=
  match n with
  | xml.Text d => xml.Text d
  | xml.Element name _ kids =>
      xml.Element {| xml.Space := []; xml.Local := xml.Local name |} []
                  (map bare kids)
  end.

Lemma chardata_bare (kids : list xml.Node) :
  xml.chardata (map bare kids) = xml.chardata kids.
Proof.
  induction kids as [|[name attrs sub|d] kids IH]; [reflexivity | |];
    cbn [map bare xml.chardata flat_map app] in *; fold (xml.chardata kids) in *;
    fold (xml.chardata (map bare kids)) in *; rewrite IH; reflexivity.
Qed.

(** A struct whose decoding looks at local names and character data
    only. *)
Definition local_only {T} (tbl : xml.fields T) : Prop :=
  forall v kids,
    xml.unmarshal_struct tbl v (map bare kids) = xml.unmarshal_struct tbl v kids.

Lemma lookup_field_In {T} (tbl : xml.fields T) (name : bytes)
      (store : T -> list xml.Node -> result xml.error T) :
  xml.lookup_field tbl name = Some store -> exists tag, In (tag, store) tbl.
Proof.
  induction tbl as [|[tag s] tbl IH]; [discriminate|].
  cbn [xml.lookup_field]. destruct (bytes_eqb tag name).
  - intros [= <-]. exists tag. left. reflexivity.
  - intros H. destruct (IH H) as [tag' Hin]. exists tag'. right. exact Hin.
Qed.

Lemma local_only_stores {T} (tbl : xml.fields T) :
  (forall tag store, In (tag, store) tbl ->
                     forall v kids, store v (map bare kids) = store v kids) ->
  local_only tbl.
Proof.
  intros Hs v kids. revert v.
  induction kids as [|[name attrs sub|d] kids IH]; intros v; [reflexivity | |].
  - cbn [map bare xml.unmarshal_struct xml.Local].
    destruct (xml.lookup_field tbl (xml.Local name)) as [store|] eqn:El; [|apply IH].
    destruct (lookup_field_In _ _ _ El) as [tag Hin].
    rewrite (Hs tag store Hin).
    destruct (store v sub) as [v'|e]; cbn [rbind]; [apply IH | reflexivity].
  - cbn [map bare xml.unmarshal_struct]. apply IH.
Qed.

Lemma string_field_bare {T} (set : bytes -> T -> T) (v : T) (kids : list xml.Node) :
  xml.string_field set v (map bare kids) = xml.string_field set v kids.
Proof. unfold xml.string_field, xml.copy_string. rewrite chardata_bare. reflexivity. Qed.

Lemma struct_field_bare {T U} (get : T -> U) (set : U -> T -> T) (sub : xml.fields U)
      (v : T) (kids : list xml.Node) :
  local_only sub ->
  xml.struct_field get set sub v (map bare kids) = xml.struct_field get set sub v kids.
Proof. intros H. unfold xml.struct_field. rewrite H. reflexivity. Qed.

Lemma pointer_field_bare {T U} (get : T -> option U) (set : option U -> T -> T)
      (zero : U) (sub : xml.fields U) (v : T) (kids : list xml.Node) :
  local_only sub ->
  xml.pointer_field get set zero sub v (map bare kids)
  = xml.pointer_field get set zero sub v kids.
Proof. intros H. unfold xml.pointer_field. rewrite H. reflexivity. Qed.

Lemma slice_field_bare {T U} (get : T -> list U) (set : list U -> T -> T)
      (zero : U) (sub : xml.fields U) (v : T) (kids : list xml.Node) :
  local_only sub ->
  xml.slice_field get set zero sub v (map bare kids)
  = xml.slice_field get set zero sub v kids.
Proof. intros H. unfold xml.slice_field. rewrite H. reflexivity. Qed.

Ltac local_only_table :=
  apply local_only_stores; intros tag store Hin v kids; cbn [In] in Hin;
  repeat match goal with
         | H : _ \/ _ |- _ => destruct H as [H|H]
         | H : False |- _ => destruct H
         end;
  injection Hin as _ <-;
  first [ apply string_field_bare
        | apply struct_field_bare; assumption
        | apply pointer_field_bare; assumption
        | apply slice_field_bare; assumption ].

Lemma local_only_GetVersionResponse : local_only fields_GetVersionResponse.
Proof. unfold fields_GetVersionResponse. local_only_table. Qed.

Lemma local_only_CreatedShipment : local_only fields_CreatedShipment.
Proof. unfold fields_CreatedShipment. local_only_table. Qed.

Lemma local_only_CreateShipmentsResult : local_only fields_CreateShipmentsResult.
Proof.
  pose proof local_only_CreatedShipment.
  unfold fields_CreateShipmentsResult. local_only_table.
Qed.

Lemma local_only_CreateShipmentsResponse : local_only fields_CreateShipmentsResponse.
Proof.
  pose proof local_only_CreateShipmentsResult.
  unfold fields_CreateShipmentsResponse. local_only_table.
Qed.

Lemma local_only_AddressInfo : local_only fields_AddressInfo.
Proof. unfold fields_AddressInfo. local_only_table. Qed.

Lemma local_only_ShipmentBasicData : local_only fields_ShipmentBasicData.
Proof.
  pose proof local_only_AddressInfo.
  unfold fields_ShipmentBasicData. local_only_table.
Qed.

Lemma local_only_GetMyShipmentsResult : local_only fields_GetMyShipmentsResult.
Proof.
  pose proof local_only_ShipmentBasicData.
  unfold fields_GetMyShipmentsResult. local_only_table.
Qed.

Lemma local_only_GetMyShipmentsResponse : local_only fields_GetMyShipmentsResponse.
Proof.
  pose proof local_only_GetMyShipmentsResult.
  unfold fields_GetMyShipmentsResponse. local_only_table.
Qed.

Lemma local_only_GetMyShipmentsBody : local_only fields_GetMyShipmentsBody.
Proof.
  pose proof local_only_GetMyShipmentsResponse.
  unfold fields_GetMyShipmentsBody. local_only_table.
Qed.

Lemma local_only_SOAPResponseBody : local_only fields_SOAPResponseBody.
Proof.
  pose proof local_only_GetVersionResponse.
  pose proof local_only_CreateShipmentsResponse.
  pose proof local_only_GetMyShipmentsResponse.
  unfold fields_SOAPResponseBody. local_only_table.
Qed.

(** The body decoded from a root element, whatever its name. *)
Definition body_of (root : xml.Node) : result xml.error SOAPResponseBody :=
  rbind (xml.expect_name (B "Envelope") root)
        (fun kids =>
           rbind (xml.unmarshal_struct fields_SOAPResponseEnvelope
                    (mkSOAPResponseEnvelope (root_name root) zero_SOAPResponseBody) kids)
                 (fun e => Ok (SOAPResponseEnvelope_Body e))).

Definition shipments_body_of (root : xml.Node) : result xml.error GetMyShipmentsBody :=
  rbind (xml.expect_name (B "Envelope") root)
        (fun kids =>
           rbind (xml.unmarshal_struct fields_GetMyShipmentsEnvelope
                    (mkGetMyShipmentsEnvelope (root_name root) zero_GetMyShipmentsBody)
                    kids)
                 (fun e => Ok (GetMyShipmentsEnvelope_Body e))).

Lemma unmarshal_envelope_body (name : xml.Name) (kids : list xml.Node) :
  forall b,
    rbind (xml.unmarshal_struct fields_SOAPResponseEnvelope
             (mkSOAPResponseEnvelope name b) kids)
          (fun e => Ok (SOAPResponseEnvelope_Body e))
    = rbind (xml.unmarshal_struct fields_SOAPResponseEnvelope
               (mkSOAPResponseEnvelope zero_Name b) (map bare kids))
            (fun e => Ok (SOAPResponseEnvelope_Body e)).
Proof.
  induction kids as [|[n attrs sub|d] kids IH]; intros b; [reflexivity | |].
  - cbn [map bare xml.unmarshal_struct xml.Local].
    assert (Hl : xml.lookup_field fields_SOAPResponseEnvelope (xml.Local n)
                 = if bytes_eqb (B "Body") (xml.Local n)
                   then Some (xml.struct_field SOAPResponseEnvelope_Body
                                (fun v a => mkSOAPResponseEnvelope
                                              (SOAPResponseEnvelope_XMLName a) v)
                                fields_SOAPResponseBody)
                   else None) by reflexivity.
    rewrite Hl. clear Hl.
    destruct (bytes_eqb (B "Body") (xml.Local n)); [|apply IH].
    unfold xml.struct_field.
    cbn [SOAPResponseEnvelope_Body SOAPResponseEnvelope_XMLName].
    rewrite local_only_SOAPResponseBody.
    destruct (xml.unmarshal_struct fields_SOAPResponseBody b sub) as [b'|e];
      cbn [rbind]; [apply IH | reflexivity].
  - cbn [map bare xml.unmarshal_struct]. apply IH.
Qed.

Lemma unmarshal_shipments_envelope_body (name : xml.Name) (kids : list xml.Node) :
  forall b,
    rbind (xml.unmarshal_struct fields_GetMyShipmentsEnvelope
             (mkGetMyShipmentsEnvelope name b) kids)
          (fun e => Ok (GetMyShipmentsEnvelope_Body e))
    = rbind (xml.unmarshal_struct fields_GetMyShipmentsEnvelope
               (mkGetMyShipmentsEnvelope zero_Name b) (map bare kids))
            (fun e => Ok (GetMyShipmentsEnvelope_Body e)).
Proof.
  induction kids as [|[n attrs sub|d] kids IH]; intros b; [reflexivity | |].
  - cbn [map bare xml.unmarshal_struct xml.Local].
    assert (Hl : xml.lookup_field fields_GetMyShipmentsEnvelope (xml.Local n)
                 = if bytes_eqb (B "Body") (xml.Local n)
                   then Some (xml.struct_field GetMyShipmentsEnvelope_Body
                                (fun v a => mkGetMyShipmentsEnvelope
                                              (GetMyShipmentsEnvelope_XMLName a) v)
                                fields_GetMyShipmentsBody)
                   else None) by reflexivity.
    rewrite Hl. clear Hl.
    destruct (bytes_eqb (B "Body") (xml.Local n)); [|apply IH].
    unfold xml.struct_field.
    cbn [GetMyShipmentsEnvelope_Body GetMyShipmentsEnvelope_XMLName].
    rewrite local_only_GetMyShipmentsBody.
    destruct (xml.unmarshal_struct fields_GetMyShipmentsBody b sub) as [b'|e];
      cbn [rbind]; [apply IH | reflexivity].
  - cbn [map bare xml.unmarshal_struct]. apply IH.
Qed.

Lemma body_of_bare (root1 root2 : xml.Node) :
  bare root1 = bare root2 ->
  body_of root1 = body_of root2 /\ shipments_body_of root1 = shipments_body_of root2.
Proof.
  intros H. unfold body_of, shipments_body_of.
  destruct root1 as [n1 a1 k1|d1], root2 as [n2 a2 k2|d2]; try discriminate;
    [|split; reflexivity].
  cbn [bare] in H. injection H as Hn Hk.
  cbn [xml.expect_name root_name]. rewrite Hn.
  destruct (bytes_eqb (B "Envelope") (xml.Local n2)); [|split; reflexivity].
  cbn [rbind].
  rewrite (unmarshal_envelope_body n1 k1), (unmarshal_envelope_body n2 k2),
    (unmarshal_shipments_envelope_body n1 k1), (unmarshal_shipments_envelope_body n2 k2),
    Hk.
  split; reflexivity.
Qed.

Lemma Unmarshal_body_of (data : bytes) (root : xml.Node) :
  xml.parse_document data = Ok root ->
  rbind (Unmarshal_SOAPResponseEnvelope data)
        (fun e => Ok (SOAPResponseEnvelope_Body e))
  = body_of root
  /\ rbind (Unmarshal_GetMyShipmentsEnvelope data)
           (fun e => Ok (GetMyShipmentsEnvelope_Body e))
     = shipments_body_of root.
Proof.
  intros Hp.
  unfold Unmarshal_SOAPResponseEnvelope, Unmarshal_GetMyShipmentsEnvelope,
    body_of, shipments_body_of.
  rewrite Hp. cbn [rbind].
  destruct (xml.expect_name (B "Envelope") root); split; reflexivity.
Qed.

Section Prefixes.

Variable float64 : Type.
Variable FormatFloat : float64 -> bytes.

(** X20: The decoding of a response looks at the local names of the elements
    and at their character data only: two responses whose element trees
    are the same but for name-space prefixes and attributes make every
    method return the same value and the same error. *)
Theorem prefixes_and_attributes_are_ignored
        c ctx w1 w2 resp1 resp2 data1 data2 root1 root2 :
  ctx <> NilContext ->
  (forall req, answers w1 req resp1 data1) ->
  (forall req, answers w2 req resp2 data2) ->
  xml.parse_document data1 = Ok root1 ->
  xml.parse_document data2 = Ok root2 ->
  bare root1 = bare root2 ->
  outcome (fst (GetVersion c ctx w1)) = outcome (fst (GetVersion c ctx w2))
  /\ (forall items,
        outcome (fst (CreateShipments float64 FormatFloat c ctx items w1))
        = outcome (fst (CreateShipments float64 FormatFloat c ctx items w2)))
  /\ (forall createdFrom createdTo offset,
        outcome (fst (GetMyShipments c ctx createdFrom createdTo offset w1))
        = outcome (fst (GetMyShipments c ctx createdFrom createdTo offset w2))).
Proof.
  intros Hctx H1 H2 Hp1 Hp2 Hb.
  destruct (Unmarshal_body_of data1 root1 Hp1) as [Hs1 Hg1].
  destruct (Unmarshal_body_of data2 root2 Hp2) as [Hs2 Hg2].
  destruct (body_of_bare root1 root2 Hb) as [Es Eg].
  rewrite <- Hs1, <- Hs2 in Es. rewrite <- Hg1, <- Hg2 in Eg.
  split; [|split].
  - rewrite !GetVersion_result.
    rewrite (transport_result_answers _ _ _ _ _ _ Hctx (H1 _)),
      (transport_result_answers _ _ _ _ _ _ Hctx (H2 _)).
    unfold GetVersion_decode, outcome.
    destruct (Unmarshal_SOAPResponseEnvelope data1) as [e1|x1],
             (Unmarshal_SOAPResponseEnvelope data2) as [e2|x2];
      cbn [rbind] in Es; try discriminate.
    + injection Es as ->.
      destruct (SOAPResponseBody_GetVersionResponse (SOAPResponseEnvelope_Body e2));
        reflexivity.
    + injection Es as ->. reflexivity.
  - intros items. rewrite !CreateShipments_result.
    rewrite (transport_result_answers _ _ _ _ _ _ Hctx (H1 _)),
      (transport_result_answers _ _ _ _ _ _ Hctx (H2 _)).
    unfold CreateShipments_decode, outcome.
    destruct (Unmarshal_SOAPResponseEnvelope data1) as [e1|x1],
             (Unmarshal_SOAPResponseEnvelope data2) as [e2|x2];
      cbn [rbind] in Es; try discriminate.
    + injection Es as ->.
      destruct (SOAPResponseBody_CreateShipmentsResponse (SOAPResponseEnvelope_Body e2));
        reflexivity.
    + injection Es as ->. reflexivity.
  - intros createdFrom createdTo offset. rewrite !GetMyShipments_result.
    rewrite (transport_result_answers _ _ _ _ _ _ Hctx (H1 _)),
      (transport_result_answers _ _ _ _ _ _ Hctx (H2 _)).
    unfold GetMyShipments_decode, outcome.
    destruct (Unmarshal_GetMyShipmentsEnvelope data1) as [e1|x1],
             (Unmarshal_GetMyShipmentsEnvelope data2) as [e2|x2];
      cbn [rbind] in Eg; try discriminate.
    + injection Eg as ->. reflexivity.
    + injection Eg as ->. reflexivity.
Qed.

End Prefixes.

(** A version response as a SOAP server writes it, with the declaration,
    name-space declarations and prefixes. *)
Definition prefixed_version_document : bytes :=
  xml.Header
  ++ B "<SOAP-ENV:Envelope xmlns:SOAP-ENV=" ++ [quote_byte] ++ soapenvNS ++ [quote_byte]
  ++ B " xmlns:ns1=" ++ [quote_byte] ++ dhlNS ++ [quote_byte]
  ++ B "><SOAP-ENV:Body><ns1:getVersionResponse><getVersionResult>2.13.3"
  ++ B "</getVersionResult></ns1:getVersionResponse></SOAP-ENV:Body></SOAP-ENV:Envelope>".

Definition root_of (data : bytes) : xml.Node :=
  match xml.parse_document data with
  | Ok root => root
  | Err _ => xml.Text []
  end.

Lemma prefixes_and_attributes_are_ignored_witness :
  outcome (fst (GetVersion sample_client Background
                  (replying_world 19884 version_document)))
  = outcome (fst (GetVersion sample_client Background
                    (replying_world 19884 prefixed_version_document)))
  /\ outcome (fst (GetVersion sample_client Background
                     (replying_world 19884 prefixed_version_document)))
     = (B "2.13.3", None).
Proof.
  split; [|vm_compute; reflexivity].
  refine (proj1 (prefixes_and_attributes_are_ignored kilograms FormatKilograms
                   sample_client Background
                   (replying_world 19884 version_document)
                   (replying_world 19884 prefixed_version_document)
                   (ok_response version_document)
                   (ok_response prefixed_version_document)
                   version_document prefixed_version_document
                   (root_of version_document) (root_of prefixed_version_document)
                   ltac:(discriminate)
                   (fun _ => conj eq_refl eq_refl) (fun _ => conj eq_refl eq_refl)
                   _ _ _));
    vm_compute; reflexivity.
Defined.
